(** * nutanix_scripts: provisioning of Kubernetes nodes on a Nutanix cluster

    A shallow embedding of [nutanix_scripts/api.py],
    [nutanix_scripts/exceptions.py] and
    [nutanix_scripts/prepare_kubernetes_env.py].

    The Python code is a single thread of blocking REST calls.  It is
    embedded as a state-passing computation over an arbitrary hypervisor:
    every request is answered by a transition function of the hypervisor,
    every computation reports the requests it sent (with the replies it
    got), the pauses it took and the files it wrote.  The two polling loops
    ([while True] in [wait_for_task], [while not all(...)] in
    [prepare_env]) take a bound on the number of iterations; a run that
    exhausts the bound is [Pending], which is neither a result nor an
    exception. *)

From Stdlib Require Import ZArith String Ascii List DecimalString DecimalZ Lia.
From stdpp Require Import gmap strings list fin_maps.

Open Scope string_scope.

(** ** Python builtins used by the scripts *)

(** [str(n)] and ['{}'.format(n)] for an integer. *)
Definition str (z : Z) : string := NilZero.string_of_int (Z.to_int z).

(** [sep.join(parts)]. *)
Definition join (sep : string) (parts : list string) : string :=
  String.concat sep parts.

(** [s.startswith(p)]. *)
Definition startswith (s p : string) : bool := String.prefix p s.

(** The characters removed by [str.strip()]: space, tab, line feed,
    carriage return, vertical tab and form feed. *)
Definition is_space (c : ascii) : bool :=
  let n := nat_of_ascii c in
  (n =? 32)%nat || ((9 <=? n)%nat && (n <=? 13)%nat).

Fixpoint lstrip (s : string) : string :=
  match s with
  | String c s' => if is_space c then lstrip s' else s
  | EmptyString => EmptyString
  end.

(** [rstrip] drops the longest suffix of blanks: a blank is kept only when
    something that is kept follows it. *)
Fixpoint rstrip (s : string) : string :=
  match s with
  | String c s' =>
      match rstrip s' with
      | EmptyString => if is_space c then EmptyString else String c EmptyString
      | rest => String c rest
      end
  | EmptyString => EmptyString
  end.

Definition strip (s : string) : string := rstrip (lstrip s).

(** [range(n)] as the list [0; 1; ...; n-1]; empty when [n <= 0]. *)
Definition range (n : Z) : list Z := map Z.of_nat (seq 0 (Z.to_nat n)).

(** ** exceptions.py *)

Module ConfigurationError.
Definition INVALID_NUMBER_OF_MASTERS (set : string) : string :=
  "Number of master nodes must belongs to set " +:+ set.
Definition INVALID_TYPE (what : string) : string :=
  "Invalid config field value: " +:+ what.
Definition MISSING_SECTION (section : string) : string :=
  "Missing " +:+ section +:+ " section in configuration file".
Definition MISSING_CLUSTER (cluster : string) : string :=
  "Missing " +:+ cluster +:+ " cluster configuration".
Definition MISSING_FIELD (field : string) : string :=
  "Configuration missing field " +:+ field.
Definition INVALID_CREDENTIALS : string := "Invalid credentials".
Definition CONNECTION_PROBLEM : string :=
  "Problem with connection to Nutanix API.
        Check your Nutanix Prism address, port and Prism connectivity".
Definition INVALID_DOMAIN : string :=
  "Kubernetes cluster name(domain) need to match RFC 1035".
End ConfigurationError.

Module InvalidNumberOfItems.
(** ['There is {} {} with name {}, expected number was {}.'] *)
Definition INVALID_COUNT (count : Z) (kind name : string) (expected : Z)
  : string :=
  "There is " +:+ str count +:+ " " +:+ kind +:+ " with name " +:+ name
    +:+ ", expected number was " +:+ str expected +:+ ".".
End InvalidNumberOfItems.

Module ItemDoesNotExist.
(** ['{} {} does not exist'] *)
Definition MESSAGE (kind name : string) : string :=
  kind +:+ " " +:+ name +:+ " does not exist".
End ItemDoesNotExist.

Module MissingKeys.
(** ["There weren't any file matching {} format in ssh keys directory"] *)
Definition MESSAGE (pattern : string) : string :=
  "There weren't any file matching " +:+ pattern
    +:+ " format in ssh keys directory".
End MissingKeys.

(** ** Entities of the hypervisor, as the scripts read them *)

Record VM := {
  vm_uuid : string;            (* vm['uuid'] *)
  vmName : string;             (* vm['vmName'] *)
  ipAddresses : list string    (* vm['ipAddresses'] *)
}.

Record Network := {
  network_uuid : string;       (* network['uuid'] *)
  network_name : string        (* network['name'] *)
}.

Record Image := {
  image_name : string;         (* image['name'] *)
  vm_disk_id : string          (* image['vm_disk_id'] *)
}.

(** The reply to [GET vms?searchString=...]: [data['metadata']['count']]
    and [data['entities']]. *)
Record VmsResponse := {
  metadata_count : Z;
  entities : list VM
}.

(** The reply to an asynchronous request: [{'task_uuid': ...}]. *)
Record TaskRef := { task_uuid : string }.

(** The reply to [GET tasks/<uuid>]. *)
Record TaskInfo := {
  uuid : string;
  operation_type : string;
  progress_status : string;
  percentage_complete : Z;
  create_time_usecs : Z;
  complete_time_usecs : Z
}.

(** The body of [POST vms] built by [create_vm]; the fields that
    [create_vm] fills with constants are left out. *)
Record VmSpec := {
  spec_name : string;
  spec_memory_mb : Z;
  spec_num_vcpus : Z;
  spec_vmdisk_uuid : string;
  spec_minimum_size : Z;
  spec_network_uuid : string;
  spec_userdata : string
}.

(** One element of ['spec_list'] in the body of [POST vms/<uuid>/clone]. *)
Record CloneSpec := {
  clone_name : string;
  clone_memory_mb : Z;
  clone_num_vcpus : Z;
  override_network_config : bool
}.

(** The body of [POST images]. *)
Record ImageSpec := {
  ispec_name : string;
  ispec_image_type : string;
  ispec_storage_container_name : string;
  ispec_url : string
}.

Record Credentials := { j_username : string; j_password : string }.

(** What comes back from [requests]: no connection, or a status code with
    a decoded JSON body. *)
Inductive Reply (A : Type) : Type :=
| ConnectionFailed
| Response (status_code : Z) (json : A).
Arguments ConnectionFailed {A}.
Arguments Response {A} status_code json.

Inductive Exception : Type :=
| ConfigurationError (msg : string)
| InvalidNumberOfItems (msg : string)
| ItemDoesNotExist (msg : string)
| TaskFailed (task_info : TaskInfo)
| MissingKeys (msg : string)
| HTTPError (status_code : Z)
| ConnectionError
| NotImplementedError (msg : string)
| KeyError (key : string)
| IOError (path : string)
| IndexError.

(** Everything a run does that can be seen from outside, in the order it
    happens.  A request is recorded with the reply it received. *)
Inductive Event : Type :=
| EvLogin (credentials : Credentials) (r : Reply unit)
| EvGetVms (query : string) (r : Reply VmsResponse)
| EvPostVms (data : VmSpec) (r : Reply TaskRef)
| EvPostVmsClone (base_uuid : string) (spec_list : list CloneSpec)
    (r : Reply TaskRef)
| EvPostSetPowerState (target_uuid : string) (transition : string)
    (r : Reply TaskRef)
| EvGetTasks (task : string) (r : Reply TaskInfo)
| EvGetNetworks (r : Reply (list Network))
| EvGetImages (r : Reply (list Image))
| EvPostImages (data : ImageSpec) (r : Reply TaskRef)
| EvSleep (seconds : Z)
| EvWriteFile (path content : string).

(** ** The hypervisor and the computations that talk to it *)

(** The Nutanix cluster as seen through Prism: each request takes the
    cluster from one state to the next and is answered by a [Reply].
    [hv_sleep] is what happens on the cluster while the script sleeps. *)
Record Hypervisor (H : Type) : Type := {
  hv_login : Credentials -> H -> Reply unit * H;
  hv_vms : string -> H -> Reply VmsResponse * H;
  hv_vms_create : VmSpec -> H -> Reply TaskRef * H;
  hv_vms_clone : string -> list CloneSpec -> H -> Reply TaskRef * H;
  hv_vms_set_power_state : string -> string -> H -> Reply TaskRef * H;
  hv_tasks : string -> H -> Reply TaskInfo * H;
  hv_networks : H -> Reply (list Network) * H;
  hv_images : H -> Reply (list Image) * H;
  hv_images_create : ImageSpec -> H -> Reply TaskRef * H;
  hv_sleep : Z -> H -> H
}.
Arguments hv_login {H}.
Arguments hv_vms {H}.
Arguments hv_vms_create {H}.
Arguments hv_vms_clone {H}.
Arguments hv_vms_set_power_state {H}.
Arguments hv_tasks {H}.
Arguments hv_networks {H}.
Arguments hv_images {H}.
Arguments hv_images_create {H}.
Arguments hv_sleep {H}.

(** How a computation ends: with a value, with an exception, or still
    polling when the iteration bound is reached. *)
Inductive Outcome (A : Type) : Type :=
| Returned (a : A)
| Raised (e : Exception)
| Pending.
Arguments Returned {A} a.
Arguments Raised {A} e.
Arguments Pending {A}.

Record Run (H A : Type) : Type := MkRun {
  outcome : Outcome A;
  final : H;
  events : list Event
}.
Arguments MkRun {H A}.
Arguments outcome {H A}.
Arguments final {H A}.
Arguments events {H A}.

Definition M (H A : Type) : Type := H -> Run H A.

Definition ret {H A} (a : A) : M H A := fun h => MkRun (Returned a) h [].

Definition raise {H A} (e : Exception) : M H A :=
  fun h => MkRun (Raised e) h [].

Definition pending {H A} : M H A := fun h => MkRun Pending h [].

Definition bind {H A B} (m : M H A) (f : A -> M H B) : M H B :=
  fun h =>
    let r := m h in
    match outcome r with
    | Returned a =>
        let r' := f a (final r) in
        MkRun (outcome r') (final r') (events r ++ events r')
    | Raised e => MkRun (Raised e) (final r) (events r)
    | Pending => MkRun Pending (final r) (events r)
    end.

(** [try: m  except <class>: handler]: [handler e] is [None] when the
    [except] clause does not catch [e]. *)
Definition try_except {H A} (m : M H A) (handler : Exception -> option (M H A))
  : M H A :=
  fun h =>
    let r := m h in
    match outcome r with
    | Raised e =>
        match handler e with
        | Some k =>
            let r' := k (final r) in
            MkRun (outcome r') (final r') (events r ++ events r')
        | None => r
        end
    | _ => r
    end.

Declare Scope py_scope.
Delimit Scope py_scope with py.
Notation "x <- m ;; k" := (bind m (fun x => k))
  (at level 100, m at next level, right associativity) : py_scope.
Notation "m ;; k" := (bind m (fun _ => k))
  (at level 100, right associativity) : py_scope.
Open Scope py_scope.

(** [for x in xs: body x]. *)
Fixpoint for_each {H A} (xs : list A) (body : A -> M H unit) : M H unit :=
  match xs with
  | [] => ret tt
  | x :: xs' => body x ;; for_each xs' body
  end.

(** ** api.py: class NutanixApi *)

Inductive Method := GET | POST | DELETE.

Definition EXPECTED_STATUS_FOR_METHOD (method : Method) : Z :=
  match method with
  | GET => 200     (* httplib.OK *)
  | POST => 201    (* httplib.CREATED *)
  | DELETE => 201
  end.

(** [response.raise_for_status()]: an exception for 4xx and 5xx only. *)
Definition raise_for_status (status_code : Z) : option Exception :=
  if ((400 <=? status_code) && (status_code <? 600))%Z
  then Some (HTTPError status_code) else None.

Definition SLEEP_TIME : Z := 5.

Section Client.
Context {H : Type} (hv : Hypervisor H).

(** [time.sleep(seconds)]. *)
Definition sleep (seconds : Z) : M H unit :=
  fun h => MkRun (Returned tt) (hv_sleep hv seconds h) [EvSleep seconds].

(** [NutanixApi.__connect]. *)
Definition api_connect (credentials : Credentials) : M H unit :=
  fun h =>
    let (r, h') := hv_login hv credentials h in
    let ev := [EvLogin credentials r] in
    match r with
    | ConnectionFailed =>
        MkRun (Raised (ConfigurationError
                         ConfigurationError.CONNECTION_PROBLEM)) h' ev
    | Response status_code _ =>
        if (status_code =? 200)%Z then MkRun (Returned tt) h' ev
        else if (status_code =? 401)%Z then
          MkRun (Raised (ConfigurationError
                           ConfigurationError.INVALID_CREDENTIALS)) h' ev
        else
          MkRun (Raised (NotImplementedError
                           "Invalid reposnse from Nutanix API")) h' ev
    end.

(** [NutanixApi.__api_call]: [send] is the request of the session,
    [ev] how it shows in the record of the run. *)
Definition api_call {A} (method : Method) (send : H -> Reply A * H)
    (ev : Reply A -> Event) : M H A :=
  fun h =>
    let (r, h') := send h in
    match r with
    | ConnectionFailed => MkRun (Raised ConnectionError) h' [ev r]
    | Response status_code json =>
        if negb (status_code =? EXPECTED_STATUS_FOR_METHOD method)%Z then
          match raise_for_status status_code with
          | Some e => MkRun (Raised e) h' [ev r]
          | None => MkRun (Returned json) h' [ev r]
          end
        else MkRun (Returned json) h' [ev r]
    end.

Definition api_vms (query : string) : M H VmsResponse :=
  api_call GET (hv_vms hv query) (EvGetVms query).

Definition api_vms_create (data : VmSpec) : M H TaskRef :=
  api_call POST (hv_vms_create hv data) (EvPostVms data).

Definition api_vms_clone (base_uuid : string) (data : list CloneSpec)
  : M H TaskRef :=
  api_call POST (hv_vms_clone hv base_uuid data)
    (EvPostVmsClone base_uuid data).

Definition api_vms_set_power_state (target_uuid transition : string)
  : M H TaskRef :=
  api_call POST (hv_vms_set_power_state hv target_uuid transition)
    (EvPostSetPowerState target_uuid transition).

Definition api_tasks (task : string) : M H TaskInfo :=
  api_call GET (hv_tasks hv task) (EvGetTasks task).

Definition api_networks : M H (list Network) :=
  api_call GET (hv_networks hv) EvGetNetworks.

Definition api_images : M H (list Image) :=
  api_call GET (hv_images hv) EvGetImages.

Definition api_images_create (data : ImageSpec) : M H TaskRef :=
  api_call POST (hv_images_create hv data) (EvPostImages data).

End Client.

(** ** api.py: class Nutanix *)

(** A node configuration, as built by [get_kubernetes_config]. *)
Record NodeConfig := {
  role : string;
  number_of_nodes : Z;
  number_of_vcpu : Z;
  ram_size : Z
}.

(** [Nutanix.vm_name]: ["%s-%s-%s" % (role, number, vm_domain)]. *)
Definition vm_name (number : Z) (role vm_domain : string) : string :=
  role +:+ "-" +:+ str number +:+ "-" +:+ vm_domain.

(** [Nutanix.__prepare_clone]. *)
Definition prepare_clone (name : string) (ram vcpu : Z) : CloneSpec :=
  {| clone_name := name;
     clone_memory_mb := ram * 1024;
     clone_num_vcpus := vcpu;
     override_network_config := false |}.

(** The two nested [for] loops of [clone_vm], each turn appending one
    specification to [data['spec_list']]. *)
Definition clone_spec_list (configs : list NodeConfig) (vm_domain : string)
  : list CloneSpec :=
  foldl (fun (spec_list : list CloneSpec) node_type_config =>
           foldl (fun (spec_list : list CloneSpec) number =>
                    (spec_list ++
                       [prepare_clone
                          (vm_name number (role node_type_config) vm_domain)
                          (ram_size node_type_config)
                          (number_of_vcpu node_type_config)])%list)
                 spec_list (range (number_of_nodes node_type_config)))
        [] configs.

(** The dictionary [data] of [create_vm]. *)
Definition create_vm_data (vcpu ram disk : Z)
    (name network_uuid os_image_uuid cloud_config : string) : VmSpec :=
  {| spec_name := name;
     spec_memory_mb := ram * 1024;
     spec_num_vcpus := vcpu;
     spec_vmdisk_uuid := os_image_uuid;
     spec_minimum_size := disk * 1024 ^ 3;
     spec_network_uuid := network_uuid;
     spec_userdata := cloud_config |}.

(** The dictionary [data] of [create_image]. *)
Definition create_image_data (name storage_container_name os_image_url : string)
  : ImageSpec :=
  {| ispec_name := name;
     ispec_image_type := "DISK_IMAGE";
     ispec_storage_container_name := storage_container_name;
     ispec_url := os_image_url |}.

(** The body of the loop of [wait_for_task], after the status was
    fetched. *)
Inductive Poll := PollFailed | PollSucceeded | PollAgain.

Definition poll (task_info : TaskInfo) : Poll :=
  if String.eqb (progress_status task_info) "Failed" then PollFailed
  else if (percentage_complete task_info =? 100)%Z
          && String.eqb (progress_status task_info) "Succeeded"
       then PollSucceeded
       else PollAgain.

Section Nutanix.
Context {H : Type} (hv : Hypervisor H).

(** [Nutanix.get_vms]. *)
Definition get_vms (query : string) (expected_count : option Z)
  : M H (list VM) :=
  data <- api_vms hv query ;;
  match expected_count with
  | None => ret (entities data)
  | Some expected =>
      if (metadata_count data =? expected)%Z then ret (entities data)
      else if (metadata_count data =? 0)%Z then
        raise (ItemDoesNotExist (ItemDoesNotExist.MESSAGE "Vm" query))
      else
        raise (InvalidNumberOfItems
                 (InvalidNumberOfItems.INVALID_COUNT
                    (metadata_count data) "vms" query expected))
  end.

(** [Nutanix.get_vms_property]; the key [vm_property] is given as the
    projection it selects.  In the comprehension a later VM replaces an
    earlier one of the same name. *)
Definition get_vms_property {A} (query : string) (vm_property : VM -> A)
  : M H (gmap string A) :=
  vms <- get_vms query None ;;
  ret (foldl (fun d vm => <[vmName vm := vm_property vm]> d) ∅ vms).

(** [Nutanix.wait_for_task]; [fuel] bounds the turns of [while True]. *)
Fixpoint wait_for_task (fuel : nat) (task_data : TaskRef) : M H unit :=
  match fuel with
  | O => pending
  | S fuel' =>
      task_info <- api_tasks hv (task_uuid task_data) ;;
      match poll task_info with
      | PollFailed => raise (TaskFailed task_info)
      | PollSucceeded => ret tt
      | PollAgain => sleep hv SLEEP_TIME ;; wait_for_task fuel' task_data
      end
  end.

(** [Nutanix.create_vm]. *)
Definition create_vm (fuel : nat) (vcpu ram disk : Z)
    (name network_uuid os_image_uuid cloud_config : string) : M H unit :=
  let data := create_vm_data vcpu ram disk name network_uuid os_image_uuid
                cloud_config in
  task <- api_vms_create hv data ;;
  wait_for_task fuel task.

(** [Nutanix.get_or_create_vm]. *)
Definition get_or_create_vm (fuel : nat) (vcpu ram disk : Z)
    (name network_uuid os_image_uuid cloud_config : string) : M H VM :=
  vms <- try_except
           (vms <- get_vms name (Some 1%Z) ;; ret (Some vms))
           (fun e =>
              match e with
              | ItemDoesNotExist _ =>
                  Some (create_vm fuel vcpu ram disk name network_uuid
                          os_image_uuid cloud_config ;; ret None)
              | _ => None
              end) ;;
  vms <- match vms with
         | None | Some [] => get_vms name (Some 1%Z)   (* if not vms *)
         | Some vms => ret vms
         end ;;
  match vms with
  | vm :: _ => ret vm
  | [] => raise IndexError
  end.

(** [Nutanix.clone_vm]. *)
Definition clone_vm (fuel : nat) (base_uuid : string)
    (configs : list NodeConfig) (vm_domain : string) : M H unit :=
  let data := clone_spec_list configs vm_domain in
  task <- api_vms_clone hv base_uuid data ;;
  wait_for_task fuel task.

(** [Nutanix.get_network]. *)
Definition get_network (name : string) : M H Network :=
  data <- api_networks hv ;;
  let networks :=
    List.filter (fun network => String.eqb (network_name network) name)
      data in
  if (length networks =? 1)%nat then
    match networks with
    | network :: _ => ret network
    | [] => raise IndexError
    end
  else
    match networks with
    | [] => raise (ItemDoesNotExist (ItemDoesNotExist.MESSAGE "network" name))
    | _ =>
        raise (InvalidNumberOfItems
                 (InvalidNumberOfItems.INVALID_COUNT
                    (Z.of_nat (length networks)) "networks" name 1))
    end.

(** [Nutanix.get_image]. *)
Definition get_image (name : string) : M H Image :=
  data <- api_images hv ;;
  let images :=
    List.filter (fun image => String.eqb (image_name image) name) data in
  if (length images =? 1)%nat then
    match images with
    | image :: _ => ret image
    | [] => raise IndexError
    end
  else
    match images with
    | [] => raise (ItemDoesNotExist (ItemDoesNotExist.MESSAGE "image" name))
    | _ =>
        raise (InvalidNumberOfItems
                 (InvalidNumberOfItems.INVALID_COUNT
                    (Z.of_nat (length images)) "images" name 1))
    end.

(** [Nutanix.create_image]. *)
Definition create_image (fuel : nat)
    (name storage_container_name os_image_url : string) : M H unit :=
  let data := create_image_data name storage_container_name os_image_url in
  task <- api_images_create hv data ;;
  wait_for_task fuel task.

(** [Nutanix.get_or_create_os_image]. *)
Definition get_or_create_os_image (fuel : nat)
    (name storage_container_name os_image_url : string) : M H Image :=
  image <- try_except
             (image <- get_image name ;; ret (Some image))
             (fun e =>
                match e with
                | ItemDoesNotExist _ =>
                    Some (create_image fuel name storage_container_name
                            os_image_url ;; ret None)
                | _ => None
                end) ;;
  match image with
  | None => get_image name            (* if not image *)
  | Some image => ret image
  end.

(** [Nutanix.set_vm_power]: the reply of the request is dropped. *)
Definition set_vm_power (target_uuid state : string) : M H unit :=
  api_vms_set_power_state hv target_uuid state ;; ret tt.

End Nutanix.

(** ** prepare_kubernetes_env.py: cloud config *)

Definition OS_IMAGE_URL : string :=
  "http://cloud.centos.org/centos/7/images/CentOS-7-x86_64-GenericCloud-1702.qcow2c".

Definition BASE_VM_CPU : Z := 2.
Definition BASE_VM_RAM : Z := 4.
Definition BASE_VM_DISK : Z := 10.

Definition LF : string := String (ascii_of_nat 10) EmptyString.

Definition INVENTORY_FILE : string := "inventory".
Definition INVENTORY_CONST : list string :=
  [ LF +:+ "[etcd:children]";
    "kube-master";
    LF +:+ "[k8s-cluster:children]";
    "kube-node";
    "kube-master";
    LF +:+ "[k8s-cluster:vars]";
    "ansible_become=true";
    "ansible_ssh_common_args=" +:+ String (ascii_of_nat 34)
      ("-o UserKnownHostsFile=/dev/null -o StrictHostKeyChecking=no"
         +:+ String (ascii_of_nat 34) EmptyString) ].

Definition NUTANIX_CLUSTER_ENV : string := "NUTANIX_CLUSTER".
Definition K8S_CLUSTER_ENV : string := "K8S_CLUSTER".
Definition BASE_VM_ENV : string := "BASE_VM_NAME".
Definition SSH_DIR_ENV : string := "SSH_DIR".

Definition SUPPORTED_NUMBER_OF_MASTERS : list Z := [1; 3; 5]%Z.
Definition DEFAULT_NUMBER_OF_NODES : Z := 3.
Definition DEFAULT_NUMBER_OF_RAM : Z := 4.
Definition DEFAULT_NUMBER_OF_VCPU : Z := 2.

Definition CLOUD_CONFIG_HEADER : string :=
  join LF ["#cloud-config"; "users:"].

(** [CLOUD_CONFIG_USER_PART.format(username=..., ssh_key=...)]. *)
Definition CLOUD_CONFIG_USER_PART (username ssh_key : string) : string :=
  join LF [ "  - name: " +:+ username;
            "    shell: /bin/bash";
            "    sudo: ['ALL=(ALL) NOPASSWD:ALL']";
            "    lock_passwd: true";
            "    ssh-authorized-keys:";
            "      - " +:+ ssh_key ].

Definition in_range (lo hi : nat) (c : ascii) : bool :=
  let n := nat_of_ascii c in (lo <=? n)%nat && (n <=? hi)%nat.

Definition is_lower : ascii -> bool := in_range 97 122.   (* a-z *)
Definition is_digit : ascii -> bool := in_range 48 57.    (* 0-9 *)
Definition is_char (x : nat) : ascii -> bool := in_range x x.

(** The class [[a-z_]]. *)
Definition username_first (c : ascii) : bool := is_lower c || is_char 95 c.

(** The class [[a-z0-9_-]]. *)
Definition username_next (c : ascii) : bool :=
  is_lower c || is_digit c || is_char 95 c || is_char 45 c.

(** The longest prefix of [s] made of characters of a class, and what
    follows it: what a greedy [[...]*] consumes. *)
Fixpoint span (p : ascii -> bool) (s : string) : string * string :=
  match s with
  | String c s' =>
      if p c then let (taken, rest) := span p s' in (String c taken, rest)
      else (EmptyString, s)
  | EmptyString => (EmptyString, EmptyString)
  end.

Definition SSH_KEY_FILE_PATTERN : string :=
  "(?P<username>[a-z_][a-z0-9_-]*[$]?)\.pub".

(** [SSH_KEY_FILE_PATTERN.match(file_name)], giving
    [pattern_match.group('username')] when there is a match.  [re.match]
    anchors the pattern at the start of [file_name] only.  Neither ['$']
    nor ['.'] is in the class under the star, so giving back characters
    of the greedy run can never produce a match and none is tried. *)
Definition SSH_KEY_FILE_PATTERN_match (file_name : string) : option string :=
  match file_name with
  | String c s =>
      if username_first c then
        let (run, rest) := span username_next s in
        let (dollar, rest) :=
          match rest with
          | String d rest' =>
              if is_char 36 d then (String d EmptyString, rest')
              else (EmptyString, rest)
          | EmptyString => (EmptyString, rest)
          end in
        if String.prefix ".pub" rest then Some (String c (run +:+ dollar))
        else None
      else None
  | EmptyString => None
  end.

(** A directory as [os.listdir] and [open] show it: the entries in listing
    order, each with the contents read from it, or [None] when it cannot
    be opened for reading. *)
Definition Directory : Type := list (string * option string).

(** The [for] loop of [generate_cloud_config]. *)
Fixpoint cloud_config_parts (entries : Directory) (parts : list string)
  : Exception + list string :=
  match entries with
  | [] => inr parts
  | (file_name, contents) :: entries' =>
      match SSH_KEY_FILE_PATTERN_match file_name with
      | None => cloud_config_parts entries' parts
      | Some username =>
          match contents with
          | None => inl (IOError file_name)
          | Some ssh_key =>
              cloud_config_parts entries'
                (parts ++ [CLOUD_CONFIG_USER_PART username (strip ssh_key)])%list
          end
      end
  end.

(** [generate_cloud_config]; [ssh_keys_directory] is the directory found at
    the path the function is given. *)
Definition generate_cloud_config (ssh_keys_directory : Directory)
  : Exception + string :=
  match cloud_config_parts ssh_keys_directory [] with
  | inl e => inl e
  | inr [] => inl (MissingKeys (MissingKeys.MESSAGE SSH_KEY_FILE_PATTERN))
  | inr cloud_config_parts =>
      inr (join LF (CLOUD_CONFIG_HEADER :: cloud_config_parts))
  end.

(** ** prepare_kubernetes_env.py: configuration *)

Definition is_alnum (c : ascii) : bool := is_lower c || is_digit c.

Fixpoint all_chars (p : ascii -> bool) (s : string) : bool :=
  match s with
  | String c s' => p c && all_chars p s'
  | EmptyString => true
  end.

Fixpoint last_char (c : ascii) (s : string) : ascii :=
  match s with
  | String c' s' => last_char c' s'
  | EmptyString => c
  end.

(** One label, [[a-z0-9]([-a-z0-9]*[a-z0-9])?]. *)
Definition is_label (s : string) : bool :=
  match s with
  | String c s' =>
      is_alnum c
      && all_chars (fun x => is_alnum x || is_char 45 x) s'
      && is_alnum (last_char c s')
  | EmptyString => false
  end.

(** The pieces of [s] between the occurrences of [sep]. *)
Fixpoint split_on (sep : ascii) (s : string) : list string :=
  match s with
  | String c s' =>
      if Ascii.eqb c sep then EmptyString :: split_on sep s'
      else match split_on sep s' with
           | piece :: pieces => String c piece :: pieces
           | [] => [String c EmptyString]
           end
  | EmptyString => [EmptyString]
  end.

(** [s] without the line feed it may end with: [$] also matches just
    before a line feed that ends the string. *)
Fixpoint before_final_newline (s : string) : string :=
  match s with
  | String c EmptyString =>
      if is_char 10 c then EmptyString else s
  | String c s' => String c (before_final_newline s')
  | EmptyString => EmptyString
  end.

(** [DOMAIN_NAME.match(s)]: labels separated by dots. *)
Definition DOMAIN_NAME_match (s : string) : bool :=
  forallb is_label (split_on (ascii_of_nat 46) (before_final_newline s)).

(** A scalar of a YAML document, as [int(...)] treats it: an integer, or
    something on which [int] raises [ValueError] with a message.  Values
    on which [int] raises another error ([TypeError] on a null, a list or
    a mapping) are not represented, nor is a document or a section that
    is not a mapping. *)
Inductive YamlScalar :=
| YInt (z : Z)
| YNotInt (message : string).

Definition int (v : YamlScalar) : string + Z :=
  match v with
  | YInt z => inr z
  | YNotInt message => inl message
  end.

(** The section [master] or [worker] of [configs/k8s_cluster.yml]. *)
Record RoleYaml := {
  y_number_of_nodes : option YamlScalar;
  y_number_of_vcpu : option YamlScalar;
  y_ram_size : option YamlScalar
}.

(** [configs/k8s_cluster.yml] after [yaml.safe_load]. *)
Record K8sYaml := {
  y_common : option (gmap string string);
  y_master : option RoleYaml;
  y_worker : option RoleYaml
}.

(** [_tmp_config.get(key, fallback)]. *)
Definition get_or (field : option YamlScalar) (fallback : Z) : YamlScalar :=
  match field with
  | Some v => v
  | None => YInt fallback
  end.

(** The dictionary built for one role; [inl] carries the message of the
    [ValueError] raised by the first [int] that fails. *)
Definition role_config (name : string) (section : option RoleYaml)
  : string + NodeConfig :=
  let _tmp_config :=
    match section with
    | Some s => s
    | None => {| y_number_of_nodes := None; y_number_of_vcpu := None;
                 y_ram_size := None |}
    end in
  match int (get_or (y_number_of_nodes _tmp_config) DEFAULT_NUMBER_OF_NODES) with
  | inl message => inl message
  | inr nodes =>
      match int (get_or (y_number_of_vcpu _tmp_config) DEFAULT_NUMBER_OF_VCPU) with
      | inl message => inl message
      | inr vcpu =>
          match int (get_or (y_ram_size _tmp_config) DEFAULT_NUMBER_OF_RAM) with
          | inl message => inl message
          | inr ram =>
              inr {| role := name; number_of_nodes := nodes;
                     number_of_vcpu := vcpu; ram_size := ram |}
          end
      end
  end.

(** [get_kubernetes_config]; [file] is what [open] and [yaml.safe_load]
    give for the path.  [ConfigurationError] is a subclass of
    [ValueError]: the one raised for the number of masters is caught by
    [except ValueError] like the errors of [int]. *)
Definition get_kubernetes_config (file : Exception + K8sYaml)
  : Exception + (gmap string string * NodeConfig * NodeConfig) :=
  match file with
  | inl e => inl e
  | inr data =>
      match y_common data with
      | None =>
          inl (ConfigurationError (ConfigurationError.MISSING_SECTION "common"))
      | Some common_config =>
          let attempt : string + (NodeConfig * NodeConfig) :=
            match role_config "master" (y_master data) with
            | inl message => inl message
            | inr master_config =>
                if negb (existsb (Z.eqb (number_of_nodes master_config))
                           SUPPORTED_NUMBER_OF_MASTERS)
                then inl (ConfigurationError.INVALID_NUMBER_OF_MASTERS
                            "(1, 3, 5)")
                else
                  match role_config "worker" (y_worker data) with
                  | inl message => inl message
                  | inr worker_config => inr (master_config, worker_config)
                  end
            end in
          match attempt with
          | inl message =>
              inl (ConfigurationError (ConfigurationError.INVALID_TYPE message))
          | inr (master_config, worker_config) =>
              inr (common_config, master_config, worker_config)
          end
      end
  end.

(** One entry of [clusters] in [configs/nutanix_cluster.yml]. *)
Record ClusterYaml := {
  y_address : option string;
  y_port : option string
}.

(** [configs/nutanix_cluster.yml] after [yaml.safe_load]. *)
Record NutanixYaml := {
  y_clusters : option (gmap string ClusterYaml)
}.

(** What [prepare_env] reads from the process and the file system. *)
Record Inputs := {
  environ : gmap string string;                  (* os.environ *)
  k8s_config : Exception + K8sYaml;              (* configs/k8s_cluster.yml *)
  nutanix_config : Exception + NutanixYaml;      (* configs/nutanix_cluster.yml *)
  typed_credentials : Credentials;               (* raw_input, getpass *)
  listdir : string -> Exception + Directory;     (* os.listdir and open *)
  inventory_writable : bool                      (* open(INVENTORY_FILE, 'w') *)
}.

(** ** prepare_kubernetes_env.py: prepare_env *)

(** [all(vms_with_ips.values())]: a list is true when it is not empty. *)
Definition all_assigned (vms_with_ips : gmap string (list string)) : bool :=
  forallb (fun item : string * list string =>
             match item.2 with [] => false | _ => true end)
          (map_to_list vms_with_ips).

(** The comprehension that builds the host lines; [node_ips[0]] raises
    [IndexError] on an empty list. *)
Fixpoint host_lines (items : list (string * list string))
  : Exception + list string :=
  match items with
  | [] => inr []
  | (name, node_ips) :: items' =>
      match node_ips with
      | [] => inl IndexError
      | ip :: _ =>
          match host_lines items' with
          | inl e => inl e
          | inr lines =>
              inr ((name +:+ "    ansible_ssh_host=" +:+ ip) :: lines)
          end
      end
  end.

(** The lines of the inventory, from [vms_with_ips]. *)
Definition render_inventory (vms_with_ips : gmap string (list string))
  : Exception + list string :=
  match host_lines (map_to_list vms_with_ips) with
  | inl e => inl e
  | inr inventory_lines =>
      let names := (map_to_list vms_with_ips).*1 in
      inr (inventory_lines
             ++ [LF +:+ "[kube-master]"]
             ++ List.filter (fun name => startswith name "master") names
             ++ [LF +:+ "[kube-node]"]
             ++ List.filter (fun name => startswith name "worker") names
             ++ INVENTORY_CONST)%list
  end.

Section PrepareEnv.
Context {H : Type} (hv : Hypervisor H).

Definition lift {A} (r : Exception + A) : M H A :=
  match r with
  | inl e => raise e
  | inr a => ret a
  end.

(** [d[key]] with the exception raised when [key] is missing. *)
Definition getitem {A} (d : gmap string A) (key : string) (e : Exception)
  : M H A :=
  match d !! key with
  | Some v => ret v
  | None => raise e
  end.

(** [Nutanix.__init__]. *)
Definition Nutanix_init (file : Exception + NutanixYaml)
    (nutanix_cluster_name : string) (credentials : Credentials) : M H unit :=
  data <- lift file ;;
  match y_clusters data with
  | None =>
      raise (ConfigurationError
               (ConfigurationError.MISSING_SECTION "clusters"))
  | Some clusters_config =>
      config <- getitem clusters_config nutanix_cluster_name
                  (ConfigurationError
                     (ConfigurationError.MISSING_CLUSTER
                        nutanix_cluster_name)) ;;
      match y_address config, y_port config with
      | None, _ =>
          raise (ConfigurationError
                   (ConfigurationError.MISSING_FIELD "'address'"))
      | Some _, None =>
          raise (ConfigurationError
                   (ConfigurationError.MISSING_FIELD "'port'"))
      | Some _, Some _ => api_connect hv credentials
      end
  end.

(** [with open(path, 'w') as f: f.write(content)]. *)
Definition write_file (writable : bool) (path content : string) : M H unit :=
  if writable then fun h => MkRun (Returned tt) h [EvWriteFile path content]
  else raise (IOError path).

(** The loop [while not all(vms_with_ips.values())]; [fuel] bounds its
    turns. *)
Fixpoint wait_for_ips (fuel : nat) (k8s_cluster_name : string)
    (vms_with_ips : gmap string (list string))
  : M H (gmap string (list string)) :=
  if all_assigned vms_with_ips then ret vms_with_ips
  else
    match fuel with
    | O => pending
    | S fuel' =>
        sleep hv SLEEP_TIME ;;
        vms_with_ips <- get_vms_property hv k8s_cluster_name ipAddresses ;;
        wait_for_ips fuel' k8s_cluster_name vms_with_ips
    end.

(** [prepare_env], from ['Generate ansible inventory'] to the end.  After
    the write the file is read again, for the log only. *)
Definition prepare_env_inventory (inp : Inputs)
    (vms_with_ips : gmap string (list string)) : M H unit :=
  inventory_lines <- lift (render_inventory vms_with_ips) ;;
  write_file (inventory_writable inp) INVENTORY_FILE
    (join LF inventory_lines).

(** [prepare_env], from ['Get network configuration'] to the end. *)
Definition prepare_env_provision (fuel : nat) (inp : Inputs)
    (k8s_cluster_name : string) (k8s_common_config : gmap string string)
    (k8s_master_config k8s_worker_config : NodeConfig) : M H unit :=
  name <- getitem k8s_common_config "network_name"
            (ConfigurationError
               (ConfigurationError.MISSING_FIELD "network_name")) ;;
  network <- get_network hv name ;;
  os_image_name <- getitem k8s_common_config "os_image_name"
            (ConfigurationError
               (ConfigurationError.MISSING_FIELD "storage_container_name")) ;;
  storage_container_name <-
    getitem k8s_common_config "storage_container_name"
            (ConfigurationError
               (ConfigurationError.MISSING_FIELD "storage_container_name")) ;;
  os_image <- get_or_create_os_image hv fuel os_image_name
                storage_container_name OS_IMAGE_URL ;;
  base_vm_name <- getitem (environ inp) BASE_VM_ENV (KeyError BASE_VM_ENV) ;;
  ssh_dir <- getitem (environ inp) SSH_DIR_ENV (KeyError SSH_DIR_ENV) ;;
  ssh_keys_directory <- lift (listdir inp ssh_dir) ;;
  cloud_config <- lift (generate_cloud_config ssh_keys_directory) ;;
  base_vm <- get_or_create_vm hv fuel BASE_VM_CPU BASE_VM_RAM BASE_VM_DISK
               base_vm_name (network_uuid network) (vm_disk_id os_image)
               cloud_config ;;
  clone_vm hv fuel (vm_uuid base_vm) [k8s_master_config; k8s_worker_config]
    k8s_cluster_name ;;
  let expected_count :=
    (number_of_nodes k8s_master_config
     + number_of_nodes k8s_worker_config)%Z in
  get_vms hv k8s_cluster_name (Some expected_count) ;;
  uuids <- get_vms_property hv k8s_cluster_name vm_uuid ;;
  for_each (map_to_list uuids).*2
    (fun target_uuid => set_vm_power hv target_uuid "on") ;;
  vms_with_ips <- get_vms_property hv k8s_cluster_name ipAddresses ;;
  vms_with_ips <- wait_for_ips fuel k8s_cluster_name vms_with_ips ;;
  prepare_env_inventory inp vms_with_ips.

(** [prepare_env]. *)
Definition prepare_env (fuel : nat) (inp : Inputs) : M H unit :=
  k8s_cluster_name <-
    getitem (environ inp) K8S_CLUSTER_ENV (KeyError K8S_CLUSTER_ENV) ;;
  if negb (DOMAIN_NAME_match k8s_cluster_name) then
    raise (ConfigurationError ConfigurationError.INVALID_DOMAIN)
  else
    nutanix_cluster_name <-
      getitem (environ inp) NUTANIX_CLUSTER_ENV
        (KeyError NUTANIX_CLUSTER_ENV) ;;
    configs <- lift (get_kubernetes_config (k8s_config inp)) ;;
    let '(k8s_common_config, k8s_master_config, k8s_worker_config) :=
      configs in
    Nutanix_init (nutanix_config inp) nutanix_cluster_name
      (typed_credentials inp) ;;
    get_vms hv k8s_cluster_name (Some 0%Z) ;;
    prepare_env_provision fuel inp k8s_cluster_name k8s_common_config
      k8s_master_config k8s_worker_config.

End PrepareEnv.

(** ** A sample cluster

    A small simulation of Prism, used to run the scripts on concrete
    inputs.  Searching VMs is by substring of the name; creating and
    cloning add VMs without addresses; a pause gives an address to every
    VM that has none; the status of a task is read from a list of prepared
    replies, and is a success once the list is used up. *)

Record Cluster := {
  c_vms : list VM;
  c_images : list Image;
  c_networks : list Network;
  c_task_replies : list TaskInfo
}.

Fixpoint contains (s sub : string) : bool :=
  String.prefix sub s
  || match s with
     | String _ s' => contains s' sub
     | EmptyString => false
     end.

Definition task_info (status : string) (percentage : Z) : TaskInfo :=
  {| uuid := "task-1"; operation_type := "kVmOp";
     progress_status := status; percentage_complete := percentage;
     create_time_usecs := 0; complete_time_usecs := 1000000 |}.

Definition new_vm (name : string) : VM :=
  {| vm_uuid := "uuid-" +:+ name; vmName := name; ipAddresses := [] |}.

Definition with_vms (c : Cluster) (vms : list VM) : Cluster :=
  {| c_vms := vms; c_images := c_images c; c_networks := c_networks c;
     c_task_replies := c_task_replies c |}.

Definition assign_ip (vm : VM) : VM :=
  match ipAddresses vm with
  | [] => {| vm_uuid := vm_uuid vm; vmName := vmName vm;
             ipAddresses := ["10.0.0.10"] |}
  | _ => vm
  end.

Definition sample : Hypervisor Cluster := {|
  hv_login := fun _ c => (Response 200 tt, c);
  hv_vms := fun query c =>
    let found := List.filter (fun vm => contains (vmName vm) query) (c_vms c) in
    (Response 200 {| metadata_count := Z.of_nat (length found);
                     entities := found |}, c);
  hv_vms_create := fun data c =>
    (Response 201 {| task_uuid := "task-1" |},
     with_vms c (c_vms c ++ [new_vm (spec_name data)]));
  hv_vms_clone := fun _ spec_list c =>
    (Response 201 {| task_uuid := "task-1" |},
     with_vms c (c_vms c ++ map (fun s => new_vm (clone_name s)) spec_list));
  hv_vms_set_power_state := fun _ _ c =>
    (Response 201 {| task_uuid := "task-1" |}, c);
  hv_tasks := fun _ c =>
    match c_task_replies c with
    | reply :: replies =>
        (Response 200 reply,
         {| c_vms := c_vms c; c_images := c_images c;
            c_networks := c_networks c; c_task_replies := replies |})
    | [] => (Response 200 (task_info "Succeeded" 100), c)
    end;
  hv_networks := fun c => (Response 200 (c_networks c), c);
  hv_images := fun c => (Response 200 (c_images c), c);
  hv_images_create := fun data c =>
    (Response 201 {| task_uuid := "task-1" |},
     {| c_vms := c_vms c;
        c_images := c_images c
                      ++ [{| image_name := ispec_name data;
                             vm_disk_id := "disk-" +:+ ispec_name data |}];
        c_networks := c_networks c;
        c_task_replies := c_task_replies c |});
  hv_sleep := fun _ c => with_vms c (map assign_ip (c_vms c))
|}.

(** A cluster with one network and nothing else, whose first task needs
    one more look before it has succeeded. *)
Definition fresh_cluster : Cluster :=
  {| c_vms := []; c_images := [];
     c_networks := [{| network_uuid := "net-1"; network_name := "vlan0" |}];
     c_task_replies := [task_info "Running" 50] |}.

(** A cluster where the next status of a task is a failure. *)
Definition failing_cluster : Cluster :=
  {| c_vms := [new_vm "worker-0-demo"]; c_images := []; c_networks := [];
     c_task_replies := [task_info "Failed" 0] |}.

(** A cluster that already has the image and the base VM. *)
Definition stocked_cluster : Cluster :=
  {| c_vms := [new_vm "base"];
     c_images := [{| image_name := "centos"; vm_disk_id := "disk-centos" |};
                  {| image_name := "debian"; vm_disk_id := "disk-debian" |}];
     c_networks := [{| network_uuid := "net-1"; network_name := "vlan0" |}];
     c_task_replies := [] |}.

(** A cluster front end whose search always reports one VM and gives an
    empty list of entities. *)
Definition miscounting : Hypervisor unit := {|
  hv_login := fun _ c => (Response 200 tt, c);
  hv_vms := fun _ c =>
    (Response 200 {| metadata_count := 1; entities := [] |}, c);
  hv_vms_create := fun _ c => (Response 201 {| task_uuid := "task-1" |}, c);
  hv_vms_clone := fun _ _ c => (Response 201 {| task_uuid := "task-1" |}, c);
  hv_vms_set_power_state := fun _ _ c =>
    (Response 201 {| task_uuid := "task-1" |}, c);
  hv_tasks := fun _ c => (Response 200 (task_info "Succeeded" 100), c);
  hv_networks := fun c => (Response 200 [], c);
  hv_images := fun c => (Response 200 [], c);
  hv_images_create := fun _ c => (Response 201 {| task_uuid := "task-1" |}, c);
  hv_sleep := fun _ c => c
|}.

Definition sample_k8s_yaml : K8sYaml :=
  {| y_common := Some (<["network_name" := "vlan0"]>
                         (<["os_image_name" := "centos"]>
                            (<["storage_container_name" := "default"]> ∅)));
     y_master := Some {| y_number_of_nodes := Some (YInt 1);
                         y_number_of_vcpu := None; y_ram_size := None |};
     y_worker := Some {| y_number_of_nodes := Some (YInt 2);
                         y_number_of_vcpu := None; y_ram_size := None |} |}.

Definition sample_inputs : Inputs :=
  {| environ := <[K8S_CLUSTER_ENV := "demo"]>
                  (<[NUTANIX_CLUSTER_ENV := "lab"]>
                     (<[BASE_VM_ENV := "base"]>
                        (<[SSH_DIR_ENV := "keys"]> ∅)));
     k8s_config := inr sample_k8s_yaml;
     nutanix_config :=
       inr {| y_clusters :=
                Some (<["lab" := {| y_address := Some "10.0.0.1";
                                     y_port := Some "9440" |}]> ∅) |};
     typed_credentials := {| j_username := "admin"; j_password := "secret" |};
     listdir := fun path =>
       if String.eqb path "keys"
       then inr [("alice.pub", Some ("KEY_A" +:+ LF)); ("notes.txt", Some "x")]
       else inl (IOError path);
     inventory_writable := true |}.

(** ** Vocabulary of the statements *)

(** The status codes with which [NutanixApi.__api_call] returns the body
    of the reply: the expected one, and any that [raise_for_status] lets
    through. *)
Definition accepted (method : Method) (status_code : Z) : bool :=
  (status_code =? EXPECTED_STATUS_FOR_METHOD method)%Z
  || negb ((400 <=? status_code) && (status_code <? 600))%Z.

(** Requests that create something. *)
Definition is_create (ev : Event) : bool :=
  match ev with
  | EvPostVms _ _ | EvPostImages _ _ => true
  | _ => false
  end.

Definition is_write (ev : Event) : bool :=
  match ev with
  | EvWriteFile _ _ => true
  | _ => false
  end.

Definition is_clone (ev : Event) : bool :=
  match ev with
  | EvPostVmsClone _ _ _ => true
  | _ => false
  end.


(** What a fetched status reports. *)
Definition reports_failed (task_info : TaskInfo) : Prop :=
  progress_status task_info = "Failed".

Definition reports_succeeded (task_info : TaskInfo) : Prop :=
  percentage_complete task_info = 100%Z
  /\ progress_status task_info = "Succeeded".

(** The course of one wait on a task, with the way it ends.  A status
    that reports a failure ends the wait with [TaskFailed]; a status that
    reports 100 percent and success ends it normally; after any other
    status comes a pause of [SLEEP_TIME] and the next request.  A request
    that fails ends the wait with the error of the request. *)
Inductive polling (task : string) : list Event -> Outcome unit -> Prop :=
| polling_bound :
    polling task [] Pending
| polling_failed status_code task_info :
    accepted GET status_code = true ->
    reports_failed task_info ->
    polling task [EvGetTasks task (Response status_code task_info)]
      (Raised (TaskFailed task_info))
| polling_succeeded status_code task_info :
    accepted GET status_code = true ->
    reports_succeeded task_info ->
    polling task [EvGetTasks task (Response status_code task_info)]
      (Returned tt)
| polling_http_error status_code task_info :
    accepted GET status_code = false ->
    polling task [EvGetTasks task (Response status_code task_info)]
      (Raised (HTTPError status_code))
| polling_no_connection :
    polling task [EvGetTasks task ConnectionFailed] (Raised ConnectionError)
| polling_again status_code task_info evs o :
    accepted GET status_code = true ->
    ~ reports_failed task_info ->
    ~ reports_succeeded task_info ->
    polling task evs o ->
    polling task
      (EvGetTasks task (Response status_code task_info)
         :: EvSleep SLEEP_TIME :: evs) o.

(** A request that was answered with a task is followed at once by the
    wait on that task: the first request after it asks for the status of
    the task, and what follows it is the course of the wait, which decides
    the outcome. *)
Definition submitted_then_polled {H} (post : Event) (task : TaskRef)
    (r : Run H unit) : Prop :=
  (exists reply rest,
     events r = post :: EvGetTasks (task_uuid task) reply :: rest)
  /\ (exists evs,
        events r = post :: evs /\ polling (task_uuid task) evs (outcome r)).

(** *** Names of key files *)

(** The head of a string is outside a class, or the string is empty. *)
Definition stops (p : ascii -> bool) (s : string) : Prop :=
  match s with
  | String c _ => p c = false
  | EmptyString => True
  end.

(** [s] without the dollar sign it may end with. *)
Fixpoint without_final_dollar (s : string) : string :=
  match s with
  | String c EmptyString => if is_char 36 c then EmptyString else s
  | String c s' => String c (without_final_dollar s')
  | EmptyString => EmptyString
  end.

(** A user name: a lowercase letter or an underscore, then lowercase
    letters, digits, underscores and hyphens, then possibly one dollar
    sign. *)
Definition is_username (u : string) : bool :=
  match u with
  | String c s => username_first c && all_chars username_next (without_final_dollar s)
  | EmptyString => false
  end.

(** [Some u] when [s] is [u] followed by [suffix]. *)
Fixpoint without_suffix (suffix s : string) : option string :=
  if String.eqb s suffix then Some EmptyString
  else match s with
       | String c s' => option_map (String c) (without_suffix suffix s')
       | EmptyString => None
       end.

(** The user of a file whose name is exactly [<username>.pub]. *)
Definition key_file_user (file_name : string) : option string :=
  match without_suffix ".pub" file_name with
  | Some u => if is_username u then Some u else None
  | None => None
  end.

Definition is_key_file (file_name : string) : bool :=
  match key_file_user file_name with
  | Some _ => true
  | None => false
  end.

(** A name that goes on after a leading [<username>.pub]. *)
Definition continues_past_pub (file_name : string) : Prop :=
  exists u rest,
    is_username u = true /\ rest <> EmptyString
    /\ file_name = u +:+ ".pub" +:+ rest.

(** The user blocks of the key files of a directory, in listing order. *)
Definition user_blocks (dir : Directory) : list string :=
  omap (fun entry : string * option string =>
          match key_file_user entry.1, entry.2 with
          | Some u, Some ssh_key =>
              Some (CLOUD_CONFIG_USER_PART u (strip ssh_key))
          | _, _ => None
          end) dir.

(** The form of a key file name in the words of the specification: a
    user name made of lowercase letters, digits, underscores and hyphens,
    with an optional dollar sign at its end, followed by [.pub]. *)
Definition spec_key_file (file_name : string) : Prop :=
  exists body dollar,
    all_chars username_next body = true
    /\ (dollar = EmptyString \/ dollar = "$")
    /\ file_name = body +:+ dollar +:+ ".pub".

(** *** The inventory file *)



(** *** Configuration of the cluster *)

(** The file [configs/nutanix_cluster.yml] could be read and has an entry
    for the cluster, with an address and a port. *)
Definition cluster_configured (file : Exception + NutanixYaml)
    (nutanix_cluster_name : string) : bool :=
  match file with
  | inr data =>
      match y_clusters data with
      | Some clusters_config =>
          match clusters_config !! nutanix_cluster_name with
          | Some config =>
              match y_address config, y_port config with
              | Some _, Some _ => true
              | _, _ => false
              end
          | None => false
          end
      | None => false
      end
  | inl _ => false
  end.

(** *** Kinds of events *)

Inductive Kind : Type :=
| KLogin | KGetVms | KPostVms | KPostVmsClone | KPostSetPowerState
| KGetTasks | KGetNetworks | KGetImages | KPostImages | KSleep | KWriteFile.

#[global] Instance Kind_eq_dec : EqDecision Kind.
Proof. solve_decision. Defined.

Definition kind (ev : Event) : Kind :=
  match ev with
  | EvLogin _ _ => KLogin
  | EvGetVms _ _ => KGetVms
  | EvPostVms _ _ => KPostVms
  | EvPostVmsClone _ _ _ => KPostVmsClone
  | EvPostSetPowerState _ _ _ => KPostSetPowerState
  | EvGetTasks _ _ => KGetTasks
  | EvGetNetworks _ => KGetNetworks
  | EvGetImages _ => KGetImages
  | EvPostImages _ _ => KPostImages
  | EvSleep _ => KSleep
  | EvWriteFile _ _ => KWriteFile
  end.

(** A computation whose events are all of the kinds [ks], wherever it
    starts. *)
Definition only {H A} (ks : list Kind) (m : M H A) : Prop :=
  forall h, Forall (fun ev => kind ev ∈ ks) (events (m h)).

(** The number of events of kind [k]. *)
Definition count (k : Kind) (evs : list Event) : nat :=
  length (List.filter (fun ev => bool_decide (kind ev = k)) evs).

(** A computation with at most [n] events of kind [k], wherever it
    starts. *)
Definition at_most {H A} (k : Kind) (n : nat) (m : M H A) : Prop :=
  forall h, count k (events (m h)) <= n.

(** *** Names of domains *)

(** The characters of a label of a domain name. *)
Definition label_char (c : ascii) : bool := is_alnum c || is_char 45 c.

(** The characters of a domain name: those of a label, and the dot. *)
Definition domain_char (c : ascii) : bool :=
  label_char c || Ascii.eqb c (ascii_of_nat 46).

(** *** The two phases of a run *)

(** What [prepare_env] does while it prepares the VMs: everything but
    changes of power state and writes. *)
Definition preparing : list Kind :=
  [KLogin; KGetVms; KGetNetworks; KGetImages; KPostImages; KPostVms;
   KPostVmsClone; KGetTasks; KSleep].

(** What [prepare_env] does once the VMs are there: searches, changes of
    power state, pauses and the write. *)
Definition starting : list Kind :=
  [KGetVms; KPostSetPowerState; KSleep; KWriteFile].

(** A run made of a first part of [preparing] events and a second part of
    [starting] events. *)
Definition in_two_phases {St A} (r : Run St A) : Prop :=
  exists before after,
    events r = (before ++ after)%list
    /\ Forall (fun ev => kind ev ∈ preparing) before
    /\ Forall (fun ev => kind ev ∈ starting) after.

(** *** Replies *)

(** A reply with which [NutanixApi.__api_call] returns: a response whose
    status code is accepted for the method. *)
Definition passes {A} (method : Method) (reply : Reply A) : bool :=
  match reply with
  | ConnectionFailed => false
  | Response status_code _ => accepted method status_code
  end.

(** What [NutanixApi.__api_call] raises on a reply that does not pass. *)
Definition failure_of {A} (reply : Reply A) : Exception :=
  match reply with
  | ConnectionFailed => ConnectionError
  | Response status_code _ => HTTPError status_code
  end.

(** The host line of the inventory for one VM of the mapping: its name
    and the first of its addresses. *)
Definition host_line_of (item : string * list string) (line : string)
  : Prop :=
  exists ip others,
    item.2 = ip :: others
    /\ line = item.1 +:+ "    ansible_ssh_host=" +:+ ip.

(** ** Facts about runs *)

Section RunFacts.
Context {H : Type} (hv : Hypervisor H).

Lemma api_call_run {A} method (send : H -> Reply A * H) ev h :
  api_call method send ev h =
    MkRun (match (send h).1 with
           | ConnectionFailed => Raised ConnectionError
           | Response status_code json =>
               if accepted method status_code then Returned json
               else Raised (HTTPError status_code)
           end)
          (send h).2 [ev (send h).1].
Proof.
  unfold api_call, accepted, raise_for_status.
  destruct (send h) as [[|status_code json] h']; simpl; [done|].
  destruct (status_code =? _)%Z; simpl; [done|].
  by destruct ((400 <=? status_code)%Z && (status_code <? 600)%Z).
Qed.

Lemma bind_returned {A B} (m : M H A) (f : A -> M H B) h a :
  outcome (m h) = Returned a ->
  bind m f h = MkRun (outcome (f a (final (m h))))
                     (final (f a (final (m h))))
                     (events (m h) ++ events (f a (final (m h)))).
Proof. unfold bind. by intros ->. Qed.

Lemma bind_raised {A B} (m : M H A) (f : A -> M H B) h e :
  outcome (m h) = Raised e ->
  bind m f h = MkRun (Raised e) (final (m h)) (events (m h)).
Proof. unfold bind. by intros ->. Qed.

Lemma bind_pending {A B} (m : M H A) (f : A -> M H B) h :
  outcome (m h) = Pending ->
  bind m f h = MkRun Pending (final (m h)) (events (m h)).
Proof. unfold bind. by intros ->. Qed.

(** A request gives exactly one event. *)
Lemma api_call_events {A} method (send : H -> Reply A * H) ev h :
  events (api_call method send ev h) = [ev (send h).1].
Proof. by rewrite api_call_run. Qed.

End RunFacts.

(** ** Lookups by name *)

(** Claim C1.  A lookup by name answers by the number of entities found.
    [get_network] and [get_image] keep the entities of the listing whose
    name is the requested one: one such entity is returned, none raises
    [ItemDoesNotExist], several raise [InvalidNumberOfItems] with a message
    that gives their number and the expected number 1.  [get_vms] with an
    expected count of 1 goes by the count of the reply, which is the number
    of entities the search found: one entity is returned (as the single
    element of the entity list of the reply), none raises
    [ItemDoesNotExist], several raise [InvalidNumberOfItems] with the same
    message. *)
Theorem lookup_by_name_one_or_fail {H} (hv : Hypervisor H) (name : string)
    (h : H) :
  (forall data, outcome (api_networks hv h) = Returned data ->
     outcome (get_network hv name h) =
       match List.filter (fun n => String.eqb (network_name n) name) data with
       | [] => Raised (ItemDoesNotExist ("network " +:+ name +:+ " does not exist"))
       | [network] => Returned network
       | found =>
           Raised (InvalidNumberOfItems
                     ("There is " +:+ str (Z.of_nat (length found))
                        +:+ " networks with name " +:+ name
                        +:+ ", expected number was 1."))
       end)
  /\ (forall data, outcome (api_images hv h) = Returned data ->
     outcome (get_image hv name h) =
       match List.filter (fun i => String.eqb (image_name i) name) data with
       | [] => Raised (ItemDoesNotExist ("image " +:+ name +:+ " does not exist"))
       | [image] => Returned image
       | found =>
           Raised (InvalidNumberOfItems
                     ("There is " +:+ str (Z.of_nat (length found))
                        +:+ " images with name " +:+ name
                        +:+ ", expected number was 1."))
       end)
  /\ (forall data, outcome (api_vms hv name h) = Returned data ->
     metadata_count data = Z.of_nat (length (entities data)) ->
     outcome (get_vms hv name (Some 1%Z) h) =
       match entities data with
       | [] => Raised (ItemDoesNotExist ("Vm " +:+ name +:+ " does not exist"))
       | [vm] => Returned [vm]
       | found =>
           Raised (InvalidNumberOfItems
                     ("There is " +:+ str (Z.of_nat (length found))
                        +:+ " vms with name " +:+ name
                        +:+ ", expected number was 1."))
       end).
Proof.
  split; [|split].
  - intros data Hdata. unfold get_network.
    rewrite (bind_returned _ _ _ _ Hdata). cbn [outcome].
    destruct (List.filter _ data) as [|x [|y found]]; reflexivity.
  - intros data Hdata. unfold get_image.
    rewrite (bind_returned _ _ _ _ Hdata). cbn [outcome].
    destruct (List.filter _ data) as [|x [|y found]]; reflexivity.
  - intros data Hdata Hcount. unfold get_vms.
    rewrite (bind_returned _ _ _ _ Hdata). cbn [outcome]. rewrite Hcount.
    destruct (entities data) as [|x [|y found]]; try reflexivity.
    cbn [length].
    replace (Z.of_nat (S (S (length found))) =? 1)%Z with false
      by (symmetry; apply Z.eqb_neq; lia).
    replace (Z.of_nat (S (S (length found))) =? 0)%Z with false
      by (symmetry; apply Z.eqb_neq; lia).
    reflexivity.
Qed.

Lemma lookup_by_name_one_or_fail_witness :
  outcome (get_network sample "vlan0" fresh_cluster)
    = Returned {| network_uuid := "net-1"; network_name := "vlan0" |}
  /\ outcome (get_image sample "centos" fresh_cluster)
    = Raised (ItemDoesNotExist "image centos does not exist")
  /\ outcome (get_vms sample "demo" (Some 1%Z)
               (with_vms fresh_cluster
                  [new_vm "worker-0-demo"; new_vm "worker-1-demo"]))
    = Raised (InvalidNumberOfItems
                "There is 2 vms with name demo, expected number was 1.").
Proof.
  split; [|split].
  - exact (proj1 (lookup_by_name_one_or_fail sample "vlan0" fresh_cluster)
             _ eq_refl).
  - exact (proj1 (proj2 (lookup_by_name_one_or_fail sample "centos"
                           fresh_cluster)) _ eq_refl).
  - exact (proj2 (proj2 (lookup_by_name_one_or_fail sample "demo"
                           (with_vms fresh_cluster
                              [new_vm "worker-0-demo"; new_vm "worker-1-demo"])))
             _ eq_refl eq_refl).
Defined.

(** The outcome of a request is the body of the reply, [HTTPError] or
    [ConnectionError]. *)
Lemma api_call_outcome {H A} method (send : H -> Reply A * H) ev h :
  (exists json, outcome (api_call method send ev h) = Returned json)
  \/ (exists status_code,
        outcome (api_call method send ev h) = Raised (HTTPError status_code))
  \/ outcome (api_call method send ev h) = Raised ConnectionError.
Proof.
  rewrite api_call_run. cbn [outcome].
  destruct (send h).1 as [|status_code json]; [by right; right|].
  destruct (accepted method status_code); [left|right; left]; eauto.
Qed.

(** Claim C9.  Without an expected count [get_vms] returns the entity
    list of the reply as it is, whatever the count; it raises neither
    [ItemDoesNotExist] nor [InvalidNumberOfItems]; a search that finds
    nothing returns the empty list, from which [get_vms_property] builds
    the empty mapping. *)
Theorem get_vms_without_expected_count {H} (hv : Hypervisor H)
    (query : string) (h : H) :
  (forall data, outcome (api_vms hv query h) = Returned data ->
     outcome (get_vms hv query None h) = Returned (entities data))
  /\ (forall msg,
        outcome (get_vms hv query None h) <> Raised (ItemDoesNotExist msg)
        /\ outcome (get_vms hv query None h)
             <> Raised (InvalidNumberOfItems msg))
  /\ (forall (A : Type) (vm_property : VM -> A) data,
        outcome (api_vms hv query h) = Returned data ->
        entities data = [] ->
        outcome (get_vms_property hv query vm_property h) = Returned ∅).
Proof.
  assert (Hret : forall data, outcome (api_vms hv query h) = Returned data ->
            get_vms hv query None h
            = MkRun (Returned (entities data)) (final (api_vms hv query h))
                (events (api_vms hv query h) ++ [])).
  { intros data Hdata. unfold get_vms. by rewrite (bind_returned _ _ _ _ Hdata). }
  split; [|split].
  - intros data Hdata. by rewrite (Hret _ Hdata).
  - intros msg. unfold get_vms.
    destruct (api_call_outcome GET (hv_vms hv query) (EvGetVms query) h)
      as [[data Hdata]|[[status_code Herr]|Herr]]; fold (api_vms hv query) in *.
    + rewrite (bind_returned _ _ _ _ Hdata). by cbn.
    + rewrite (bind_raised _ _ _ _ Herr). by cbn.
    + rewrite (bind_raised _ _ _ _ Herr). by cbn.
  - intros A vm_property data Hdata Hnil. unfold get_vms_property.
    assert (Hout : outcome (get_vms hv query None h) = Returned [])
      by (rewrite (Hret _ Hdata); cbn; by rewrite Hnil).
    by rewrite (bind_returned _ _ _ _ Hout).
Qed.

Lemma get_vms_without_expected_count_witness :
  outcome (get_vms sample "demo" None fresh_cluster) = Returned []
  /\ outcome (get_vms_property sample "demo" ipAddresses fresh_cluster)
     = Returned ∅.
Proof.
  destruct (get_vms_without_expected_count sample "demo" fresh_cluster)
    as (Hlist & _ & Hmap).
  split.
  - exact (Hlist _ eq_refl).
  - exact (Hmap _ ipAddresses _ eq_refl eq_refl).
Defined.

(** ** Waiting for a task *)

Lemma poll_failed task_info :
  poll task_info = PollFailed <-> reports_failed task_info.
Proof.
  unfold poll, reports_failed.
  destruct (String.eqb_spec (progress_status task_info) "Failed") as [->|Hne].
  - done.
  - split; [|done]. by destruct (_ && _).
Qed.

Lemma poll_succeeded task_info :
  poll task_info = PollSucceeded <-> reports_succeeded task_info.
Proof.
  unfold poll, reports_succeeded.
  destruct (String.eqb_spec (progress_status task_info) "Failed") as [Heq|_].
  - rewrite Heq. split; [done|]. by intros [_ ?].
  - destruct (Z.eqb_spec (percentage_complete task_info) 100);
      destruct (String.eqb_spec (progress_status task_info) "Succeeded");
      cbn; split; try done; by intros [? ?].
Qed.

Lemma poll_again task_info :
  poll task_info = PollAgain
  <-> ~ reports_failed task_info /\ ~ reports_succeeded task_info.
Proof.
  rewrite <- poll_failed, <- poll_succeeded.
  destruct (poll task_info); split; try done; intros [? ?]; done.
Qed.

Lemma wait_for_task_step {H} (hv : Hypervisor H) fuel task_data (h : H) :
  wait_for_task hv (S fuel) task_data h =
    let reply := (hv_tasks hv (task_uuid task_data) h).1 in
    let h' := (hv_tasks hv (task_uuid task_data) h).2 in
    let ev := EvGetTasks (task_uuid task_data) reply in
    match reply with
    | ConnectionFailed => MkRun (Raised ConnectionError) h' [ev]
    | Response status_code task_info =>
        if accepted GET status_code then
          match poll task_info with
          | PollFailed => MkRun (Raised (TaskFailed task_info)) h' [ev]
          | PollSucceeded => MkRun (Returned tt) h' [ev]
          | PollAgain =>
              let r := wait_for_task hv fuel task_data
                         (hv_sleep hv SLEEP_TIME h') in
              MkRun (outcome r) (final r)
                (ev :: EvSleep SLEEP_TIME :: events r)
          end
        else MkRun (Raised (HTTPError status_code)) h' [ev]
    end.
Proof.
  cbn [wait_for_task]. unfold bind at 1, api_tasks. rewrite api_call_run.
  cbn [outcome events final].
  destruct (hv_tasks hv (task_uuid task_data) h) as [[|status_code info] h'];
    cbn [fst snd]; [done|].
  destruct (accepted GET status_code); [|done].
  destruct (poll info); try done.
Qed.

Lemma wait_for_task_polling {H} (hv : Hypervisor H) fuel task_data (h : H) :
  polling (task_uuid task_data)
    (events (wait_for_task hv fuel task_data h))
    (outcome (wait_for_task hv fuel task_data h)).
Proof.
  revert h. induction fuel as [|fuel IH]; intros h; [constructor|].
  rewrite wait_for_task_step. cbv zeta.
  destruct (hv_tasks hv (task_uuid task_data) h) as [[|status_code info] h'];
    cbn [fst snd outcome events]; [constructor|].
  destruct (accepted GET status_code) eqn:Hacc; cbn [outcome events];
    [|by constructor].
  destruct (poll info) eqn:Hpoll; cbn [outcome events].
  - apply poll_failed in Hpoll. by constructor.
  - apply poll_succeeded in Hpoll. by constructor.
  - apply poll_again in Hpoll as [? ?]. by constructor.
Qed.




(** The bound on the turns only matters to runs that reach it: a wait
    that ends within the bound ends in the same way under any larger
    bound. *)
Lemma wait_for_task_more_fuel {H} (hv : Hypervisor H) fuel extra task_data
    (h : H) :
  outcome (wait_for_task hv fuel task_data h) <> Pending ->
  wait_for_task hv (fuel + extra) task_data h
  = wait_for_task hv fuel task_data h.
Proof.
  revert h. induction fuel as [|fuel IH]; intros h; [done|].
  change (S fuel + extra)%nat with (S (fuel + extra)).
  rewrite !wait_for_task_step. cbv zeta.
  destruct (hv_tasks hv (task_uuid task_data) h).1 as [|status_code info];
    [done|].
  destruct (accepted GET status_code); [|done].
  destruct (poll info); [done..|]. cbn [outcome].
  intros Hended. by rewrite (IH _ Hended).
Qed.

(** On the sample cluster: 100 percent with a status that is not final,
    then success below 100 percent, then success at 100 percent. *)
Example wait_for_task_sample :
  let c := {| c_vms := []; c_images := []; c_networks := [];
              c_task_replies := [task_info "Running" 100;
                                 task_info "Succeeded" 99;
                                 task_info "Succeeded" 100;
                                 task_info "Failed" 100] |} in
  let r := wait_for_task sample 10 {| task_uuid := "task-1" |} c in
  outcome r = Returned tt
  /\ events r
     = [EvGetTasks "task-1" (Response 200 (task_info "Running" 100));
        EvSleep 5;
        EvGetTasks "task-1" (Response 200 (task_info "Succeeded" 99));
        EvSleep 5;
        EvGetTasks "task-1" (Response 200 (task_info "Succeeded" 100))].
Proof. by vm_compute. Qed.

(** ** Requests that start a task *)

Lemma wait_for_task_first_event {H} (hv : Hypervisor H) fuel task_data (h : H) :
  exists reply rest,
    events (wait_for_task hv (S fuel) task_data h)
    = EvGetTasks (task_uuid task_data) reply :: rest.
Proof.
  rewrite wait_for_task_step. cbv zeta.
  destruct (hv_tasks hv (task_uuid task_data) h).1 as [|status_code info];
    [by eauto|].
  destruct (accepted GET status_code); [|by eauto].
  destruct (poll info); by eauto.
Qed.

Lemma submit_then_wait {H} (hv : Hypervisor H) fuel
    (send : H -> Reply TaskRef * H) ev task (h : H) :
  outcome (api_call POST send ev h) = Returned task ->
  submitted_then_polled (ev (send h).1) task
    (bind (api_call POST send ev) (wait_for_task hv (S fuel)) h).
Proof.
  intros Hsent. rewrite (bind_returned _ _ _ _ Hsent).
  rewrite api_call_events. unfold submitted_then_polled. cbn [events outcome].
  split.
  - destruct (wait_for_task_first_event hv fuel task
                (final (api_call POST send ev h))) as (reply & rest & ->).
    by eauto.
  - eexists. split; [done|]. apply wait_for_task_polling.
Qed.

(** Claim C4, as the code has it.  [create_vm], [create_image] and
    [clone_vm] hand the task returned by their request to [wait_for_task]
    at once: the next request asks for the status of that task, and the
    outcome is the outcome of the wait.  [set_vm_power] sends its request
    and nothing else: whatever the reply, no status is asked for, and
    when the request is answered with a task the call returns. *)
Theorem creations_wait_power_change_does_not {H} (hv : Hypervisor H)
    (fuel : nat) (h : H) :
  (forall vcpu ram disk name network_uuid os_image_uuid cloud_config task,
     let data := create_vm_data vcpu ram disk name network_uuid os_image_uuid
                   cloud_config in
     outcome (api_vms_create hv data h) = Returned task ->
     submitted_then_polled (EvPostVms data (hv_vms_create hv data h).1) task
       (create_vm hv (S fuel) vcpu ram disk name network_uuid os_image_uuid
          cloud_config h))
  /\ (forall name storage_container_name os_image_url task,
     let data := create_image_data name storage_container_name os_image_url in
     outcome (api_images_create hv data h) = Returned task ->
     submitted_then_polled (EvPostImages data (hv_images_create hv data h).1)
       task
       (create_image hv (S fuel) name storage_container_name os_image_url h))
  /\ (forall base_uuid configs vm_domain task,
     let data := clone_spec_list configs vm_domain in
     outcome (api_vms_clone hv base_uuid data h) = Returned task ->
     submitted_then_polled
       (EvPostVmsClone base_uuid data (hv_vms_clone hv base_uuid data h).1)
       task
       (clone_vm hv (S fuel) base_uuid configs vm_domain h))
  /\ (forall target_uuid state,
     let r := set_vm_power hv target_uuid state h in
     events r
     = [EvPostSetPowerState target_uuid state
          (hv_vms_set_power_state hv target_uuid state h).1]
     /\ (forall task,
           outcome (api_vms_set_power_state hv target_uuid state h)
           = Returned task ->
           outcome r = Returned tt)).
Proof.
  split; [|split; [|split]].
  - intros; by apply submit_then_wait.
  - intros; by apply submit_then_wait.
  - intros; by apply submit_then_wait.
  - intros target_uuid state. cbv zeta. split.
    + unfold set_vm_power, api_vms_set_power_state, bind.
      rewrite api_call_run. cbn [outcome events final].
      destruct (hv_vms_set_power_state hv target_uuid state h).1
        as [|sc task]; [done|].
      destruct (accepted POST sc); done.
    + intros task Hsent. unfold set_vm_power.
      by rewrite (bind_returned _ _ _ _ Hsent).
Qed.

Lemma creations_wait_power_change_does_not_witness :
  submitted_then_polled
    (EvPostVmsClone "uuid-base"
       (clone_spec_list
          [{| role := "worker"; number_of_nodes := 1; number_of_vcpu := 2;
              ram_size := 4 |}] "demo")
       (Response 201 {| task_uuid := "task-1" |}))
    {| task_uuid := "task-1" |}
    (clone_vm sample 1 "uuid-base"
       [{| role := "worker"; number_of_nodes := 1; number_of_vcpu := 2;
           ram_size := 4 |}] "demo" failing_cluster)
  /\ outcome (set_vm_power sample "uuid-worker-0-demo" "on" failing_cluster)
     = Returned tt.
Proof.
  destruct (creations_wait_power_change_does_not sample 0 failing_cluster)
    as (_ & _ & Hclone & Hpower).
  split.
  - exact (Hclone "uuid-base" _ "demo" {| task_uuid := "task-1" |} eq_refl).
  - exact (proj2 (Hpower "uuid-worker-0-demo" "on")
             {| task_uuid := "task-1" |} eq_refl).
Defined.

(** Claim C4, as it is stated, fails for a change of power state.  The
    request is answered with a task, that task is about to fail, and
    [set_vm_power] returns without having asked for its status. *)
Lemma power_change_not_polled :
  let r := set_vm_power sample "uuid-worker-0-demo" "on" failing_cluster in
  let post := EvPostSetPowerState "uuid-worker-0-demo" "on"
                (Response 201 {| task_uuid := "task-1" |}) in
  outcome (api_vms_set_power_state sample "uuid-worker-0-demo" "on"
             failing_cluster)
  = Returned {| task_uuid := "task-1" |}
  /\ outcome r = Returned tt
  /\ events r = [post]
  /\ outcome (wait_for_task sample 1 {| task_uuid := "task-1" |} (final r))
     = Raised (TaskFailed (task_info "Failed" 0))
  /\ ~ submitted_then_polled post {| task_uuid := "task-1" |} r.
Proof.
  cbv zeta. repeat split; try by vm_compute.
  intros [(reply & rest & Hevents) _]. vm_compute in Hevents. discriminate.
Qed.

(** ** Cloning *)

Lemma foldl_append {A B} (f : B -> A) (l : list B) (acc : list A) :
  foldl (fun (acc : list A) x => (acc ++ [f x])%list) acc l
  = (acc ++ map f l)%list.
Proof.
  revert acc. induction l as [|x l IH]; intros acc; cbn.
  - by rewrite app_nil_r.
  - by rewrite IH, <- app_assoc.
Qed.

Lemma clone_loops (configs : list NodeConfig) vm_domain (acc : list CloneSpec) :
  foldl (fun (spec_list : list CloneSpec) cfg =>
           foldl (fun (spec_list : list CloneSpec) number =>
                    (spec_list ++
                       [prepare_clone (vm_name number (role cfg) vm_domain)
                          (ram_size cfg) (number_of_vcpu cfg)])%list)
                 spec_list (range (number_of_nodes cfg)))
        acc configs
  = (acc ++ flat_map
              (fun cfg =>
                 map (fun number =>
                        prepare_clone (vm_name number (role cfg) vm_domain)
                          (ram_size cfg) (number_of_vcpu cfg))
                     (range (number_of_nodes cfg)))
              configs)%list.
Proof.
  revert acc. induction configs as [|cfg configs IH]; intros acc;
    cbn [foldl flat_map].
  - by rewrite app_nil_r.
  - rewrite (foldl_append
               (fun number =>
                  prepare_clone (vm_name number (role cfg) vm_domain)
                    (ram_size cfg) (number_of_vcpu cfg))).
    by rewrite IH, <- app_assoc.
Qed.

(** The list built by the loops of [clone_vm]: role by role, and for each
    role one specification per index below its number of nodes. *)
Lemma clone_spec_list_flat_map configs vm_domain :
  clone_spec_list configs vm_domain
  = flat_map
      (fun cfg =>
         map (fun number =>
                prepare_clone (vm_name number (role cfg) vm_domain)
                  (ram_size cfg) (number_of_vcpu cfg))
             (range (number_of_nodes cfg)))
      configs.
Proof. unfold clone_spec_list. by rewrite clone_loops. Qed.

Lemma polling_events task evs o :
  polling task evs o ->
  Forall (fun ev => is_clone ev = false) evs.
Proof. induction 1; repeat constructor; done. Qed.

Lemma filter_none {A} (p : A -> bool) (l : list A) :
  Forall (fun x => p x = false) l -> List.filter p l = [].
Proof. induction 1 as [|x l Hx _ IH]; cbn; [done|]. by rewrite Hx. Qed.

(** Claim C5.  [clone_vm] builds one specification per node: the names
    are [<role>-<index>-<domain>], role by role, the index counting from
    0 up to the number of nodes of the role minus 1; there are as many
    specifications as nodes; role "worker", domain "demo" and 2 nodes
    give the names "worker-0-demo" and "worker-1-demo".  The whole list
    goes out in one clone request, the first and only one of the run, and
    when that request is answered with a task the rest of the run is the
    wait on that task. *)
Theorem clone_vm_one_batch {H} (hv : Hypervisor H) (fuel : nat)
    (base_uuid : string) (configs : list NodeConfig) (vm_domain : string)
    (h : H) :
  let spec_list := clone_spec_list configs vm_domain in
  let r := clone_vm hv fuel base_uuid configs vm_domain h in
  map clone_name spec_list
  = flat_map
      (fun cfg =>
         map (fun index : nat =>
                role cfg +:+ "-" +:+ str (Z.of_nat index) +:+ "-"
                  +:+ vm_domain)
             (seq 0 (Z.to_nat (number_of_nodes cfg))))
      configs
  /\ length spec_list
     = sum_list (map (fun cfg => Z.to_nat (number_of_nodes cfg)) configs)
  /\ (forall vcpu ram,
        map clone_name
          (clone_spec_list
             [{| role := "worker"; number_of_nodes := 2;
                 number_of_vcpu := vcpu; ram_size := ram |}] "demo")
        = ["worker-0-demo"; "worker-1-demo"])
  /\ exists rest,
       events r
       = EvPostVmsClone base_uuid spec_list
           (hv_vms_clone hv base_uuid spec_list h).1 :: rest
       /\ List.filter is_clone rest = []
       /\ match outcome (api_vms_clone hv base_uuid spec_list h) with
          | Returned task => polling (task_uuid task) rest (outcome r)
          | _ => rest = []
          end.
Proof.
  cbv zeta. split; [|split; [|split]].
  - rewrite clone_spec_list_flat_map.
    induction configs as [|cfg configs IH]; cbn [flat_map]; [done|].
    rewrite map_app, IH. f_equal. unfold range.
    rewrite !map_map. done.
  - rewrite clone_spec_list_flat_map.
    induction configs as [|cfg configs IH]; cbn [flat_map map sum_list];
      [done|].
    rewrite length_app, IH. f_equal. unfold range.
    by rewrite !length_map, length_seq.
  - done.
  - unfold clone_vm. cbv zeta.
    set (spec_list := clone_spec_list configs vm_domain).
    destruct (outcome (api_vms_clone hv base_uuid spec_list h)) as [task| |]
      eqn:Hsent.
    + rewrite (bind_returned _ _ _ _ Hsent). unfold api_vms_clone.
      rewrite api_call_events. cbn [events outcome app].
      eexists. split; [done|]. split.
      * eapply filter_none, polling_events, wait_for_task_polling.
      * apply wait_for_task_polling.
    + rewrite (bind_raised _ _ _ _ Hsent). unfold api_vms_clone.
      rewrite api_call_events. cbn [events]. by eexists.
    + rewrite (bind_pending _ _ _ Hsent). unfold api_vms_clone.
      rewrite api_call_events. cbn [events]. by eexists.
Qed.

(** ** Get or create *)

Lemma get_image_found {H} (hv : Hypervisor H) name (h : H) data image :
  outcome (api_images hv h) = Returned data ->
  List.filter (fun i => String.eqb (image_name i) name) data = [image] ->
  get_image hv name h
  = MkRun (Returned image) (final (api_images hv h))
      [EvGetImages (hv_images hv h).1].
Proof.
  intros Hdata Hfound. unfold get_image.
  rewrite (bind_returned _ _ _ _ Hdata), Hfound. unfold api_images.
  by rewrite api_call_events.
Qed.

Lemma get_vms_found {H} (hv : Hypervisor H) name (h : H) data :
  outcome (api_vms hv name h) = Returned data ->
  metadata_count data = 1%Z ->
  get_vms hv name (Some 1%Z) h
  = MkRun (Returned (entities data)) (final (api_vms hv name h))
      [EvGetVms name (hv_vms hv name h).1].
Proof.
  intros Hdata Hcount. unfold get_vms.
  rewrite (bind_returned _ _ _ _ Hdata), Hcount. unfold api_vms.
  by rewrite api_call_events.
Qed.

Lemma get_or_create_os_image_found {H} (hv : Hypervisor H) fuel name
    storage_container_name os_image_url (h : H) data image :
  outcome (api_images hv h) = Returned data ->
  List.filter (fun i => String.eqb (image_name i) name) data = [image] ->
  get_or_create_os_image hv fuel name storage_container_name os_image_url h
  = MkRun (Returned image) (final (api_images hv h))
      [EvGetImages (hv_images hv h).1].
Proof.
  intros Hdata Hfound.
  unfold get_or_create_os_image, bind, try_except.
  by rewrite (get_image_found hv name h data image Hdata Hfound).
Qed.

Lemma get_or_create_vm_found {H} (hv : Hypervisor H) fuel vcpu ram disk name
    network_uuid os_image_uuid cloud_config (h : H) data vm :
  outcome (api_vms hv name h) = Returned data ->
  metadata_count data = 1%Z ->
  entities data = [vm] ->
  get_or_create_vm hv fuel vcpu ram disk name network_uuid os_image_uuid
    cloud_config h
  = MkRun (Returned vm) (final (api_vms hv name h))
      [EvGetVms name (hv_vms hv name h).1].
Proof.
  intros Hdata Hcount Hvm.
  unfold get_or_create_vm, bind, try_except.
  rewrite (get_vms_found hv name h data Hdata Hcount), Hvm. done.
Qed.

(** Claim C2.  On a cluster whose listing shows exactly one image of the
    requested name, [get_or_create_os_image] returns that image and its
    only request is the listing; when the listing still shows one such
    image afterwards, two calls in a row return it without any request
    that creates.  The same holds for [get_or_create_vm] on a cluster
    whose search answers with the one VM of the requested name. *)
Theorem get_or_create_finds_existing {H} (hv : Hypervisor H) (fuel : nat)
    (name : string) (h : H) :
  (forall storage_container_name os_image_url data image,
     outcome (api_images hv h) = Returned data ->
     List.filter (fun i => String.eqb (image_name i) name) data = [image] ->
     let once := get_or_create_os_image hv fuel name storage_container_name
                   os_image_url in
     outcome (once h) = Returned image
     /\ events (once h) = [EvGetImages (hv_images hv h).1]
     /\ forall data' image',
          outcome (api_images hv (final (once h))) = Returned data' ->
          List.filter (fun i => String.eqb (image_name i) name) data'
          = [image'] ->
          outcome ((once ;; once) h) = Returned image'
          /\ List.filter is_create (events ((once ;; once) h)) = [])
  /\ (forall vcpu ram disk network_uuid os_image_uuid cloud_config data vm,
     outcome (api_vms hv name h) = Returned data ->
     metadata_count data = 1%Z ->
     entities data = [vm] ->
     let once := get_or_create_vm hv fuel vcpu ram disk name network_uuid
                   os_image_uuid cloud_config in
     outcome (once h) = Returned vm
     /\ events (once h) = [EvGetVms name (hv_vms hv name h).1]
     /\ forall data' vm',
          outcome (api_vms hv name (final (once h))) = Returned data' ->
          metadata_count data' = 1%Z ->
          entities data' = [vm'] ->
          outcome ((once ;; once) h) = Returned vm'
          /\ List.filter is_create (events ((once ;; once) h)) = []).
Proof.
  split.
  - intros sc url data image Hdata Hfound once.
    assert (Hfirst := get_or_create_os_image_found hv fuel name sc url h
                        data image Hdata Hfound).
    fold once in Hfirst. rewrite Hfirst. cbn [outcome events final].
    split; [done|split; [done|]].
    intros data' image' Hdata' Hfound'.
    assert (Hsecond := get_or_create_os_image_found hv fuel name sc url _
                         data' image' Hdata' Hfound').
    fold once in Hsecond. unfold bind. rewrite Hfirst.
    cbn [outcome events final]. by rewrite Hsecond.
  - intros vcpu ram disk net img cc data vm Hdata Hcount Hvm once.
    assert (Hfirst := get_or_create_vm_found hv fuel vcpu ram disk name net
                        img cc h data vm Hdata Hcount Hvm).
    fold once in Hfirst. rewrite Hfirst. cbn [outcome events final].
    split; [done|split; [done|]].
    intros data' vm' Hdata' Hcount' Hvm'.
    assert (Hsecond := get_or_create_vm_found hv fuel vcpu ram disk name net
                         img cc _ data' vm' Hdata' Hcount' Hvm').
    fold once in Hsecond. unfold bind. rewrite Hfirst.
    cbn [outcome events final]. by rewrite Hsecond.
Qed.

Lemma get_or_create_finds_existing_witness :
  (let once := get_or_create_os_image sample 3 "centos" "default"
                 OS_IMAGE_URL in
   outcome ((once ;; once) stocked_cluster)
   = Returned {| image_name := "centos"; vm_disk_id := "disk-centos" |}
   /\ List.filter is_create (events ((once ;; once) stocked_cluster)) = [])
  /\ (let once := get_or_create_vm sample 3 2 4 10 "base" "net-1"
                    "disk-centos" "#cloud-config" in
      outcome ((once ;; once) stocked_cluster) = Returned (new_vm "base")
      /\ List.filter is_create (events ((once ;; once) stocked_cluster)) = []).
Proof.
  destruct (get_or_create_finds_existing sample 3 "centos" stocked_cluster)
    as [Himage _].
  destruct (get_or_create_finds_existing sample 3 "base" stocked_cluster)
    as [_ Hvm].
  split.
  - exact (proj2 (proj2 (Himage "default" OS_IMAGE_URL _ _ eq_refl eq_refl))
             _ _ eq_refl eq_refl).
  - exact (proj2 (proj2 (Hvm 2%Z 4%Z 10%Z "net-1" "disk-centos"
                           "#cloud-config" _ _ eq_refl eq_refl eq_refl))
             _ _ eq_refl eq_refl eq_refl).
Defined.

(** ** Waiting for addresses *)

Lemma bind_returned_inv {H A B} (m : M H A) (f : A -> M H B) (h : H) b :
  outcome (bind m f h) = Returned b ->
  exists a, outcome (m h) = Returned a
            /\ outcome (f a (final (m h))) = Returned b.
Proof.
  unfold bind. destruct (outcome (m h)) as [a| |]; cbn; [|done..].
  by eauto.
Qed.

Lemma all_assigned_spec (vms_with_ips : gmap string (list string)) :
  all_assigned vms_with_ips = true
  <-> map_Forall (fun _ node_ips => node_ips <> []) vms_with_ips.
Proof.
  unfold all_assigned. rewrite map_Forall_to_list, forallb_forall, Forall_forall.
  split; intros Hall [name node_ips] Hin.
  - apply list_elem_of_In, Hall in Hin. cbn in *. by destruct node_ips.
  - apply list_elem_of_In, Hall in Hin. cbn in *. by destruct node_ips.
Qed.

Lemma wait_for_ips_returned {H} (hv : Hypervisor H) fuel name m0 (h : H) m :
  outcome (wait_for_ips hv fuel name m0 h) = Returned m ->
  all_assigned m = true.
Proof.
  revert m0 h. induction fuel as [|fuel IH]; intros m0 h; cbn [wait_for_ips];
    destruct (all_assigned m0) eqn:Hall; try (cbn; congruence).
  intros Hret.
  apply bind_returned_inv in Hret as (_ & _ & Hret).
  apply bind_returned_inv in Hret as (m1 & _ & Hret).
  by eapply IH.
Qed.

Lemma host_lines_defined (items : list (string * list string)) :
  Forall (fun item => item.2 <> []) items ->
  exists lines, host_lines items = inr lines /\ length lines = length items.
Proof.
  induction 1 as [|[name node_ips] items Hne _ (lines & IH & Hlen)]; cbn.
  - by eexists.
  - destruct node_ips as [|ip node_ips]; [done|]. rewrite IH.
    eexists. split; [done|]. cbn. by rewrite Hlen.
Qed.

(** Claim C10.  When the loop that waits for addresses returns a
    mapping, every VM of the mapping has at least one address; the host
    lines of the inventory are then all built, one per VM, and rendering
    the inventory does not raise [IndexError]. *)
Theorem addresses_present_after_poll {H} (hv : Hypervisor H) (fuel : nat)
    (k8s_cluster_name : string) (first_look : gmap string (list string))
    (h : H) (vms_with_ips : gmap string (list string)) :
  outcome (wait_for_ips hv fuel k8s_cluster_name first_look h)
  = Returned vms_with_ips ->
  map_Forall (fun _ node_ips => node_ips <> []) vms_with_ips
  /\ (exists lines,
        host_lines (map_to_list vms_with_ips) = inr lines
        /\ length lines = size vms_with_ips)
  /\ exists inventory_lines, render_inventory vms_with_ips = inr inventory_lines.
Proof.
  intros Hret. apply wait_for_ips_returned, all_assigned_spec in Hret.
  assert (Hitems : Forall (fun item : string * list string => item.2 <> [])
                     (map_to_list vms_with_ips)).
  { apply map_Forall_to_list in Hret. eapply Forall_impl; [exact Hret|].
    by intros [? ?]. }
  destruct (host_lines_defined _ Hitems) as (lines & Hlines & Hlen).
  split; [done|]. split.
  - exists lines. split; [done|]. by rewrite Hlen, length_map_to_list.
  - unfold render_inventory. rewrite Hlines. by eexists.
Qed.

Lemma addresses_present_after_poll_witness :
  map_Forall (fun _ node_ips => node_ips <> [])
    (<["worker-0-demo" := ["10.0.0.10"]]> (∅ : gmap string (list string)))
  /\ (exists lines,
        host_lines (map_to_list
                      (<["worker-0-demo" := ["10.0.0.10"]]>
                         (∅ : gmap string (list string))))
        = inr lines
        /\ length lines
           = size (<["worker-0-demo" := ["10.0.0.10"]]>
                     (∅ : gmap string (list string))))
  /\ exists inventory_lines,
       render_inventory (<["worker-0-demo" := ["10.0.0.10"]]> ∅)
       = inr inventory_lines.
Proof.
  apply (addresses_present_after_poll sample 2 "demo"
           (<["worker-0-demo" := []]> ∅) failing_cluster).
  vm_compute. reflexivity.
Defined.

(** ** Cloud config *)

Lemma append_cons (c : ascii) (s1 s2 : string) :
  String c s1 +:+ s2 = String c (s1 +:+ s2).
Proof. reflexivity. Qed.

Lemma append_nil_l (s : string) : EmptyString +:+ s = s.
Proof. reflexivity. Qed.

Lemma append_nil_r (s : string) : s +:+ EmptyString = s.
Proof.
  induction s as [|c s IH]; [done|]. by rewrite append_cons, IH.
Qed.

Lemma append_assoc (s1 s2 s3 : string) :
  (s1 +:+ s2) +:+ s3 = s1 +:+ (s2 +:+ s3).
Proof.
  induction s1 as [|c s1 IH]; [done|]. by rewrite !append_cons, IH.
Qed.

Lemma length_append (s1 s2 : string) :
  String.length (s1 +:+ s2) = (String.length s1 + String.length s2)%nat.
Proof.
  induction s1 as [|c s1 IH]; [done|]. rewrite append_cons. cbn.
  by rewrite IH.
Qed.

Lemma is_char_eq (x : nat) (c : ascii) :
  is_char x c = true -> c = ascii_of_nat x.
Proof.
  unfold is_char, in_range. intros Hc.
  apply andb_true_iff in Hc as [Hlo Hhi].
  apply Nat.leb_le in Hlo, Hhi.
  rewrite <- (ascii_nat_embedding c). f_equal. lia.
Qed.

Lemma span_spec (p : ascii -> bool) (s : string) :
  s = (span p s).1 +:+ (span p s).2
  /\ all_chars p (span p s).1 = true
  /\ stops p (span p s).2.
Proof.
  induction s as [|c s (IHs & IHall & IHstop)]; cbn; [done|].
  destruct (p c) eqn:Hc; [|done].
  destruct (span p s) as [run rest]. cbn in *. rewrite Hc, append_cons.
  split; [by f_equal|done].
Qed.

Lemma span_exact (p : ascii -> bool) (run rest : string) :
  all_chars p run = true -> stops p rest ->
  span p (run +:+ rest) = (run, rest).
Proof.
  intros Hall Hstop. induction run as [|c run IH].
  - rewrite append_nil_l. destruct rest as [|c rest]; cbn in *; [done|].
    by rewrite Hstop.
  - cbn in Hall. apply andb_true_iff in Hall as [Hc Hall].
    rewrite append_cons. cbn. by rewrite Hc, (IH Hall).
Qed.

Lemma prefix_append (p s : string) :
  String.prefix p s = true <-> exists rest, s = p +:+ rest.
Proof.
  revert s. induction p as [|a p IH]; intros s.
  - split; [intros _; by exists s|intros _; by destruct s].
  - destruct s as [|b s]; cbn [String.prefix].
    + split; [done|]. by intros [rest Hrest].
    + destruct (ascii_dec a b) as [->|Hne].
      * rewrite IH. split; intros [rest Hrest]; exists rest.
        -- by rewrite append_cons, Hrest.
        -- rewrite append_cons in Hrest. by injection Hrest.
      * split; [done|]. intros [rest Hrest].
        rewrite append_cons in Hrest. by injection Hrest.
Qed.

Lemma without_final_dollar_cons (c c' : ascii) (s : string) :
  without_final_dollar (String c (String c' s))
  = String c (without_final_dollar (String c' s)).
Proof. reflexivity. Qed.

Lemma without_final_dollar_split (s : string) :
  exists dollar,
    (dollar = EmptyString \/ dollar = "$")
    /\ s = without_final_dollar s +:+ dollar.
Proof.
  induction s as [|c s (dollar & Hd & IH)]; [by exists EmptyString; eauto|].
  destruct s as [|c' s].
  - cbn. destruct (is_char 36 c) eqn:Hc.
    + apply is_char_eq in Hc as ->. exists "$". by eauto.
    + exists EmptyString. by eauto.
  - exists dollar. split; [done|].
    by rewrite without_final_dollar_cons, append_cons, <- IH.
Qed.

Lemma without_final_dollar_run (run dollar : string) :
  all_chars username_next run = true ->
  dollar = EmptyString \/ dollar = "$" ->
  without_final_dollar (run +:+ dollar) = run.
Proof.
  intros Hall Hd. induction run as [|c run IH].
  - by destruct Hd as [-> | ->].
  - cbn in Hall. apply andb_true_iff in Hall as [Hc Hall].
    specialize (IH Hall). rewrite append_cons.
    destruct (run +:+ dollar) as [|c' s] eqn:Hrest.
    + cbn in IH. subst run. cbn.
      destruct (is_char 36 c) eqn:Hd'; [|done].
      apply is_char_eq in Hd' as ->. done.
    + by rewrite without_final_dollar_cons, IH.
Qed.

Lemma pattern_match_intro (c : ascii) (run dollar rest : string) :
  username_first c = true ->
  all_chars username_next run = true ->
  dollar = EmptyString \/ dollar = "$" ->
  SSH_KEY_FILE_PATTERN_match (String c (run +:+ dollar +:+ ".pub" +:+ rest))
  = Some (String c (run +:+ dollar)).
Proof.
  intros Hc Hrun Hd. unfold SSH_KEY_FILE_PATTERN_match. rewrite Hc.
  assert (Hpub : String.prefix ".pub" (String "." ("pub" +:+ rest)) = true)
    by (apply prefix_append; by exists rest).
  rewrite (span_exact username_next run (dollar +:+ ".pub" +:+ rest) Hrun)
    by (by destruct Hd as [-> | ->]).
  destruct Hd as [-> | ->].
  - rewrite append_nil_l, (append_cons "." "pub" rest).
    replace (is_char 36 ".") with false by reflexivity.
    by rewrite Hpub.
  - rewrite (append_cons "$" EmptyString), append_nil_l,
      (append_cons "." "pub" rest).
    replace (is_char 36 "$") with true by reflexivity.
    by rewrite Hpub.
Qed.

Lemma pattern_match_elim (file_name u : string) :
  SSH_KEY_FILE_PATTERN_match file_name = Some u ->
  exists c run dollar rest,
    file_name = String c (run +:+ dollar +:+ ".pub" +:+ rest)
    /\ u = String c (run +:+ dollar)
    /\ username_first c = true
    /\ all_chars username_next run = true
    /\ (dollar = EmptyString \/ dollar = "$").
Proof.
  unfold SSH_KEY_FILE_PATTERN_match. destruct file_name as [|c s]; [done|].
  destruct (username_first c) eqn:Hc; [|done].
  destruct (span_spec username_next s) as (Hs & Hrun & _).
  destruct (span username_next s) as [run rest]. cbn [fst snd] in *.
  destruct rest as [|d rest'].
  - by destruct (String.prefix ".pub" EmptyString) eqn:Hp.
  - destruct (is_char 36 d) eqn:Hd.
    + destruct (String.prefix ".pub" rest') eqn:Hp; [|done].
      apply prefix_append in Hp as [rest ->]. apply is_char_eq in Hd as ->.
      intros [= <-]. exists c, run, "$", rest. subst s.
      repeat split; try reflexivity; try done. by right.
    + destruct (String.prefix ".pub" (String d rest')) eqn:Hp; [|done].
      apply prefix_append in Hp as [rest Hrest]. rewrite Hrest in Hs.
      intros [= <-]. exists c, run, EmptyString, rest.
      rewrite append_nil_l, append_nil_r. subst s.
      repeat split; try reflexivity; try done. by left.
Qed.

Lemma is_username_iff (u : string) :
  is_username u = true
  <-> exists c run dollar,
        u = String c (run +:+ dollar)
        /\ username_first c = true
        /\ all_chars username_next run = true
        /\ (dollar = EmptyString \/ dollar = "$").
Proof.
  split.
  - destruct u as [|c s]; [done|]. cbn [is_username].
    intros (Hc & Hrun)%andb_true_iff.
    destruct (without_final_dollar_split s) as (dollar & Hd & Hs).
    exists c, (without_final_dollar s), dollar. by rewrite <- Hs.
  - intros (c & run & dollar & -> & Hc & Hrun & Hd). cbn [is_username].
    by rewrite (without_final_dollar_run run dollar Hrun Hd), Hc, Hrun.
Qed.

Lemma without_suffix_eq (suffix s : string) :
  without_suffix suffix s
  = if String.eqb s suffix then Some EmptyString
    else match s with
         | String c s' => option_map (String c) (without_suffix suffix s')
         | EmptyString => None
         end.
Proof. by destruct s. Qed.

Lemma without_suffix_append (u suffix : string) :
  without_suffix suffix (u +:+ suffix) = Some u.
Proof.
  induction u as [|c u IH]; rewrite without_suffix_eq.
  - by rewrite append_nil_l, String.eqb_refl.
  - rewrite append_cons.
    destruct (String.eqb_spec (String c (u +:+ suffix)) suffix) as [Heq|_].
    + apply (f_equal String.length) in Heq. cbn in Heq.
      rewrite length_append in Heq. lia.
    + by rewrite IH.
Qed.

Lemma without_suffix_some (suffix s u : string) :
  without_suffix suffix s = Some u -> s = u +:+ suffix.
Proof.
  revert u. induction s as [|c s IH]; intros u; rewrite without_suffix_eq.
  - destruct (String.eqb_spec EmptyString suffix) as [<-|_]; [|done].
    by intros [= <-].
  - destruct (String.eqb_spec (String c s) suffix) as [<-|_].
    + by intros [= <-].
    + destruct (without_suffix suffix s) as [u'|]; [|done].
      intros [= <-]. by rewrite append_cons, <- (IH u').
Qed.

Lemma key_file_user_iff (file_name u : string) :
  key_file_user file_name = Some u
  <-> file_name = u +:+ ".pub" /\ is_username u = true.
Proof.
  unfold key_file_user. split.
  - destruct (without_suffix ".pub" file_name) as [u'|] eqn:Hsuffix; [|done].
    apply without_suffix_some in Hsuffix.
    destruct (is_username u') eqn:Hu; [|done]. by intros [= <-].
  - intros [-> Hu]. by rewrite without_suffix_append, Hu.
Qed.

(** On a name that does not go on after [<username>.pub], the pattern
    matches exactly the names [<username>.pub] and gives the user. *)
Lemma pattern_match_exact (file_name : string) :
  ~ continues_past_pub file_name ->
  SSH_KEY_FILE_PATTERN_match file_name = key_file_user file_name.
Proof.
  intros Hstop.
  destruct (SSH_KEY_FILE_PATTERN_match file_name) as [u|] eqn:Hmatch.
  - apply pattern_match_elim in Hmatch
      as (c & run & dollar & rest & Hname & Hu & Hc & Hrun & Hd).
    assert (Huser : is_username u = true)
      by (apply is_username_iff; exists c, run, dollar; by eauto).
    assert (Hsplit : file_name = u +:+ ".pub" +:+ rest)
      by (by rewrite Hname, Hu, (append_cons c), append_assoc).
    destruct rest as [|r rest].
    + symmetry. apply key_file_user_iff. by rewrite Hsplit.
    + destruct Hstop. exists u, (String r rest). by eauto.
  - destruct (key_file_user file_name) as [u|] eqn:Huser; [|done].
    apply key_file_user_iff in Huser as [-> Hu].
    apply is_username_iff in Hu as (c & run & dollar & -> & Hc & Hrun & Hd).
    rewrite (append_cons c), append_assoc in Hmatch.
    rewrite <- (append_nil_r ".pub") in Hmatch.
    by rewrite (pattern_match_intro c run dollar EmptyString Hc Hrun Hd)
      in Hmatch.
Qed.

Lemma cloud_config_parts_blocks (dir : Directory) (parts : list string) :
  Forall (fun entry => ~ continues_past_pub entry.1) dir ->
  Forall (fun entry => is_key_file entry.1 = true -> entry.2 <> None) dir ->
  cloud_config_parts dir parts = inr (parts ++ user_blocks dir)%list.
Proof.
  intros Hstop. revert parts.
  induction Hstop as [|[file_name contents] dir Hname _ IH];
    intros parts Hread; cbn [cloud_config_parts user_blocks omap list_omap].
  - by rewrite app_nil_r.
  - inversion_clear Hread as [|? ? Hfile Hread']. cbn [fst snd] in *.
    rewrite (pattern_match_exact file_name Hname).
    unfold is_key_file in Hfile.
    destruct (key_file_user file_name) as [u|]; [|by apply IH].
    destruct contents as [ssh_key|]; [|by destruct Hfile].
    rewrite (IH _ Hread'). by rewrite <- app_assoc.
Qed.

Lemma user_blocks_key_files (dir : Directory) :
  Forall (fun entry => is_key_file entry.1 = true -> entry.2 <> None) dir ->
  Forall2
    (fun (entry : string * option string) block =>
       exists u ssh_key,
         entry.1 = u +:+ ".pub" /\ is_username u = true
         /\ entry.2 = Some ssh_key
         /\ block = CLOUD_CONFIG_USER_PART u (strip ssh_key))
    (List.filter (fun entry => is_key_file entry.1) dir)
    (user_blocks dir).
Proof.
  induction 1 as [|[file_name contents] dir Hfile _ IH];
    cbn [List.filter user_blocks omap list_omap]; [constructor|].
  cbn [fst snd] in *. unfold is_key_file in *.
  destruct (key_file_user file_name) as [u|] eqn:Hu; [|done].
  destruct contents as [ssh_key|]; [|by destruct Hfile].
  apply key_file_user_iff in Hu as [-> Hu].
  constructor; [|done]. by exists u, ssh_key.
Qed.

(** Claim C6, as the code has it.  Take a directory in which no name
    goes on after a leading [<username>.pub], and whose key files can be
    read.  A key file is an entry named [<username>.pub], the user name
    being a lowercase letter or an underscore, followed by lowercase
    letters, digits, underscores and hyphens, with possibly one dollar
    sign at its end.  Then the user blocks are one per key file, in
    listing order, each with the user name and the trimmed contents of
    its file; the result is the header ["#cloud-config\nusers:"] followed
    by these blocks; and [MissingKeys] is raised exactly when the
    directory has no key file. *)
Theorem cloud_config_one_block_per_key_file (dir : Directory) :
  Forall (fun entry => ~ continues_past_pub entry.1) dir ->
  Forall (fun entry => is_key_file entry.1 = true -> entry.2 <> None) dir ->
  let key_files := List.filter (fun entry => is_key_file entry.1) dir in
  Forall2
    (fun (entry : string * option string) block =>
       exists u ssh_key,
         entry.1 = u +:+ ".pub" /\ is_username u = true
         /\ entry.2 = Some ssh_key
         /\ block = CLOUD_CONFIG_USER_PART u (strip ssh_key))
    key_files (user_blocks dir)
  /\ generate_cloud_config dir
     = match key_files with
       | [] => inl (MissingKeys (MissingKeys.MESSAGE SSH_KEY_FILE_PATTERN))
       | _ =>
           inr ("#cloud-config" +:+ LF +:+ "users:" +:+ LF
                  +:+ join LF (user_blocks dir))
       end
  /\ ((exists msg, generate_cloud_config dir = inl (MissingKeys msg))
      <-> key_files = []).
Proof.
  intros Hstop Hread key_files.
  pose proof (user_blocks_key_files dir Hread) as Hblocks.
  fold key_files in Hblocks.
  assert (Hrun : generate_cloud_config dir
                 = match key_files with
                   | [] => inl (MissingKeys
                                  (MissingKeys.MESSAGE SSH_KEY_FILE_PATTERN))
                   | _ =>
                       inr ("#cloud-config" +:+ LF +:+ "users:" +:+ LF
                              +:+ join LF (user_blocks dir))
                   end).
  { unfold generate_cloud_config.
    rewrite (cloud_config_parts_blocks dir [] Hstop Hread), app_nil_l.
    destruct Hblocks as [|entry block key_files' blocks _ _]; reflexivity. }
  split; [done|]. split; [done|].
  rewrite Hrun. destruct key_files; split; try done; eauto.
  by intros [msg ?].
Qed.

(** A test for names that stop at [.pub]. *)
Lemma stops_at_pub (file_name : string) :
  match SSH_KEY_FILE_PATTERN_match file_name with
  | Some u => String.eqb file_name (u +:+ ".pub")
  | None => true
  end = true ->
  ~ continues_past_pub file_name.
Proof.
  intros Htest (u & rest & Hu & Hrest & ->).
  apply is_username_iff in Hu as (c & run & dollar & -> & Hc & Hrun & Hd).
  rewrite (append_cons c), append_assoc in Htest.
  rewrite (pattern_match_intro c run dollar rest Hc Hrun Hd) in Htest.
  apply String.eqb_eq in Htest.
  rewrite (append_cons c (run +:+ dollar)), append_assoc in Htest.
  injection Htest as Htest.
  rewrite <- (append_nil_r ".pub") in Htest at 2.
  apply (inj (String.append run)), (inj (String.append dollar)),
    (inj (String.append ".pub")) in Htest.
  done.
Qed.

Lemma cloud_config_one_block_per_key_file_witness :
  generate_cloud_config
    [("alice.pub", Some (" KEY_A" +:+ LF)); ("notes.txt", None);
     ("bob.pub", Some "KEY_B")]
  = inr ("#cloud-config" +:+ LF +:+ "users:" +:+ LF
           +:+ join LF [CLOUD_CONFIG_USER_PART "alice" "KEY_A";
                        CLOUD_CONFIG_USER_PART "bob" "KEY_B"]).
Proof.
  refine (proj1 (proj2 (cloud_config_one_block_per_key_file
                          [("alice.pub", Some (" KEY_A" +:+ LF));
                           ("notes.txt", None); ("bob.pub", Some "KEY_B")]
                          _ _))).
  - repeat constructor; apply stops_at_pub; reflexivity.
  - repeat constructor; cbn; done.
Defined.

(** Claim C6, as it is stated, fails on a name that starts with a digit:
    [0day.pub] has the form the claim describes, and the directory that
    holds only this file raises [MissingKeys]. *)
Lemma digit_first_key_file_rejected :
  spec_key_file "0day.pub"
  /\ generate_cloud_config [("0day.pub", Some "KEY_0")]
     = inl (MissingKeys (MissingKeys.MESSAGE SSH_KEY_FILE_PATTERN)).
Proof.
  split; [|reflexivity].
  exists "0day", EmptyString. split; [reflexivity|]. split; [by left|reflexivity].
Qed.

(** ** The inventory is written last *)

Section Quiet.
Context {H : Type} (hv : Hypervisor H).

























End Quiet.







(** The run on the sample cluster returns and writes the inventory once;
    the hosts come in the order in which the mapping is traversed. *)
Example prepare_env_sample :
  outcome (prepare_env sample 5 sample_inputs fresh_cluster) = Returned tt
  /\ List.filter is_write
       (events (prepare_env sample 5 sample_inputs fresh_cluster))
     = [EvWriteFile "inventory"
          (join LF
             ["worker-1-demo    ansible_ssh_host=10.0.0.10";
              "worker-0-demo    ansible_ssh_host=10.0.0.10";
              "master-0-demo    ansible_ssh_host=10.0.0.10";
              LF +:+ "[kube-master]"; "master-0-demo";
              LF +:+ "[kube-node]"; "worker-1-demo"; "worker-0-demo";
              LF +:+ "[etcd:children]"; "kube-master";
              LF +:+ "[k8s-cluster:children]"; "kube-node"; "kube-master";
              LF +:+ "[k8s-cluster:vars]"; "ansible_become=true";
              "ansible_ssh_common_args=" +:+ String (ascii_of_nat 34)
                ("-o UserKnownHostsFile=/dev/null -o StrictHostKeyChecking=no"
                   +:+ String (ascii_of_nat 34) EmptyString)])].
Proof. by vm_compute. Qed.

(** ** The check before provisioning *)

Lemma bind_ret_l {H A B} (a : A) (f : A -> M H B) (h : H) :
  bind (ret a) f h = f a h.
Proof. unfold bind, ret. cbn. by destruct (f a h). Qed.

Lemma bind_raise_l {H A B} e (f : A -> M H B) (h : H) :
  bind (raise e) f h = raise e h.
Proof. done. Qed.

(** [Nutanix.__init__] either raises, having at most tried to log in, or
    returns after one login. *)
Lemma Nutanix_init_run {H} (hv : Hypervisor H) file nutanix_cluster_name
    credentials (h : H) :
  let r := Nutanix_init hv file nutanix_cluster_name credentials h in
  ((exists e, outcome r = Raised e)
   /\ (events r = [] \/ exists login, events r = [EvLogin credentials login]))
  \/ (outcome r = Returned tt
      /\ exists login, events r = [EvLogin credentials login]).
Proof.
  cbv zeta. unfold Nutanix_init, lift, getitem.
  destruct file as [e|data]; [left; by eauto|]. rewrite bind_ret_l.
  destruct (y_clusters data) as [clusters_config|]; [|left; by eauto].
  destruct (clusters_config !! nutanix_cluster_name) as [config|];
    [|left; by eauto].
  rewrite bind_ret_l.
  destruct (y_address config); [|left; by eauto].
  destruct (y_port config); [|left; by eauto].
  unfold api_connect.
  destruct (hv_login hv credentials h) as [[|status_code []] h'];
    [left; by eauto|].
  destruct (status_code =? 200)%Z; [right; by eauto|].
  destruct (status_code =? 401)%Z; left; by eauto.
Qed.

(** The search with an expected count of zero. *)
Lemma get_vms_zero_run {H} (hv : Hypervisor H) query (h : H) :
  get_vms hv query (Some 0%Z) h
  = MkRun (match (hv_vms hv query h).1 with
           | ConnectionFailed => Raised ConnectionError
           | Response status_code data =>
               if accepted GET status_code then
                 if (metadata_count data =? 0)%Z then Returned (entities data)
                 else Raised (InvalidNumberOfItems
                                (InvalidNumberOfItems.INVALID_COUNT
                                   (metadata_count data) "vms" query 0))
               else Raised (HTTPError status_code)
           end)
          (hv_vms hv query h).2
          [EvGetVms query (hv_vms hv query h).1].
Proof.
  unfold get_vms, bind, api_vms. rewrite api_call_run.
  cbn [outcome events final].
  destruct (hv_vms hv query h).1 as [|status_code data]; [done|].
  destruct (accepted GET status_code); [|done]. cbn [outcome events final].
  by destruct (metadata_count data =? 0)%Z.
Qed.

(** Claim C7.  A run of [prepare_env] either stops with an exception
    before any request other than the login, or its first request after
    the login is the search of the VMs by the name of the Kubernetes
    cluster.  When the search finds VMs (its count is not zero) the run
    ends there with [InvalidNumberOfItems], whose message gives the count
    and the expected number 0; when its count is zero the run goes on
    with the rest of [prepare_env], which starts with the network. *)
Theorem preflight_aborts_on_existing_vms {H} (hv : Hypervisor H)
    (fuel : nat) (inp : Inputs) (h : H) :
  let r := prepare_env hv fuel inp h in
  ((exists e, outcome r = Raised e)
   /\ (events r = [] \/ exists credentials login,
                           events r = [EvLogin credentials login]))
  \/ exists domain common master worker credentials login reply rest,
       environ inp !! K8S_CLUSTER_ENV = Some domain
       /\ get_kubernetes_config (k8s_config inp)
          = inr (common, master, worker)
       /\ events r = EvLogin credentials login :: EvGetVms domain reply :: rest
       /\ match reply with
          | Response status_code data =>
              if accepted GET status_code then
                if (metadata_count data =? 0)%Z then
                  exists h1,
                    let p := prepare_env_provision hv fuel inp domain common
                               master worker h1 in
                    rest = events p /\ outcome r = outcome p
                else
                  rest = []
                  /\ outcome r
                     = Raised (InvalidNumberOfItems
                                 ("There is " +:+ str (metadata_count data)
                                    +:+ " vms with name " +:+ domain
                                    +:+ ", expected number was 0."))
              else rest = [] /\ outcome r = Raised (HTTPError status_code)
          | ConnectionFailed => rest = [] /\ outcome r = Raised ConnectionError
          end.
Proof.
  cbv zeta. unfold prepare_env, getitem, lift.
  destruct (environ inp !! K8S_CLUSTER_ENV) as [domain|] eqn:Hdomain;
    [|left; by eauto].
  rewrite bind_ret_l.
  destruct (DOMAIN_NAME_match domain); cbn [negb]; [|left; by eauto].
  destruct (environ inp !! NUTANIX_CLUSTER_ENV) as [nutanix_cluster_name|];
    [|left; by eauto].
  rewrite bind_ret_l.
  destruct (get_kubernetes_config (k8s_config inp))
    as [e|[[common master] worker]] eqn:Hconfig; [left; by eauto|].
  rewrite bind_ret_l.
  destruct (Nutanix_init_run hv (nutanix_config inp) nutanix_cluster_name
              (typed_credentials inp) h)
    as [[[e Hraised] Hevents]|[Hreturned [login Hevents]]].
  - left. rewrite (bind_raised _ _ _ _ Hraised). cbn [outcome events].
    split; [by eauto|]. destruct Hevents as [?|[login ?]]; by eauto.
  - right. rewrite (bind_returned _ _ _ _ Hreturned). cbn [outcome events].
    rewrite Hevents.
    set (h0 := final (Nutanix_init hv (nutanix_config inp)
                        nutanix_cluster_name (typed_credentials inp) h)).
    exists domain, common, master, worker, (typed_credentials inp), login,
      (hv_vms hv domain h0).1.
    pose proof (get_vms_zero_run hv domain h0) as Hsearch.
    destruct (hv_vms hv domain h0).1 as [|status_code data].
    + rewrite (bind_raised _ _ _ ConnectionError) by (by rewrite Hsearch).
      rewrite Hsearch. by eexists.
    + destruct (accepted GET status_code).
      * destruct (metadata_count data =? 0)%Z.
        -- rewrite (bind_returned _ _ _ (entities data))
             by (by rewrite Hsearch).
           rewrite Hsearch. cbn [outcome events final app].
           eexists. split; [done|]. split; [done|]. split; [done|].
           by eexists.
        -- rewrite (bind_raised _ _ _ (InvalidNumberOfItems
                      (InvalidNumberOfItems.INVALID_COUNT
                         (metadata_count data) "vms" domain 0)))
             by (by rewrite Hsearch).
           rewrite Hsearch. by eexists.
      * rewrite (bind_raised _ _ _ (HTTPError status_code))
          by (by rewrite Hsearch).
        rewrite Hsearch. by eexists.
Qed.

(** On the sample cluster with a VM of the domain already there, the run
    stops at the search. *)
Example prepare_env_domain_taken :
  let r := prepare_env sample 5 sample_inputs
             (with_vms fresh_cluster [new_vm "worker-0-demo"]) in
  outcome r
  = Raised (InvalidNumberOfItems
              "There is 1 vms with name demo, expected number was 0.")
  /\ events r
     = [EvLogin {| j_username := "admin"; j_password := "secret" |}
          (Response 200 tt);
        EvGetVms "demo"
          (Response 200 {| metadata_count := 1;
                           entities := [new_vm "worker-0-demo"] |})].
Proof. by vm_compute. Qed.

(** ** Further properties: requests and login *)

(** X1.  [NutanixApi.__api_call] sends one request.  It returns the body
    of the reply exactly when the status is the expected one or is
    neither 4xx nor 5xx (so a POST answered with 200 instead of 201 is
    taken as a success), and raises [HTTPError] exactly when the status
    is an unexpected 4xx or 5xx. *)
Theorem api_call_status {H A} (method : Method) (send : H -> Reply A * H)
    (ev : Reply A -> Event) (h : H) :
  let r := api_call method send ev h in
  events r = [ev (send h).1]
  /\ final r = (send h).2
  /\ (forall json,
        outcome r = Returned json
        <-> exists status_code,
              (send h).1 = Response status_code json
              /\ (status_code = EXPECTED_STATUS_FOR_METHOD method
                  \/ status_code < 400 \/ 600 <= status_code)%Z)
  /\ (forall status_code,
        outcome r = Raised (HTTPError status_code)
        <-> exists json,
              (send h).1 = Response status_code json
              /\ (status_code <> EXPECTED_STATUS_FOR_METHOD method
                  /\ 400 <= status_code < 600)%Z).
Proof.
  cbv zeta. rewrite api_call_run. cbn [events final outcome].
  split; [done|]. split; [done|].
  destruct (send h).1 as [|sc body]; cbn.
  - split; [intros json|intros status_code]; split; try done;
      by intros (? & ? & ?).
  - unfold accepted.
    destruct (Z.eqb_spec sc (EXPECTED_STATUS_FOR_METHOD method)) as [Heq|Hne];
      cbn [orb].
    + split; [intros json|intros status_code]; split.
      * intros [= <-]. exists sc. by eauto.
      * by intros (? & [= <- <-] & _).
      * done.
      * intros (? & [= <- <-] & ? & _). done.
    + destruct (Z.leb_spec 400 sc); destruct (Z.ltb_spec sc 600); cbn.
      * split; [intros json|intros status_code]; split.
        -- done.
        -- intros (? & [= <- <-] & Hsc). lia.
        -- intros [= <-]. exists body. split; [done|]. lia.
        -- by intros (? & [= <- <-] & _).
      * split; [intros json|intros status_code]; split.
        -- intros [= <-]. exists sc. split; [done|]. lia.
        -- by intros (? & [= <- <-] & _).
        -- done.
        -- intros (? & [= <- <-] & ? & ?). lia.
      * split; [intros json|intros status_code]; split.
        -- intros [= <-]. exists sc. split; [done|]. lia.
        -- by intros (? & [= <- <-] & _).
        -- done.
        -- intros (? & [= <- <-] & ? & ?). lia.
      * lia.
Qed.

(** X2.  [Nutanix.__init__] sends no request when the configuration file
    cannot be used, and one login request otherwise; it returns exactly
    when the configuration can be used and the login is answered with
    status 200. *)
Theorem Nutanix_init_returns {H} (hv : Hypervisor H)
    (file : Exception + NutanixYaml) (nutanix_cluster_name : string)
    (credentials : Credentials) (h : H) :
  let r := Nutanix_init hv file nutanix_cluster_name credentials h in
  events r
  = (if cluster_configured file nutanix_cluster_name
     then [EvLogin credentials (hv_login hv credentials h).1]
     else [])
  /\ (outcome r = Returned tt
      <-> cluster_configured file nutanix_cluster_name = true
          /\ exists body,
               (hv_login hv credentials h).1 = Response 200 body).
Proof.
  cbv zeta. unfold Nutanix_init, cluster_configured, lift, getitem.
  destruct file as [e|data]; [split; [done|]; split; [done|by intros [? _]]|].
  rewrite bind_ret_l.
  destruct (y_clusters data) as [clusters_config|];
    [|split; [done|]; split; [done|by intros [? _]]].
  destruct (clusters_config !! nutanix_cluster_name) as [config|];
    [|split; [done|]; split; [done|by intros [? _]]].
  rewrite bind_ret_l.
  destruct (y_address config);
    [|split; [done|]; split; [done|by intros [? _]]].
  destruct (y_port config);
    [|split; [done|]; split; [done|by intros [? _]]].
  unfold api_connect.
  destruct (hv_login hv credentials h) as [[|status_code body] h'];
    cbn [fst snd].
  - split; [done|]. split; [done|]. by intros [_ [? ?]].
  - destruct (Z.eqb_spec status_code 200) as [->|Hne].
    + split; [done|]. split; [by eauto|done].
    + destruct (status_code =? 401)%Z; (split; [done|]);
        (split; [done|]); by intros [_ [? [= ? ?]]].
Qed.

(** ** Further properties: the mapping of VM properties *)

Lemma comprehension_lookup {A} (vm_property : VM -> A) (vms : list VM)
    (d : gmap string A) (name : string) :
  foldl (fun d vm => <[vmName vm := vm_property vm]> d) d vms !! name
  = match last (List.filter (fun vm => String.eqb (vmName vm) name) vms) with
    | Some vm => Some (vm_property vm)
    | None => d !! name
    end.
Proof.
  revert d. induction vms as [|vm vms IH]; intros d; cbn [foldl List.filter];
    [done|].
  rewrite IH.
  destruct (String.eqb_spec (vmName vm) name) as [Heq|Hne].
  - destruct (List.filter _ vms) as [|vm' found] eqn:Hfound.
    + cbn. by rewrite Heq, lookup_insert_eq.
    + change (last (vm :: vm' :: found)) with (last (vm' :: found)).
      destruct (last (vm' :: found)) eqn:Hlast; [done|].
      by apply last_None in Hlast.
  - destruct (last _); [done|]. by rewrite lookup_insert_ne.
Qed.

Lemma comprehension_size {A} (vm_property : VM -> A) (vms : list VM)
    (d : gmap string A) :
  size (foldl (fun d vm => <[vmName vm := vm_property vm]> d) d vms)
  <= size d + length vms.
Proof.
  revert d. induction vms as [|vm vms IH]; intros d; cbn [foldl length];
    [lia|].
  etrans; [apply IH|].
  assert (size (<[vmName vm := vm_property vm]> d) <= S (size d)); [|lia].
  destruct (d !! vmName vm) as [x|] eqn:Hd.
  - rewrite <- (insert_id d (vmName vm) x Hd) at 2.
    rewrite <- (insert_delete_eq d).
    rewrite <- (insert_delete_eq d (vmName vm) x).
    rewrite !map_size_insert_None by apply lookup_delete_eq. lia.
  - by rewrite map_size_insert_None.
Qed.

(** X3.  When the search returns its entities, [get_vms_property] sends
    that one request and returns a mapping in which a name is bound to the
    property of the last VM of that name in the entity list; names that no
    VM carries are unbound, and the mapping has at most as many entries as
    there are VMs. *)
Theorem get_vms_property_last_wins {H A} (hv : Hypervisor H) (query : string)
    (vm_property : VM -> A) (h : H) (data : VmsResponse) :
  outcome (api_vms hv query h) = Returned data ->
  exists d,
    outcome (get_vms_property hv query vm_property h) = Returned d
    /\ events (get_vms_property hv query vm_property h)
       = [EvGetVms query (hv_vms hv query h).1]
    /\ (forall name,
          d !! name
          = vm_property
              <$> last (List.filter
                          (fun vm => String.eqb (vmName vm) name)
                          (entities data)))
    /\ size d <= length (entities data).
Proof.
  intros Hdata. eexists.
  unfold get_vms_property, get_vms.
  rewrite (bind_returned _ _ _ (entities data))
    by (by rewrite (bind_returned _ _ _ _ Hdata)).
  rewrite (bind_returned _ _ _ _ Hdata). cbn [outcome events final ret].
  unfold api_vms. rewrite api_call_events.
  split; [done|]. split; [done|]. split.
  - intros name. rewrite comprehension_lookup, lookup_empty.
    by destruct (last _).
  - etrans; [apply comprehension_size|]. by rewrite map_size_empty.
Qed.

Lemma get_vms_property_last_wins_witness :
  exists d : gmap string (list string),
    outcome (get_vms_property sample "twin" ipAddresses
               (with_vms fresh_cluster
                  [{| vm_uuid := "u1"; vmName := "twin"; ipAddresses := [] |};
                   {| vm_uuid := "u2"; vmName := "twin";
                      ipAddresses := ["10.0.0.7"] |}]))
    = Returned d
    /\ d !! "twin" = Some ["10.0.0.7"]
    /\ size d <= 2.
Proof.
  destruct (get_vms_property_last_wins sample "twin" ipAddresses
              (with_vms fresh_cluster
                 [{| vm_uuid := "u1"; vmName := "twin"; ipAddresses := [] |};
                  {| vm_uuid := "u2"; vmName := "twin";
                     ipAddresses := ["10.0.0.7"] |}])
              _ eq_refl) as (d & Hd & _ & Hlookup & Hsize).
  exists d. split; [exact Hd|]. split; [exact (Hlookup "twin")|exact Hsize].
Defined.

(** ** Further properties: the kinds of events of each operation *)

Section Kinds.
Context {H : Type} (hv : Hypervisor H).

Lemma only_ret {A} ks (a : A) : only ks (ret a : M H A).
Proof. intros h. constructor. Qed.

Lemma only_raise {A} ks e : only ks (raise e : M H A).
Proof. intros h. constructor. Qed.

Lemma only_pending {A} ks : only ks (pending : M H A).
Proof. intros h. constructor. Qed.

Lemma only_mono {A} ks ks' (m : M H A) :
  ks ⊆ ks' -> only ks m -> only ks' m.
Proof.
  intros Hsub Hm h. eapply Forall_impl; [apply Hm|]. intros ev. apply Hsub.
Qed.

Lemma only_bind {A B} ks (m : M H A) (f : A -> M H B) :
  only ks m -> (forall a, only ks (f a)) -> only ks (bind m f).
Proof.
  intros Hm Hf h. unfold bind. specialize (Hm h).
  destruct (outcome (m h)) as [a| |]; cbn [events]; [|done..].
  apply Forall_app. split; [done|]. apply Hf.
Qed.

Lemma only_try_except {A} ks (m : M H A) handler :
  only ks m -> (forall e k, handler e = Some k -> only ks k) ->
  only ks (try_except m handler).
Proof.
  intros Hm Hk h. unfold try_except. specialize (Hm h).
  destruct (outcome (m h)) as [a|e|]; [done| |done].
  destruct (handler e) as [k|] eqn:Hhandler; [|done]. cbn [events].
  apply Forall_app. split; [done|]. by apply (Hk e k).
Qed.

Lemma only_api_call {A} ks method (send : H -> Reply A * H) ev :
  (forall reply, kind (ev reply) ∈ ks) -> only ks (api_call method send ev).
Proof. intros Hev h. rewrite api_call_events. by repeat constructor. Qed.

Lemma only_sleep ks seconds : KSleep ∈ ks -> only ks (sleep hv seconds).
Proof. intros Hk h. by repeat constructor. Qed.

Lemma only_lift {A} ks (r : Exception + A) : only ks (lift r : M H A).
Proof. destruct r; [apply only_raise|apply only_ret]. Qed.

Lemma only_getitem {A} ks (d : gmap string A) key e :
  only ks (getitem d key e : M H A).
Proof.
  unfold getitem. destruct (d !! key); [apply only_ret|apply only_raise].
Qed.

Lemma only_for_each {A} ks (xs : list A) (body : A -> M H unit) :
  (forall x, only ks (body x)) -> only ks (for_each xs body).
Proof.
  intros Hbody. induction xs as [|x xs IH]; cbn [for_each].
  - apply only_ret.
  - by apply only_bind.
Qed.

Lemma only_api_connect credentials : only [KLogin] (api_connect hv credentials).
Proof.
  intros h. unfold api_connect.
  destruct (hv_login hv credentials h) as [[|status_code []] h'];
    [repeat constructor|].
  destruct (status_code =? 200)%Z; [repeat constructor|].
  destruct (status_code =? 401)%Z; repeat constructor.
Qed.

Lemma only_Nutanix_init file nutanix_cluster_name credentials :
  only [KLogin] (Nutanix_init hv file nutanix_cluster_name credentials).
Proof.
  apply only_bind; [apply only_lift|]. intros data.
  destruct (y_clusters data) as [clusters_config|]; [|apply only_raise].
  apply only_bind; [apply only_getitem|]. intros config.
  destruct (y_address config); [|apply only_raise].
  destruct (y_port config); [apply only_api_connect|apply only_raise].
Qed.

Lemma only_wait_for_task fuel task_data :
  only [KGetTasks; KSleep] (wait_for_task hv fuel task_data).
Proof.
  induction fuel as [|fuel IH]; cbn [wait_for_task]; [apply only_pending|].
  apply only_bind; [apply only_api_call; intros; set_solver|].
  intros task_info.
  destruct (poll task_info); [apply only_raise|apply only_ret|].
  apply only_bind; [apply only_sleep; set_solver|done].
Qed.

Lemma only_get_vms query expected_count :
  only [KGetVms] (get_vms hv query expected_count).
Proof.
  apply only_bind; [apply only_api_call; intros; set_solver|]. intros data.
  destruct expected_count as [expected|]; [|apply only_ret].
  destruct (metadata_count data =? expected)%Z; [apply only_ret|].
  destruct (metadata_count data =? 0)%Z; apply only_raise.
Qed.

Lemma only_get_vms_property {A} query (vm_property : VM -> A) :
  only [KGetVms] (get_vms_property hv query vm_property).
Proof.
  apply only_bind; [apply only_get_vms|]. intros vms. apply only_ret.
Qed.

Lemma only_get_network name : only [KGetNetworks] (get_network hv name).
Proof.
  apply only_bind; [apply only_api_call; intros; set_solver|].
  intros data. cbv zeta.
  destruct (List.filter _ data) as [|x [|y found]]; cbn;
    first [apply only_ret|apply only_raise].
Qed.

Lemma only_get_image name : only [KGetImages] (get_image hv name).
Proof.
  apply only_bind; [apply only_api_call; intros; set_solver|].
  intros data. cbv zeta.
  destruct (List.filter _ data) as [|x [|y found]]; cbn;
    first [apply only_ret|apply only_raise].
Qed.

Lemma only_set_vm_power target_uuid state :
  only [KPostSetPowerState] (set_vm_power hv target_uuid state).
Proof.
  apply only_bind; [apply only_api_call; intros; set_solver|].
  intros. apply only_ret.
Qed.

Lemma only_wait_for_ips fuel k8s_cluster_name vms_with_ips :
  only [KSleep; KGetVms] (wait_for_ips hv fuel k8s_cluster_name vms_with_ips).
Proof.
  revert vms_with_ips. induction fuel as [|fuel IH]; intros vms_with_ips;
    cbn [wait_for_ips]; destruct (all_assigned vms_with_ips);
    try apply only_ret; [apply only_pending|].
  apply only_bind; [apply only_sleep; set_solver|]. intros _.
  apply only_bind; [|intros; apply IH].
  eapply only_mono; [|apply only_get_vms_property].
  intros k Hk. apply list_elem_of_singleton in Hk as ->. by repeat constructor.
Qed.

End Kinds.

(** ** Further properties: how often an operation does something *)

Lemma count_app k (evs1 evs2 : list Event) :
  count k (evs1 ++ evs2) = count k evs1 + count k evs2.
Proof. unfold count. by rewrite List.filter_app, length_app. Qed.

Lemma count_absent (k : Kind) (ks : list Kind) (evs : list Event) :
  Forall (fun ev => kind ev ∈ ks) evs -> k ∉ ks -> count k evs = 0.
Proof.
  intros Hevs Hk. unfold count. rewrite filter_none; [done|].
  eapply Forall_impl; [exact Hevs|]. intros ev Hev. cbv beta.
  apply bool_decide_eq_false. by intros <-.
Qed.

Section Counts.
Context {St : Type} (hv : Hypervisor St).

Lemma at_most_of_only {A} (ks : list Kind) k n (m : M St A) :
  only ks m -> k ∉ ks -> at_most k n m.
Proof. intros Hm Hk h. rewrite (count_absent k ks _ (Hm h) Hk). lia. Qed.

Lemma at_most_mono {A} k n n' (m : M St A) :
  n <= n' -> at_most k n m -> at_most k n' m.
Proof. intros Hn Hm h. specialize (Hm h). lia. Qed.

Lemma at_most_ret {A} k (a : A) : at_most k 0 (ret a : M St A).
Proof. intros h. done. Qed.

Lemma at_most_bind {A B} k a b (m : M St A) (f : A -> M St B) :
  at_most k a m -> (forall x, at_most k b (f x)) ->
  at_most k (a + b) (bind m f).
Proof.
  intros Hm Hf h. unfold bind. specialize (Hm h).
  destruct (outcome (m h)) as [x| |]; cbn [events]; [|lia..].
  rewrite count_app. specialize (Hf x (final (m h))). lia.
Qed.

Lemma at_most_try_except {A} k a b (m : M St A) handler :
  at_most k a m -> (forall e c, handler e = Some c -> at_most k b c) ->
  at_most k (a + b) (try_except m handler).
Proof.
  intros Hm Hc h. unfold try_except. specialize (Hm h).
  destruct (outcome (m h)) as [x|e|]; [lia| |lia].
  destruct (handler e) as [c|] eqn:Hhandler; [|lia]. cbn [events].
  rewrite count_app. specialize (Hc e c Hhandler (final (m h))). lia.
Qed.

Lemma at_most_api_call {A} k method (send : St -> Reply A * St) ev :
  at_most k 1 (api_call method send ev).
Proof.
  intros h. rewrite api_call_events. unfold count. cbn.
  destruct (bool_decide _); cbn; lia.
Qed.

Lemma at_most_submit_then_wait k fuel method
    (send : St -> Reply TaskRef * St) ev :
  k <> KGetTasks -> k <> KSleep ->
  at_most k 1 (bind (api_call method send ev) (wait_for_task hv fuel)).
Proof.
  intros Htasks Hsleep. apply (at_most_bind k 1 0); [apply at_most_api_call|].
  intros task. apply (at_most_of_only [KGetTasks; KSleep]);
    [apply only_wait_for_task|].
  intros Hin. apply elem_of_cons in Hin as [?|Hin]; [done|].
  by apply list_elem_of_singleton in Hin.
Qed.

Lemma only_submit_then_wait (ks : list Kind) fuel method
    (send : St -> Reply TaskRef * St) ev :
  (forall reply, kind (ev reply) ∈ ks) -> [KGetTasks; KSleep] ⊆ ks ->
  only ks (bind (api_call method send ev) (wait_for_task hv fuel)).
Proof.
  intros Hev Hks. apply only_bind; [by apply only_api_call|]. intros task.
  eapply only_mono; [exact Hks|apply only_wait_for_task].
Qed.

End Counts.

Section Once.
Context {St : Type} (hv : Hypervisor St).

Lemma at_most_raise {A} k e : at_most k 0 (raise e : M St A).
Proof. intros h. done. Qed.

Lemma at_most_absent {A} (ks : list Kind) k (m : M St A) :
  only ks m -> k ∉ ks -> at_most k 0 m.
Proof. apply at_most_of_only. Qed.

Lemma at_most_get_network k name : at_most k 1 (get_network hv name).
Proof.
  apply (at_most_bind k 1 0); [apply at_most_api_call|]. intros data. cbv zeta.
  destruct (List.filter _ data) as [|x [|y found]]; cbn;
    first [apply at_most_ret|apply at_most_raise].
Qed.

Lemma at_most_get_image k name : at_most k 1 (get_image hv name).
Proof.
  apply (at_most_bind k 1 0); [apply at_most_api_call|]. intros data. cbv zeta.
  destruct (List.filter _ data) as [|x [|y found]]; cbn;
    first [apply at_most_ret|apply at_most_raise].
Qed.

Lemma at_most_get_vms k query expected_count :
  at_most k 1 (get_vms hv query expected_count).
Proof.
  apply (at_most_bind k 1 0); [apply at_most_api_call|]. intros data.
  destruct expected_count as [expected|]; [|apply at_most_ret].
  destruct (metadata_count data =? expected)%Z; [apply at_most_ret|].
  destruct (metadata_count data =? 0)%Z; apply at_most_raise.
Qed.

Lemma at_most_Nutanix_init k file nutanix_cluster_name credentials :
  at_most k 1 (Nutanix_init hv file nutanix_cluster_name credentials).
Proof.
  intros h.
  destruct (Nutanix_init_run hv file nutanix_cluster_name credentials h)
    as [[_ [Hev|[login Hev]]]|[_ [login Hev]]]; rewrite Hev; unfold count;
    cbn; try lia; destruct (bool_decide _); cbn; lia.
Qed.

Lemma only_create_image fuel name storage_container_name os_image_url :
  only [KPostImages; KGetTasks; KSleep]
    (create_image hv fuel name storage_container_name os_image_url).
Proof.
  apply only_submit_then_wait; [intros; by repeat constructor|].
  intros k Hk. by apply elem_of_cons; right.
Qed.

Lemma only_create_vm fuel vcpu ram disk name network_uuid os_image_uuid
    cloud_config :
  only [KPostVms; KGetTasks; KSleep]
    (create_vm hv fuel vcpu ram disk name network_uuid os_image_uuid
       cloud_config).
Proof.
  apply only_submit_then_wait; [intros; by repeat constructor|].
  intros k Hk. by apply elem_of_cons; right.
Qed.

Lemma only_clone_vm fuel base_uuid configs vm_domain :
  only [KPostVmsClone; KGetTasks; KSleep]
    (clone_vm hv fuel base_uuid configs vm_domain).
Proof.
  apply only_submit_then_wait; [intros; by repeat constructor|].
  intros k Hk. by apply elem_of_cons; right.
Qed.

Lemma at_most_clone_vm fuel base_uuid configs vm_domain :
  at_most KPostVmsClone 1 (clone_vm hv fuel base_uuid configs vm_domain).
Proof. by apply at_most_submit_then_wait. Qed.

Lemma only_get_or_create_os_image fuel name storage_container_name
    os_image_url :
  only [KGetImages; KPostImages; KGetTasks; KSleep]
    (get_or_create_os_image hv fuel name storage_container_name os_image_url).
Proof.
  assert (Hget : only [KGetImages; KPostImages; KGetTasks; KSleep]
                   (get_image hv name)).
  { eapply only_mono; [|apply only_get_image].
    intros k Hk. apply list_elem_of_singleton in Hk as ->.
    by repeat constructor. }
  apply only_bind.
  - apply only_try_except.
    + apply only_bind; [done|]. intros. apply only_ret.
    + intros e k Hk. destruct e; try done. injection Hk as <-.
      apply only_bind; [|intros; apply only_ret].
      eapply only_mono; [|apply only_create_image].
      intros k Hk. by apply elem_of_cons; right.
  - intros [image|]; [apply only_ret|done].
Qed.

Lemma only_get_or_create_vm fuel vcpu ram disk name network_uuid
    os_image_uuid cloud_config :
  only [KGetVms; KPostVms; KGetTasks; KSleep]
    (get_or_create_vm hv fuel vcpu ram disk name network_uuid os_image_uuid
       cloud_config).
Proof.
  assert (Hget : only [KGetVms; KPostVms; KGetTasks; KSleep]
                   (get_vms hv name (Some 1%Z))).
  { eapply only_mono; [|apply only_get_vms].
    intros k Hk. apply list_elem_of_singleton in Hk as ->.
    by repeat constructor. }
  apply only_bind.
  - apply only_try_except.
    + apply only_bind; [done|]. intros. apply only_ret.
    + intros e k Hk. destruct e; try done. injection Hk as <-.
      apply only_bind; [|intros; apply only_ret].
      eapply only_mono; [|apply only_create_vm].
      intros k Hk. by apply elem_of_cons; right.
  - intros vms. apply only_bind.
    + destruct vms as [[|vm vms]|]; first [done|apply only_ret].
    + intros [|vm vms']; [apply only_raise|apply only_ret].
Qed.

Lemma at_most_create_get_or_create_os_image fuel name storage_container_name
    os_image_url :
  at_most KPostImages 1
    (get_or_create_os_image hv fuel name storage_container_name os_image_url).
Proof.
  assert (Hget : at_most KPostImages 0 (get_image hv name)).
  { apply (at_most_absent [KGetImages]); [apply only_get_image|].
    intros Hin. by apply list_elem_of_singleton in Hin. }
  apply (at_most_bind _ 1 0).
  - apply (at_most_try_except _ 0 1).
    + apply (at_most_bind _ 0 0); [done|]. intros. apply at_most_ret.
    + intros e k Hk. destruct e; try done. injection Hk as <-.
      apply (at_most_bind _ 1 0); [|intros; apply at_most_ret].
      by apply at_most_submit_then_wait.
  - intros [image|]; [apply at_most_ret|done].
Qed.

Lemma at_most_create_get_or_create_vm fuel vcpu ram disk name network_uuid
    os_image_uuid cloud_config :
  at_most KPostVms 1
    (get_or_create_vm hv fuel vcpu ram disk name network_uuid os_image_uuid
       cloud_config).
Proof.
  assert (Hget : at_most KPostVms 0 (get_vms hv name (Some 1%Z))).
  { apply (at_most_absent [KGetVms]); [apply only_get_vms|].
    intros Hin. by apply list_elem_of_singleton in Hin. }
  apply (at_most_bind _ 1 0).
  - apply (at_most_try_except _ 0 1).
    + apply (at_most_bind _ 0 0); [done|]. intros. apply at_most_ret.
    + intros e k Hk. destruct e; try done. injection Hk as <-.
      apply (at_most_bind _ 1 0); [|intros; apply at_most_ret].
      by apply at_most_submit_then_wait.
  - intros vms. apply (at_most_bind _ 0 0).
    + destruct vms as [[|vm vms]|]; first [done|apply at_most_ret].
    + intros [|vm vms']; [apply at_most_raise|apply at_most_ret].
Qed.

End Once.

(** X4.  [get_or_create_os_image] lists images, creates an image and
    waits for the task, and does nothing else; whatever the cluster
    answers, it sends at most one request that creates an image.
    Likewise [get_or_create_vm] searches VMs, creates a VM and waits for
    the task, and sends at most one request that creates a VM. *)
Theorem get_or_create_creates_at_most_once {St} (hv : Hypervisor St)
    (fuel : nat) (name : string) (h : St) :
  (forall storage_container_name os_image_url,
     let evs := events (get_or_create_os_image hv fuel name
                          storage_container_name os_image_url h) in
     Forall (fun ev => kind ev ∈ [KGetImages; KPostImages; KGetTasks; KSleep])
       evs
     /\ count KPostImages evs <= 1)
  /\ (forall vcpu ram disk network_uuid os_image_uuid cloud_config,
        let evs := events (get_or_create_vm hv fuel vcpu ram disk name
                             network_uuid os_image_uuid cloud_config h) in
        Forall (fun ev => kind ev ∈ [KGetVms; KPostVms; KGetTasks; KSleep]) evs
        /\ count KPostVms evs <= 1).
Proof.
  split; intros; cbv zeta; split.
  - apply only_get_or_create_os_image.
  - apply at_most_create_get_or_create_os_image.
  - apply only_get_or_create_vm.
  - apply at_most_create_get_or_create_vm.
Qed.

Section OncePerRun.
Context {St : Type} (hv : Hypervisor St).

Lemma at_most_getitem {A} k (d : gmap string A) key e :
  at_most k 0 (getitem d key e : M St A).
Proof.
  unfold getitem. destruct (d !! key); [apply at_most_ret|apply at_most_raise].
Qed.

Lemma at_most_lift {A} k (r : Exception + A) : at_most k 0 (lift r : M St A).
Proof. destruct r; [apply at_most_raise|apply at_most_ret]. Qed.

Lemma at_most_write_file k writable path content :
  at_most k 1 (write_file writable path content : M St unit).
Proof.
  unfold write_file. destruct writable.
  - intros h. unfold count. cbn. destruct (bool_decide _); cbn; lia.
  - eapply at_most_mono; [|apply at_most_raise]. lia.
Qed.

Lemma only_write_file writable path content :
  only [KWriteFile] (write_file writable path content : M St unit).
Proof.
  unfold write_file. destruct writable; [|apply only_raise].
  intros h. by repeat constructor.
Qed.

Lemma at_most_inventory k inp vms_with_ips :
  at_most k 1 (prepare_env_inventory inp vms_with_ips : M St unit).
Proof.
  apply (at_most_bind k 0 1); [apply at_most_lift|]. intros inventory_lines.
  unfold write_file. destruct (inventory_writable inp).
  - intros h. unfold count. cbn. destruct (bool_decide _); cbn; lia.
  - eapply at_most_mono; [|apply at_most_raise]. lia.
Qed.

Lemma only_power_on (uuids : list string) :
  only [KPostSetPowerState]
    (for_each uuids (fun target_uuid => set_vm_power hv target_uuid "on")).
Proof. apply only_for_each. intros. apply only_set_vm_power. Qed.

Ltac absent :=
  let Hin := fresh "Hin" in
  intros Hin;
  repeat (apply elem_of_cons in Hin as [?|Hin]; [done|]);
  by apply elem_of_nil in Hin.

Ltac stage :=
  first
    [ apply at_most_getitem
    | apply at_most_lift
    | eapply at_most_absent;
      [ first [ apply only_get_network
              | apply only_get_or_create_os_image
              | apply only_get_or_create_vm
              | apply only_clone_vm
              | apply only_get_vms
              | apply only_get_vms_property
              | apply only_power_on
              | apply only_wait_for_ips
              | apply only_Nutanix_init
              | apply only_write_file ]
      | absent ]
    | apply at_most_get_network
    | apply at_most_create_get_or_create_os_image
    | apply at_most_create_get_or_create_vm
    | apply at_most_clone_vm
    | apply at_most_Nutanix_init
    | apply at_most_inventory
    | apply at_most_write_file ].

Lemma at_most_provision k fuel inp k8s_cluster_name k8s_common_config
    k8s_master_config k8s_worker_config :
  k ∈ [KGetNetworks; KPostImages; KPostVms; KPostVmsClone; KWriteFile] ->
  at_most k 1
    (prepare_env_provision hv fuel inp k8s_cluster_name k8s_common_config
       k8s_master_config k8s_worker_config).
Proof.
  intros Hk. unfold prepare_env_provision.
  repeat (apply elem_of_cons in Hk as [->|Hk]);
    try (by apply elem_of_nil in Hk);
    (eapply at_most_mono;
     [|repeat (eapply at_most_bind; [stage|intros ?]); stage]);
    cbn; lia.
Qed.

Lemma at_most_run k fuel inp :
  k ∈ [KLogin; KGetNetworks; KPostImages; KPostVms; KPostVmsClone;
       KWriteFile] ->
  at_most k 1 (prepare_env hv fuel inp).
Proof.
  intros Hk. unfold prepare_env.
  apply (at_most_bind k 0 1); [apply at_most_getitem|].
  intros k8s_cluster_name.
  destruct (DOMAIN_NAME_match k8s_cluster_name); cbn [negb];
    [|eapply at_most_mono; [|apply at_most_raise]; lia].
  apply (at_most_bind k 0 1); [apply at_most_getitem|].
  intros nutanix_cluster_name.
  apply (at_most_bind k 0 1); [apply at_most_lift|].
  intros [[common master] worker].
  apply elem_of_cons in Hk as [->|Hk].
  - apply (at_most_bind _ 1 0); [apply at_most_Nutanix_init|]. intros _.
    apply (at_most_bind _ 0 0).
    { eapply at_most_absent; [apply only_get_vms|absent]. }
    intros _. unfold prepare_env_provision.
    eapply at_most_mono;
      [|repeat (eapply at_most_bind; [stage|intros ?]); stage].
    cbn. lia.
  - apply (at_most_bind _ 0 1).
    { eapply at_most_absent; [apply only_Nutanix_init|].
      intros Hin. apply list_elem_of_singleton in Hin. subst k.
      repeat (apply elem_of_cons in Hk as [?|Hk]; [done|]).
      by apply elem_of_nil in Hk. }
    intros _. apply (at_most_bind _ 0 1).
    { eapply at_most_absent; [apply only_get_vms|].
      intros Hin. apply list_elem_of_singleton in Hin. subst k.
      repeat (apply elem_of_cons in Hk as [?|Hk]; [done|]).
      by apply elem_of_nil in Hk. }
    intros _. by apply at_most_provision.
Qed.

End OncePerRun.

(** X5.  Whatever the inputs and whatever the cluster answers, one run
    of [prepare_env] logs in at most once, lists the networks at most
    once, and sends at most one request that creates an image, at most
    one that creates a VM, at most one clone request; it writes at most
    one file. *)
Theorem prepare_env_at_most_once {St} (hv : Hypervisor St) (fuel : nat)
    (inp : Inputs) (h : St) :
  let evs := events (prepare_env hv fuel inp h) in
  count KLogin evs <= 1
  /\ count KGetNetworks evs <= 1
  /\ count KPostImages evs <= 1
  /\ count KPostVms evs <= 1
  /\ count KPostVmsClone evs <= 1
  /\ count KWriteFile evs <= 1.
Proof.
  cbv zeta. repeat split; apply at_most_run; by repeat constructor.
Qed.

(** ** Further properties: creating what is missing *)

Lemma get_image_missing {St} (hv : Hypervisor St) name (h : St) data :
  outcome (api_images hv h) = Returned data ->
  List.filter (fun i => String.eqb (image_name i) name) data = [] ->
  get_image hv name h
  = MkRun (Raised (ItemDoesNotExist (ItemDoesNotExist.MESSAGE "image" name)))
      (final (api_images hv h)) [EvGetImages (hv_images hv h).1].
Proof.
  intros Hdata Hfound. unfold get_image.
  rewrite (bind_returned _ _ _ _ Hdata), Hfound. unfold api_images.
  by rewrite api_call_events.
Qed.

(** X6.  When the listing shows no image of the requested name and the
    request that creates the image is answered with a task,
    [get_or_create_os_image] waits for that task; when the wait returns
    it lists the images once more and ends as that second lookup ends (so
    an image that is still missing raises [ItemDoesNotExist], and nothing
    is tried again); when the wait does not return, its exception is the
    exception of the call and there is no second listing. *)
Theorem get_or_create_os_image_creates {St} (hv : Hypervisor St) (fuel : nat)
    (name storage_container_name os_image_url : string) (h : St)
    (data : list Image) (task : TaskRef) :
  let post := create_image_data name storage_container_name os_image_url in
  let h1 := final (api_images hv h) in
  let w := wait_for_task hv fuel task (final (api_images_create hv post h1)) in
  let again := get_image hv name (final w) in
  let r := get_or_create_os_image hv fuel name storage_container_name
             os_image_url h in
  outcome (api_images hv h) = Returned data ->
  List.filter (fun i => String.eqb (image_name i) name) data = [] ->
  outcome (api_images_create hv post h1) = Returned task ->
  outcome r
  = match outcome w with
    | Returned _ => outcome again
    | Raised e => Raised e
    | Pending => Pending
    end
  /\ events r
     = (EvGetImages (hv_images hv h).1
          :: EvPostImages post (hv_images_create hv post h1).1
          :: events w
          ++ match outcome w with
             | Returned _ => events again
             | _ => []
             end)%list.
Proof.
  intros post h1 w again r Hdata Hfound Hpost. subst r.
  assert (Hcreate : create_image hv fuel name storage_container_name
                      os_image_url h1
                    = MkRun (outcome w) (final w)
                        (EvPostImages post (hv_images_create hv post h1).1
                           :: events w)).
  { unfold create_image. fold post.
    rewrite (bind_returned _ _ _ _ Hpost). unfold api_images_create.
    by rewrite api_call_events. }
  unfold get_or_create_os_image, try_except, bind.
  rewrite (get_image_missing hv name h data Hdata Hfound).
  cbn [outcome events final]. fold h1. rewrite Hcreate.
  cbn [outcome events final].
  destruct (outcome w) as [[]| |] eqn:Hw; cbn [outcome events final ret app];
    [|by rewrite app_nil_r..].
  fold again. split; [done|]. by rewrite app_nil_r.
Qed.

Lemma get_or_create_os_image_creates_witness :
  outcome (get_or_create_os_image sample 2 "centos" "default" OS_IMAGE_URL
             fresh_cluster)
  = Returned {| image_name := "centos"; vm_disk_id := "disk-centos" |}
  /\ count KPostImages
       (events (get_or_create_os_image sample 2 "centos" "default"
                  OS_IMAGE_URL fresh_cluster)) = 1.
Proof.
  destruct (get_or_create_os_image_creates sample 2 "centos" "default"
              OS_IMAGE_URL fresh_cluster [] {| task_uuid := "task-1" |}
              eq_refl eq_refl eq_refl) as [Hout Hev].
  split; [exact Hout|]. rewrite Hev. reflexivity.
Defined.

(** X7.  When the listing shows several images of the requested name,
    [get_or_create_os_image] raises [InvalidNumberOfItems] and has sent
    nothing but the listing: only [ItemDoesNotExist] leads to a creation.
    Likewise [get_or_create_vm] when the search reports a count that is
    neither 1 nor 0. *)
Theorem get_or_create_several_found {St} (hv : Hypervisor St) (fuel : nat)
    (name : string) (h : St) :
  (forall storage_container_name os_image_url data,
     outcome (api_images hv h) = Returned data ->
     1 < length (List.filter (fun i => String.eqb (image_name i) name) data) ->
     let r := get_or_create_os_image hv fuel name storage_container_name
                os_image_url h in
     outcome r
     = Raised (InvalidNumberOfItems
                 (InvalidNumberOfItems.INVALID_COUNT
                    (Z.of_nat
                       (length (List.filter
                                  (fun i => String.eqb (image_name i) name)
                                  data)))
                    "images" name 1))
     /\ events r = [EvGetImages (hv_images hv h).1])
  /\ (forall vcpu ram disk network_uuid os_image_uuid cloud_config data,
        outcome (api_vms hv name h) = Returned data ->
        metadata_count data <> 1%Z ->
        metadata_count data <> 0%Z ->
        let r := get_or_create_vm hv fuel vcpu ram disk name network_uuid
                   os_image_uuid cloud_config h in
        outcome r
        = Raised (InvalidNumberOfItems
                    (InvalidNumberOfItems.INVALID_COUNT (metadata_count data)
                       "vms" name 1))
        /\ events r = [EvGetVms name (hv_vms hv name h).1]).
Proof.
  split.
  - intros sc url data Hdata Hmany r. subst r.
    assert (Hget : get_image hv name h
                   = MkRun (Raised (InvalidNumberOfItems
                              (InvalidNumberOfItems.INVALID_COUNT
                                 (Z.of_nat
                                    (length (List.filter
                                       (fun i => String.eqb (image_name i) name)
                                       data)))
                                 "images" name 1)))
                       (final (api_images hv h))
                       [EvGetImages (hv_images hv h).1]).
    { unfold get_image. rewrite (bind_returned _ _ _ _ Hdata).
      unfold api_images. rewrite api_call_events.
      destruct (List.filter _ data) as [|x [|y found]]; cbn in Hmany;
        [lia..|done]. }
    unfold get_or_create_os_image, try_except, bind. by rewrite Hget.
  - intros vcpu ram disk net img cc data Hdata Hone Hzero r. subst r.
    assert (Hget : get_vms hv name (Some 1%Z) h
                   = MkRun (Raised (InvalidNumberOfItems
                              (InvalidNumberOfItems.INVALID_COUNT
                                 (metadata_count data) "vms" name 1)))
                       (final (api_vms hv name h))
                       [EvGetVms name (hv_vms hv name h).1]).
    { unfold get_vms. rewrite (bind_returned _ _ _ _ Hdata).
      unfold api_vms. rewrite api_call_events.
      apply Z.eqb_neq in Hone, Hzero. by rewrite Hone, Hzero. }
    unfold get_or_create_vm, try_except, bind. by rewrite Hget.
Qed.

Lemma get_or_create_several_found_witness :
  (let r := get_or_create_os_image sample 2 "centos" "default" OS_IMAGE_URL
              {| c_vms := [];
                 c_images := [{| image_name := "centos"; vm_disk_id := "d1" |};
                              {| image_name := "centos"; vm_disk_id := "d2" |}];
                 c_networks := []; c_task_replies := [] |} in
   outcome r
   = Raised (InvalidNumberOfItems
               "There is 2 images with name centos, expected number was 1.")
   /\ events r
      = [EvGetImages
           (Response 200
              [{| image_name := "centos"; vm_disk_id := "d1" |};
               {| image_name := "centos"; vm_disk_id := "d2" |}])])
  /\ (let r := get_or_create_vm sample 2 2 4 10 "demo" "net-1" "disk-centos"
                 "#cloud-config"
                 (with_vms fresh_cluster
                    [new_vm "worker-0-demo"; new_vm "worker-1-demo"]) in
      outcome r
      = Raised (InvalidNumberOfItems
                  "There is 2 vms with name demo, expected number was 1.")
      /\ count KPostVms (events r) = 0).
Proof.
  split.
  - exact (proj1 (get_or_create_several_found sample 2 "centos"
                    {| c_vms := [];
                       c_images :=
                         [{| image_name := "centos"; vm_disk_id := "d1" |};
                          {| image_name := "centos"; vm_disk_id := "d2" |}];
                       c_networks := []; c_task_replies := [] |})
             "default" OS_IMAGE_URL _ eq_refl (le_n 2)).
  - destruct (proj2 (get_or_create_several_found sample 2 "demo"
                       (with_vms fresh_cluster
                          [new_vm "worker-0-demo"; new_vm "worker-1-demo"]))
                2%Z 4%Z 10%Z "net-1" "disk-centos" "#cloud-config" _ eq_refl
                ltac:(done) ltac:(done)) as [Hout Hev].
    split; [exact Hout|]. rewrite Hev. reflexivity.
Defined.

(** X8.  When the search answers with a count of 1 and no entity,
    [get_or_create_vm] takes that for nothing found yet does not create:
    it searches a second time and ends as that search ends, raising
    [IndexError] when the second search returns no entity either. *)
Theorem get_or_create_vm_count_without_entity {St} (hv : Hypervisor St)
    (fuel : nat) (vcpu ram disk : Z)
    (name network_uuid os_image_uuid cloud_config : string) (h : St)
    (data : VmsResponse) :
  let again := get_vms hv name (Some 1%Z) (final (api_vms hv name h)) in
  let r := get_or_create_vm hv fuel vcpu ram disk name network_uuid
             os_image_uuid cloud_config h in
  outcome (api_vms hv name h) = Returned data ->
  metadata_count data = 1%Z ->
  entities data = [] ->
  outcome r
  = match outcome again with
    | Returned (vm :: _) => Returned vm
    | Returned [] => Raised IndexError
    | Raised e => Raised e
    | Pending => Pending
    end
  /\ events r = (EvGetVms name (hv_vms hv name h).1 :: events again)%list.
Proof.
  intros again r Hdata Hcount Hnone. subst r.
  unfold get_or_create_vm, try_except, bind.
  rewrite (get_vms_found hv name h data Hdata Hcount), Hnone.
  cbn [outcome events final ret app]. fold again.
  destruct (outcome again) as [[|vm vms]| |]; cbn [outcome events];
    by rewrite ?app_nil_r.
Qed.

Lemma get_or_create_vm_count_without_entity_witness :
  outcome (get_or_create_vm miscounting 2 2 4 10 "base" "net-1" "disk-centos"
             "#cloud-config" tt)
  = Raised IndexError
  /\ events (get_or_create_vm miscounting 2 2 4 10 "base" "net-1"
               "disk-centos" "#cloud-config" tt)
     = [EvGetVms "base"
          (Response 200 {| metadata_count := 1; entities := [] |});
        EvGetVms "base"
          (Response 200 {| metadata_count := 1; entities := [] |})].
Proof.
  exact (get_or_create_vm_count_without_entity miscounting 2 2 4 10 "base"
           "net-1" "disk-centos" "#cloud-config" tt _ eq_refl eq_refl eq_refl).
Defined.

(** ** Further properties: the configuration of the Kubernetes cluster *)

Lemma role_config_role name section cfg :
  role_config name section = inr cfg -> role cfg = name.
Proof.
  unfold role_config.
  destruct (int _) as [?|nodes]; [done|].
  destruct (int _) as [?|vcpu]; [done|].
  destruct (int _) as [?|ram]; [done|].
  by intros [= <-].
Qed.

(** X9.  What [get_kubernetes_config] returns is well formed: the common
    section is the one of the file, the two node configurations carry the
    roles "master" and "worker", and the number of master nodes is 1, 3
    or 5.  A section that the file does not have gives the defaults, 3
    nodes with 2 vCPUs and 4 GB. *)
Theorem get_kubernetes_config_result (data : K8sYaml)
    (common_config : gmap string string)
    (master_config worker_config : NodeConfig) :
  get_kubernetes_config (inr data)
  = inr (common_config, master_config, worker_config) ->
  y_common data = Some common_config
  /\ role master_config = "master"
  /\ role worker_config = "worker"
  /\ (number_of_nodes master_config = 1
      \/ number_of_nodes master_config = 3
      \/ number_of_nodes master_config = 5)%Z
  /\ (y_master data = None ->
      master_config = {| role := "master"; number_of_nodes := 3;
                         number_of_vcpu := 2; ram_size := 4 |})
  /\ (y_worker data = None ->
      worker_config = {| role := "worker"; number_of_nodes := 3;
                         number_of_vcpu := 2; ram_size := 4 |}).
Proof.
  unfold get_kubernetes_config.
  destruct (y_common data) as [common|]; [|done].
  destruct (role_config "master" (y_master data)) as [?|master] eqn:Hmaster;
    [done|].
  destruct (existsb _ SUPPORTED_NUMBER_OF_MASTERS) eqn:Hsupported; [|done].
  cbn [negb].
  destruct (role_config "worker" (y_worker data)) as [?|worker] eqn:Hworker;
    [done|].
  intros [= <- <- <-].
  split; [done|].
  split; [by apply (role_config_role _ _ _ Hmaster)|].
  split; [by apply (role_config_role _ _ _ Hworker)|].
  split.
  - apply existsb_exists in Hsupported as (n & Hin & Heq).
    apply Z.eqb_eq in Heq. rewrite Heq.
    cbn in Hin. destruct Hin as [<-|[<-|[<-|[]]]]; by eauto.
  - split.
    + intros Hnone. rewrite Hnone in Hmaster. by injection Hmaster as <-.
    + intros Hnone. rewrite Hnone in Hworker. by injection Hworker as <-.
Qed.

Lemma get_kubernetes_config_result_witness :
  y_common sample_k8s_yaml
  = Some (<["network_name" := "vlan0"]>
            (<["os_image_name" := "centos"]>
               (<["storage_container_name" := "default"]> ∅)))
  /\ (1 = 1 \/ 1 = 3 \/ 1 = 5)%Z.
Proof.
  destruct (get_kubernetes_config_result sample_k8s_yaml
              (<["network_name" := "vlan0"]>
                 (<["os_image_name" := "centos"]>
                    (<["storage_container_name" := "default"]> ∅)))
              {| role := "master"; number_of_nodes := 1;
                 number_of_vcpu := 2; ram_size := 4 |}
              {| role := "worker"; number_of_nodes := 2;
                 number_of_vcpu := 2; ram_size := 4 |}
              eq_refl) as (Hcommon & _ & _ & Hnodes & _).
  split; [exact Hcommon|exact Hnodes].
Defined.

(** X10.  How [get_kubernetes_config] reports a document that is a
    mapping with mappings for sections.  A document without the common
    section fails with the message of the missing section, whatever else
    it holds.  A number of master nodes other than 1, 3 or 5 fails with
    the message of an invalid value wrapped around the message of the
    number of masters, whatever the worker section holds: the error
    raised for it is caught with the errors of [int],
    [ConfigurationError] being a [ValueError].  A [ValueError] of [int]
    on a field of the master section, or on a field of the worker section
    once the master section has passed, is reported as an invalid value
    with the message of [int]. *)
Theorem get_kubernetes_config_errors (data : K8sYaml) :
  (y_common data = None ->
   get_kubernetes_config (inr data)
   = inl (ConfigurationError "Missing common section in configuration file"))
  /\ (forall common_config master_config,
        y_common data = Some common_config ->
        role_config "master" (y_master data) = inr master_config ->
        number_of_nodes master_config <> 1%Z ->
        number_of_nodes master_config <> 3%Z ->
        number_of_nodes master_config <> 5%Z ->
        get_kubernetes_config (inr data)
        = inl (ConfigurationError
                 "Invalid config field value: Number of master nodes must belongs to set (1, 3, 5)"))
  /\ (forall common_config message,
        y_common data = Some common_config ->
        role_config "master" (y_master data) = inl message ->
        get_kubernetes_config (inr data)
        = inl (ConfigurationError
                 ("Invalid config field value: " +:+ message)))
  /\ (forall common_config master_config message,
        y_common data = Some common_config ->
        role_config "master" (y_master data) = inr master_config ->
        (number_of_nodes master_config = 1
         \/ number_of_nodes master_config = 3
         \/ number_of_nodes master_config = 5)%Z ->
        role_config "worker" (y_worker data) = inl message ->
        get_kubernetes_config (inr data)
        = inl (ConfigurationError
                 ("Invalid config field value: " +:+ message))).
Proof.
  unfold get_kubernetes_config. split; [|split; [|split]].
  - by intros ->.
  - intros common master -> -> H1 H3 H5.
    apply Z.eqb_neq in H1, H3, H5. cbn [SUPPORTED_NUMBER_OF_MASTERS existsb].
    by rewrite H1, H3, H5.
  - by intros common message -> ->.
  - intros common master message -> -> Hnodes ->.
    by destruct Hnodes as [-> | [-> | ->] ].
Qed.

Lemma get_kubernetes_config_errors_witness :
  get_kubernetes_config
    (inr {| y_common := Some ∅;
            y_master := Some {| y_number_of_nodes := Some (YInt 2);
                                y_number_of_vcpu := None;
                                y_ram_size := None |};
            y_worker := Some {| y_number_of_nodes := Some (YNotInt "many");
                                y_number_of_vcpu := None;
                                y_ram_size := None |} |})
  = inl (ConfigurationError
           "Invalid config field value: Number of master nodes must belongs to set (1, 3, 5)")
  /\ get_kubernetes_config
       (inr {| y_common := Some ∅;
               y_master := None;
               y_worker := Some {| y_number_of_nodes := Some (YNotInt "many");
                                   y_number_of_vcpu := None;
                                   y_ram_size := None |} |})
     = inl (ConfigurationError "Invalid config field value: many").
Proof.
  split.
  - refine (proj1 (proj2 (get_kubernetes_config_errors
                            {| y_common := Some ∅;
                               y_master :=
                                 Some {| y_number_of_nodes := Some (YInt 2);
                                         y_number_of_vcpu := None;
                                         y_ram_size := None |};
                               y_worker :=
                                 Some {| y_number_of_nodes :=
                                           Some (YNotInt "many");
                                         y_number_of_vcpu := None;
                                         y_ram_size := None |} |})) ∅
              {| role := "master"; number_of_nodes := 2; number_of_vcpu := 2;
                 ram_size := 4 |} eq_refl eq_refl _ _ _); done.
  - refine (proj2 (proj2 (proj2 (get_kubernetes_config_errors
                                   {| y_common := Some ∅;
                                      y_master := None;
                                      y_worker :=
                                        Some {| y_number_of_nodes :=
                                                  Some (YNotInt "many");
                                                y_number_of_vcpu := None;
                                                y_ram_size := None |} |})))
              ∅
              {| role := "master"; number_of_nodes := 3; number_of_vcpu := 2;
                 ram_size := 4 |} "many" eq_refl eq_refl _ eq_refl).
    right; by left.
Defined.

(** ** Further properties: the batch of clones *)

Lemma length_range (n : Z) : length (range n) = Z.to_nat n.
Proof. unfold range. by rewrite length_map, length_seq. Qed.

(** X11.  With the configuration that [get_kubernetes_config] returns,
    the number of clone specifications is the count that [prepare_env]
    expects to find after the clone, provided the number of worker nodes
    is not negative; a negative number of worker nodes gives no worker
    specification, and the expected count is then smaller than the number
    of clones requested. *)
Theorem clone_count_is_expected_count (data : K8sYaml)
    (common_config : gmap string string)
    (master_config worker_config : NodeConfig) (vm_domain : string) :
  get_kubernetes_config (inr data)
  = inr (common_config, master_config, worker_config) ->
  let clones :=
    Z.of_nat (length (clone_spec_list [master_config; worker_config]
                        vm_domain)) in
  let expected_count :=
    (number_of_nodes master_config + number_of_nodes worker_config)%Z in
  ((0 <= number_of_nodes worker_config)%Z -> clones = expected_count)
  /\ ((number_of_nodes worker_config < 0)%Z ->
      clones = number_of_nodes master_config
      /\ (expected_count < clones)%Z).
Proof.
  intros Hconfig clones expected_count. subst clones expected_count.
  destruct (get_kubernetes_config_result _ _ _ _ Hconfig)
    as (_ & _ & _ & Hmaster & _).
  rewrite clone_spec_list_flat_map. cbn [flat_map].
  rewrite app_nil_r, length_app, !length_map, !length_range.
  split; intros Hworker; [lia|]. split; lia.
Qed.

Lemma clone_count_is_expected_count_witness :
  Z.of_nat (length (clone_spec_list
                      [{| role := "master"; number_of_nodes := 1;
                          number_of_vcpu := 2; ram_size := 4 |};
                       {| role := "worker"; number_of_nodes := 2;
                          number_of_vcpu := 2; ram_size := 4 |}] "demo"))
  = (1 + 2)%Z.
Proof.
  refine (proj1 (clone_count_is_expected_count sample_k8s_yaml _
                   {| role := "master"; number_of_nodes := 1;
                      number_of_vcpu := 2; ram_size := 4 |}
                   {| role := "worker"; number_of_nodes := 2;
                      number_of_vcpu := 2; ram_size := 4 |} "demo" eq_refl) _).
  done.
Defined.

Lemma str_inj (a b : Z) : str a = str b -> a = b.
Proof.
  unfold str. intros Heq.
  assert (Hnorm : forall z, Z.to_int z <> Decimal.Pos Decimal.Nil
                            /\ Z.to_int z <> Decimal.Neg Decimal.Nil).
  { intros z. split; intros Hz; pose proof (f_equal Z.of_int Hz) as Hzero;
      rewrite DecimalZ.of_to in Hzero; cbn in Hzero; subst z;
      vm_compute in Hz; discriminate. }
  apply (f_equal NilZero.int_of_string) in Heq.
  rewrite !NilZero.isi in Heq by apply Hnorm.
  injection Heq as Heq. apply (f_equal Z.of_int) in Heq.
  by rewrite !DecimalZ.of_to in Heq.
Qed.

Lemma append_inj_r (s1 s2 t : string) : s1 +:+ t = s2 +:+ t -> s1 = s2.
Proof.
  revert s2. induction s1 as [|c s1 IH]; intros [|c' s2] Heq.
  - done.
  - apply (f_equal String.length) in Heq.
    rewrite append_nil_l, append_cons in Heq. cbn in Heq.
    rewrite length_append in Heq. lia.
  - apply (f_equal String.length) in Heq.
    rewrite append_nil_l, append_cons in Heq. cbn in Heq.
    rewrite length_append in Heq. lia.
  - rewrite !append_cons in Heq. injection Heq as -> Heq.
    by rewrite (IH s2 Heq).
Qed.

Lemma vm_name_inj (a b : Z) (role vm_domain : string) :
  vm_name a role vm_domain = vm_name b role vm_domain -> a = b.
Proof.
  unfold vm_name. intros Heq.
  apply (inj (String.append role)), (inj (String.append "-")) in Heq.
  by apply append_inj_r, str_inj in Heq.
Qed.

Lemma NoDup_range (n : Z) : NoDup (range n).
Proof.
  unfold range. apply (NoDup_fmap_2 Z.of_nat), NoDup_ListNoDup, List.seq_NoDup.
Qed.

(** X12.  With the configuration that [get_kubernetes_config] returns,
    the names of the clone specifications are pairwise distinct. *)
Theorem clone_names_distinct (data : K8sYaml)
    (common_config : gmap string string)
    (master_config worker_config : NodeConfig) (vm_domain : string) :
  get_kubernetes_config (inr data)
  = inr (common_config, master_config, worker_config) ->
  NoDup (map clone_name
           (clone_spec_list [master_config; worker_config] vm_domain)).
Proof.
  intros Hconfig.
  destruct (get_kubernetes_config_result _ _ _ _ Hconfig)
    as (_ & Hmaster & Hworker & _).
  rewrite clone_spec_list_flat_map. cbn [flat_map].
  rewrite app_nil_r, map_app, !map_map. cbn [clone_name prepare_clone].
  rewrite Hmaster, Hworker. apply NoDup_app. split; [|split].
  - apply (NoDup_fmap_2_strong (fun number => vm_name number "master" vm_domain));
      [|apply NoDup_range].
    intros a b _ _. apply vm_name_inj.
  - intros name (a & -> & _)%list_elem_of_fmap (b & Hb & _)%list_elem_of_fmap.
    unfold vm_name in Hb. rewrite !append_cons in Hb. discriminate.
  - apply (NoDup_fmap_2_strong (fun number => vm_name number "worker" vm_domain));
      [|apply NoDup_range].
    intros a b _ _. apply vm_name_inj.
Qed.

Lemma clone_names_distinct_witness :
  NoDup (map clone_name
           (clone_spec_list
              [{| role := "master"; number_of_nodes := 1;
                  number_of_vcpu := 2; ram_size := 4 |};
               {| role := "worker"; number_of_nodes := 2;
                  number_of_vcpu := 2; ram_size := 4 |}] "demo")).
Proof.
  exact (clone_names_distinct sample_k8s_yaml _
           {| role := "master"; number_of_nodes := 1;
              number_of_vcpu := 2; ram_size := 4 |}
           {| role := "worker"; number_of_nodes := 2;
              number_of_vcpu := 2; ram_size := 4 |} "demo" eq_refl).
Defined.

(** ** Further properties: key files and the cloud config *)

(** X13.  [SSH_KEY_FILE_PATTERN.match] accepts exactly the names that
    begin with a user name followed by [.pub], whatever comes after, and
    gives that user name: the match is anchored at the start of the name
    only. *)
Theorem ssh_key_pattern_matches_prefix (file_name u : string) :
  SSH_KEY_FILE_PATTERN_match file_name = Some u
  <-> is_username u = true
      /\ exists rest, file_name = u +:+ ".pub" +:+ rest.
Proof.
  split.
  - intros (c & run & dollar & rest & -> & -> & Hc & Hrun & Hd)%pattern_match_elim.
    split.
    + apply is_username_iff. exists c, run, dollar. by eauto.
    + exists rest. by rewrite (append_cons c), append_assoc.
  - intros [Hu [rest ->]].
    apply is_username_iff in Hu as (c & run & dollar & -> & Hc & Hrun & Hd).
    rewrite (append_cons c), append_assoc.
    by apply pattern_match_intro.
Qed.

Lemma cloud_config_parts_readable (dir : Directory) (parts : list string) :
  Forall (fun entry : string * option string =>
            SSH_KEY_FILE_PATTERN_match entry.1 <> None -> entry.2 <> None)
    dir ->
  exists parts', cloud_config_parts dir parts = inr parts'.
Proof.
  intros Hread. revert parts.
  induction Hread as [|[file_name contents] dir Hentry _ IH]; intros parts;
    cbn [cloud_config_parts]; [by eexists|].
  cbn [fst snd] in Hentry.
  destruct (SSH_KEY_FILE_PATTERN_match file_name) as [u|]; [|apply IH].
  destruct contents as [ssh_key|]; [apply IH|]. by destruct Hentry.
Qed.

Lemma cloud_config_parts_unreadable (before after : Directory)
    (file_name : string) (parts : list string) :
  Forall (fun entry : string * option string =>
            SSH_KEY_FILE_PATTERN_match entry.1 <> None -> entry.2 <> None)
    before ->
  SSH_KEY_FILE_PATTERN_match file_name <> None ->
  cloud_config_parts (before ++ (file_name, None) :: after)%list parts
  = inl (IOError file_name).
Proof.
  intros Hread Hmatch. revert parts.
  induction Hread as [|[name contents] before Hentry _ IH]; intros parts;
    cbn [cloud_config_parts app].
  - by destruct (SSH_KEY_FILE_PATTERN_match file_name).
  - cbn [fst snd] in Hentry.
    destruct (SSH_KEY_FILE_PATTERN_match name) as [u|]; [|apply IH].
    destruct contents as [ssh_key|]; [apply IH|]. by destruct Hentry.
Qed.

(** X14.  [generate_cloud_config] opens only the files whose name the
    pattern matches.  When all of these can be read it does not raise
    [IOError], whatever the other entries are; when one of them cannot be
    read, it raises [IOError] for the first such file, even when other
    keys are in the directory. *)
Theorem generate_cloud_config_unreadable_key (dir : Directory) :
  (Forall (fun entry : string * option string =>
             SSH_KEY_FILE_PATTERN_match entry.1 <> None -> entry.2 <> None)
     dir ->
   forall path, generate_cloud_config dir <> inl (IOError path))
  /\ (forall before after file_name,
        dir = (before ++ (file_name, None) :: after)%list ->
        Forall (fun entry : string * option string =>
                  SSH_KEY_FILE_PATTERN_match entry.1 <> None ->
                  entry.2 <> None) before ->
        SSH_KEY_FILE_PATTERN_match file_name <> None ->
        generate_cloud_config dir = inl (IOError file_name)).
Proof.
  split.
  - intros Hread path. unfold generate_cloud_config.
    destruct (cloud_config_parts_readable dir [] Hread) as [parts ->].
    by destruct parts.
  - intros before after file_name -> Hread Hmatch.
    unfold generate_cloud_config.
    by rewrite (cloud_config_parts_unreadable before after file_name []
                  Hread Hmatch).
Qed.

Lemma generate_cloud_config_unreadable_key_witness :
  generate_cloud_config
    [("alice.pub", Some "KEY_A"); ("notes.txt", None); ("bob.pub", None);
     ("carol.pub", Some "KEY_C")]
  = inl (IOError "bob.pub").
Proof.
  refine (proj2 (generate_cloud_config_unreadable_key _)
            [("alice.pub", Some "KEY_A"); ("notes.txt", None)]
            [("carol.pub", Some "KEY_C")] "bob.pub" eq_refl _ _).
  - repeat constructor; cbn; done.
  - done.
Defined.

(** ** Further properties: the inventory *)

Lemma host_lines_index_error (items : list (string * list string)) :
  host_lines items = inl IndexError
  <-> Exists (fun item => item.2 = []) items.
Proof.
  induction items as [|[name node_ips] items IH]; cbn [host_lines].
  - split; [done|by inversion 1].
  - destruct node_ips as [|ip node_ips].
    + split; [by constructor|done].
    + destruct (host_lines items) as [e|lines].
      * split.
        -- intros [= ->]. apply Exists_cons_tl. by apply IH.
        -- inversion 1 as [? ? Hbad|? ? Hrest]; [done|].
           apply IH in Hrest. by injection Hrest as ->.
      * split; [done|].
        inversion 1 as [? ? Hbad|? ? Hrest]; [done|]. by apply IH in Hrest.
Qed.

Lemma host_lines_only_index_error (items : list (string * list string)) e :
  host_lines items = inl e -> e = IndexError.
Proof.
  revert e. induction items as [|[name node_ips] items IH]; intros e;
    cbn [host_lines]; [done|].
  destruct node_ips as [|ip node_ips]; [by intros [= <-]|].
  destruct (host_lines items) as [e'|lines]; [|done].
  intros [= <-]. by apply IH.
Qed.

Lemma host_lines_lines (items : list (string * list string)) lines :
  host_lines items = inr lines -> Forall2 host_line_of items lines.
Proof.
  revert lines. induction items as [|[name node_ips] items IH]; intros lines;
    cbn [host_lines].
  - intros [= <-]. constructor.
  - destruct node_ips as [|ip node_ips]; [done|].
    destruct (host_lines items) as [?|lines']; [done|].
    intros [= <-]. constructor; [|by apply IH].
    exists ip, node_ips. by split.
Qed.

(** X15.  Rendering the inventory fails exactly when some VM of the
    mapping has an empty address list, and then with [IndexError].
    Otherwise the lines are, in this order: one host line per VM of the
    mapping, made of its name and the first of its addresses; the header
    of the masters and the names that start with "master"; the header of
    the nodes and the names that start with "worker"; the constant
    lines.  The VMs come in the same order in the three places. *)
Theorem render_inventory_index_error
    (vms_with_ips : gmap string (list string)) :
  (render_inventory vms_with_ips = inl IndexError
   <-> exists name, vms_with_ips !! name = Some [])
  /\ (forall e, render_inventory vms_with_ips = inl e -> e = IndexError)
  /\ (forall inventory_lines,
        render_inventory vms_with_ips = inr inventory_lines ->
        exists hosts,
          Forall2 host_line_of (map_to_list vms_with_ips) hosts
          /\ inventory_lines
             = (hosts
                ++ [LF +:+ "[kube-master]"]
                ++ List.filter (fun name => startswith name "master")
                     (map_to_list vms_with_ips).*1
                ++ [LF +:+ "[kube-node]"]
                ++ List.filter (fun name => startswith name "worker")
                     (map_to_list vms_with_ips).*1
                ++ INVENTORY_CONST)%list).
Proof.
  unfold render_inventory. split; [|split].
  - destruct (host_lines (map_to_list vms_with_ips)) as [e|lines] eqn:Hlines.
    + pose proof (host_lines_only_index_error _ _ Hlines) as ->.
      apply host_lines_index_error in Hlines. split; [intros _|done].
      apply Exists_exists in Hlines as ([name node_ips] & Hin & Hnone).
      cbn in Hnone. subst node_ips. exists name.
      by apply elem_of_map_to_list.
    + split; [done|]. intros [name Hname].
      assert (Hbad : host_lines (map_to_list vms_with_ips) = inl IndexError).
      { apply host_lines_index_error, Exists_exists. exists (name, []).
        split; [|done]. by apply elem_of_map_to_list. }
      congruence.
  - intros e.
    destruct (host_lines (map_to_list vms_with_ips)) as [e'|lines] eqn:Hlines;
      [|done].
    intros [= <-]. by apply host_lines_only_index_error in Hlines.
  - intros inventory_lines.
    destruct (host_lines (map_to_list vms_with_ips)) as [e'|lines] eqn:Hlines;
      [done|].
    intros [= <-]. exists lines. split; [|done].
    by apply host_lines_lines.
Qed.

(** ** Further properties: the loops of prepare_env *)

Lemma get_vms_property_events {St A} (hv : Hypervisor St) query
    (vm_property : VM -> A) (h : St) :
  events (get_vms_property hv query vm_property h)
  = [EvGetVms query (hv_vms hv query h).1].
Proof.
  unfold get_vms_property, get_vms, bind, api_vms. rewrite api_call_run.
  cbn [outcome events final].
  destruct (hv_vms hv query h).1 as [|status_code data]; [done|].
  by destruct (accepted GET status_code).
Qed.

(** X16.  The loop that waits for addresses does nothing when every VM
    of the mapping it starts from has an address, which includes the
    mapping without any VM: it returns that mapping at once.  In every
    case its events are turns of one pause of [SLEEP_TIME] followed by
    one search of the VMs by the name of the cluster, at most as many
    turns as the bound allows. *)
Theorem wait_for_ips_turns {St} (hv : Hypervisor St) (fuel : nat)
    (k8s_cluster_name : string) (first_look : gmap string (list string))
    (h : St) :
  let r := wait_for_ips hv fuel k8s_cluster_name first_look h in
  (all_assigned first_look = true -> r = MkRun (Returned first_look) h [])
  /\ (wait_for_ips hv fuel k8s_cluster_name ∅ h = MkRun (Returned ∅) h [])
  /\ exists replies,
       events r
       = flat_map (fun reply =>
                     [EvSleep SLEEP_TIME; EvGetVms k8s_cluster_name reply])
           replies
       /\ length replies <= fuel.
Proof.
  cbv zeta. split; [|split].
  - intros Hall. by destruct fuel; cbn [wait_for_ips]; rewrite Hall.
  - by destruct fuel.
  - revert first_look h. induction fuel as [|fuel IH]; intros first_look h;
      cbn [wait_for_ips]; destruct (all_assigned first_look);
      try (exists []; split; [done|cbn; lia]).
    unfold bind at 1. cbn [sleep outcome events final].
    set (h1 := hv_sleep hv SLEEP_TIME h).
    pose proof (get_vms_property_events hv k8s_cluster_name ipAddresses h1)
      as Hsearch.
    unfold bind.
    destruct (outcome (get_vms_property hv k8s_cluster_name ipAddresses h1))
      as [second_look| |] eqn:Hout; cbn [events app].
    + destruct (IH second_look
                  (final (get_vms_property hv k8s_cluster_name ipAddresses
                            h1)))
        as (replies & Hevents & Hlen).
      exists ((hv_vms hv k8s_cluster_name h1).1 :: replies).
      cbn [flat_map length app]. rewrite Hsearch, Hevents. split; [done|lia].
    + exists [(hv_vms hv k8s_cluster_name h1).1]. rewrite Hsearch.
      split; [done|cbn; lia].
    + exists [(hv_vms hv k8s_cluster_name h1).1]. rewrite Hsearch.
      split; [done|cbn; lia].
Qed.

Lemma wait_for_ips_turns_witness :
  wait_for_ips sample 0 "demo" (<["worker-0-demo" := ["10.0.0.10"]]> ∅)
    fresh_cluster
  = MkRun (Returned (<["worker-0-demo" := ["10.0.0.10"]]> ∅))
      fresh_cluster [].
Proof.
  exact (proj1 (wait_for_ips_turns sample 0 "demo"
                  (<["worker-0-demo" := ["10.0.0.10"]]> ∅) fresh_cluster)
           eq_refl).
Defined.

Lemma set_vm_power_run {St} (hv : Hypervisor St) target_uuid state (h : St) :
  set_vm_power hv target_uuid state h
  = MkRun (match (hv_vms_set_power_state hv target_uuid state h).1 with
           | ConnectionFailed => Raised ConnectionError
           | Response status_code _ =>
               if accepted POST status_code then Returned tt
               else Raised (HTTPError status_code)
           end)
          (hv_vms_set_power_state hv target_uuid state h).2
          [EvPostSetPowerState target_uuid state
             (hv_vms_set_power_state hv target_uuid state h).1].
Proof.
  unfold set_vm_power, bind, api_vms_set_power_state. rewrite api_call_run.
  cbn [outcome events final].
  destruct (hv_vms_set_power_state hv target_uuid state h).1
    as [|status_code task]; [done|].
  by destruct (accepted POST status_code).
Qed.

(** X17.  The loop that powers on the VMs sends, in the order of the
    list, one request with the transition "on" per VM and nothing else.
    Either every request passes, every VM of the list has had its
    request and the loop returns; or the last request sent is the first
    one that does not pass, nothing is sent after it, and the loop raises
    the error of that request, [HTTPError] with its status code or
    [ConnectionError]. *)
Theorem power_on_in_order {St} (hv : Hypervisor St) (uuids : list string)
    (h : St) :
  let r := for_each uuids
             (fun target_uuid => set_vm_power hv target_uuid "on") h in
  exists replies,
    events r
    = zip_with (fun target_uuid reply =>
                  EvPostSetPowerState target_uuid "on" reply)
        uuids replies
    /\ length replies <= length uuids
    /\ ((forallb (passes POST) replies = true
         /\ length replies = length uuids
         /\ outcome r = Returned tt)
        \/ (exists sent failed,
              replies = (sent ++ [failed])%list
              /\ forallb (passes POST) sent = true
              /\ passes POST failed = false
              /\ outcome r = Raised (failure_of failed))).
Proof.
  cbv zeta. revert h. induction uuids as [|target_uuid uuids IH]; intros h;
    cbn [for_each].
  - exists []. split; [done|]. split; [done|]. by left.
  - unfold bind. rewrite set_vm_power_run. cbn [outcome events final].
    set (h1 := (hv_vms_set_power_state hv target_uuid "on" h).2).
    destruct (hv_vms_set_power_state hv target_uuid "on" h).1
      as [|status_code task].
    + exists [ConnectionFailed]. cbn [app length zip_with].
      split; [by destruct uuids|]. split; [lia|]. right.
      by exists [], ConnectionFailed.
    + destruct (accepted POST status_code) eqn:Hcode;
        cbn [outcome events final ret app].
      * destruct (IH h1) as (replies & Hevents & Hlen & Hcourse).
        exists (Response status_code task :: replies). rewrite Hevents.
        cbn [zip_with length]. split; [done|]. split; [lia|].
        destruct Hcourse as [(Hpass & Hall & Hout)
                            |(sent & failed & -> & Hpass & Hfail & Hout)].
        -- left. cbn [forallb passes]. rewrite Hcode, Hpass, Hall.
           by split; [|split].
        -- right. exists (Response status_code task :: sent), failed.
           cbn [forallb passes]. rewrite Hcode, Hpass.
           by split; [|split; [|split]].
      * exists [Response status_code task]. cbn [app length zip_with].
        split; [by destruct uuids|]. split; [lia|]. right.
        exists [], (Response status_code task). cbn [forallb passes failure_of].
        by split; [|split; [|split]].
Qed.

(** ** Further properties: what comes before the first request *)

Lemma bind_events_prefix {St A B} (m : M St A) (f : A -> M St B) (h : St) :
  exists rest, events (bind m f h) = (events (m h) ++ rest)%list.
Proof.
  unfold bind. destruct (outcome (m h)); cbn [events];
    [by eexists|exists []; by rewrite app_nil_r..].
Qed.

Lemma Nutanix_init_unconfigured {St} (hv : Hypervisor St) file
    nutanix_cluster_name credentials (h : St) :
  cluster_configured file nutanix_cluster_name = false ->
  exists e,
    Nutanix_init hv file nutanix_cluster_name credentials h
    = MkRun (Raised e) h [].
Proof.
  unfold Nutanix_init, cluster_configured, lift, getitem.
  destruct file as [e|data]; [by eauto|]. rewrite bind_ret_l.
  destruct (y_clusters data) as [clusters_config|]; [|by eauto].
  destruct (clusters_config !! nutanix_cluster_name) as [config|];
    [|by eauto].
  rewrite bind_ret_l.
  destruct (y_address config); [|by eauto].
  destruct (y_port config); [done|by eauto].
Qed.

Lemma Nutanix_init_configured {St} (hv : Hypervisor St) file
    nutanix_cluster_name credentials (h : St) :
  cluster_configured file nutanix_cluster_name = true ->
  events (Nutanix_init hv file nutanix_cluster_name credentials h)
  = [EvLogin credentials (hv_login hv credentials h).1].
Proof.
  unfold Nutanix_init, cluster_configured, lift, getitem.
  destruct file as [e|data]; [done|]. rewrite bind_ret_l.
  destruct (y_clusters data) as [clusters_config|]; [|done].
  destruct (clusters_config !! nutanix_cluster_name) as [config|]; [|done].
  rewrite bind_ret_l.
  destruct (y_address config); [|done].
  destruct (y_port config); [|done].
  intros _. unfold api_connect.
  destruct (hv_login hv credentials h) as [[|status_code body] h'];
    cbn [fst snd]; [done|].
  destruct (status_code =? 200)%Z; [done|].
  by destruct (status_code =? 401)%Z.
Qed.

(** X18.  [prepare_env] sends nothing and writes nothing before its
    inputs have been checked: a run that has any event at all had the
    name of the Kubernetes cluster in its environment and accepted it as a
    domain name, had the name of the Nutanix cluster in its environment,
    got the configuration of the Kubernetes cluster and a usable entry for
    the Nutanix cluster; and its first event is the login with the
    credentials that were typed. *)
Theorem prepare_env_checks_inputs_first {St} (hv : Hypervisor St)
    (fuel : nat) (inp : Inputs) (h : St) :
  events (prepare_env hv fuel inp h) <> [] ->
  exists domain nutanix_cluster_name configs rest,
    environ inp !! K8S_CLUSTER_ENV = Some domain
    /\ DOMAIN_NAME_match domain = true
    /\ environ inp !! NUTANIX_CLUSTER_ENV = Some nutanix_cluster_name
    /\ get_kubernetes_config (k8s_config inp) = inr configs
    /\ cluster_configured (nutanix_config inp) nutanix_cluster_name = true
    /\ events (prepare_env hv fuel inp h)
       = EvLogin (typed_credentials inp)
           (hv_login hv (typed_credentials inp) h).1 :: rest.
Proof.
  unfold prepare_env, getitem, lift.
  destruct (environ inp !! K8S_CLUSTER_ENV) as [domain|]; [|done].
  rewrite bind_ret_l.
  destruct (DOMAIN_NAME_match domain) eqn:Hdomain; cbn [negb]; [|done].
  destruct (environ inp !! NUTANIX_CLUSTER_ENV) as [nutanix_cluster_name|];
    [|done].
  rewrite bind_ret_l.
  destruct (get_kubernetes_config (k8s_config inp))
    as [e|[[common master] worker]] eqn:Hconfig; [done|].
  rewrite bind_ret_l.
  destruct (cluster_configured (nutanix_config inp) nutanix_cluster_name)
    eqn:Hcluster.
  - intros _.
    destruct (bind_events_prefix
                (Nutanix_init hv (nutanix_config inp) nutanix_cluster_name
                   (typed_credentials inp))
                (fun _ =>
                   get_vms hv domain (Some 0%Z) ;;
                   prepare_env_provision hv fuel inp domain common master
                     worker) h) as [rest Hrest].
    rewrite (Nutanix_init_configured _ _ _ _ _ Hcluster) in Hrest.
    exists domain, nutanix_cluster_name, (common, master, worker), rest.
    by rewrite Hrest.
  - destruct (Nutanix_init_unconfigured hv _ _ (typed_credentials inp) h
                Hcluster) as [e Hinit].
    unfold bind at 1. by rewrite Hinit.
Qed.

Lemma prepare_env_checks_inputs_first_witness :
  exists domain nutanix_cluster_name configs rest,
    environ sample_inputs !! K8S_CLUSTER_ENV = Some domain
    /\ DOMAIN_NAME_match domain = true
    /\ environ sample_inputs !! NUTANIX_CLUSTER_ENV
       = Some nutanix_cluster_name
    /\ get_kubernetes_config (k8s_config sample_inputs) = inr configs
    /\ cluster_configured (nutanix_config sample_inputs) nutanix_cluster_name
       = true
    /\ events (prepare_env sample 5 sample_inputs fresh_cluster)
       = EvLogin (typed_credentials sample_inputs)
           (hv_login sample (typed_credentials sample_inputs)
              fresh_cluster).1 :: rest.
Proof.
  apply (prepare_env_checks_inputs_first sample 5 sample_inputs fresh_cluster).
  vm_compute. discriminate.
Defined.

(** ** Further properties: the name of the Kubernetes cluster *)

Lemma before_final_newline_cons (c c' : ascii) (s : string) :
  before_final_newline (String c (String c' s))
  = String c (before_final_newline (String c' s)).
Proof. reflexivity. Qed.

Lemma before_final_newline_split (s : string) :
  s = before_final_newline s \/ s = before_final_newline s +:+ LF.
Proof.
  induction s as [|c s IH]; [by left|].
  destruct s as [|c' s].
  - cbn. destruct (is_char 10 c) eqn:Hc; [|by left].
    apply is_char_eq in Hc as ->. by right.
  - rewrite before_final_newline_cons, append_cons.
    destruct IH as [<-|<-]; by eauto.
Qed.

Lemma is_label_chars (s : string) :
  is_label s = true -> all_chars label_char s = true.
Proof.
  destruct s as [|c s]; [done|]. cbn [is_label all_chars].
  intros [[Hc Hs]%andb_true_iff _]%andb_true_iff.
  apply andb_true_iff. split; [|done]. unfold label_char. by rewrite Hc.
Qed.

Lemma split_on_chars (sep : ascii) (s : string) :
  forallb (all_chars label_char) (split_on sep s) = true ->
  all_chars (fun c => label_char c || Ascii.eqb c sep) s = true.
Proof.
  induction s as [|c s IH]; [done|]. cbn [split_on all_chars].
  destruct (Ascii.eqb c sep) eqn:Hsep.
  - cbn [forallb all_chars andb]. intros Hrest.
    rewrite orb_true_r. by apply IH.
  - destruct (split_on sep s) as [|piece pieces].
    + cbn [forallb all_chars]. rewrite !andb_true_r. intros ->. by apply IH.
    + cbn [forallb all_chars].
      intros [[Hc Hpiece]%andb_true_iff Hpieces]%andb_true_iff.
      rewrite Hc. cbn [orb andb]. apply IH. cbn [forallb].
      by rewrite Hpiece, Hpieces.
Qed.

(** X19.  A name that [DOMAIN_NAME] accepts starts with a lowercase
    letter or a digit and goes on with lowercase letters, digits, hyphens
    and dots only; the one exception is a line feed at its very end,
    which the pattern lets through. *)
Theorem domain_name_characters (s : string) :
  DOMAIN_NAME_match s = true ->
  exists c t,
    (s = String c t \/ s = String c t +:+ LF)
    /\ is_alnum c = true
    /\ all_chars domain_char t = true.
Proof.
  unfold DOMAIN_NAME_match. intros Hlabels.
  assert (Hchars : all_chars domain_char (before_final_newline s) = true).
  { apply (split_on_chars (ascii_of_nat 46)).
    apply forallb_forall. intros piece Hpiece.
    apply is_label_chars. by apply (proj1 (forallb_forall _ _) Hlabels). }
  destruct (before_final_newline s) as [|c t] eqn:Hname; [done|].
  exists c, t. split; [|split].
  - rewrite <- Hname. apply before_final_newline_split.
  - cbn [split_on] in Hlabels.
    destruct (Ascii.eqb c (ascii_of_nat 46)); [done|].
    destruct (split_on (ascii_of_nat 46) t) as [|piece pieces];
      cbn [forallb is_label] in Hlabels.
    + by destruct (is_alnum c).
    + by destruct (is_alnum c).
  - cbn [all_chars] in Hchars. by apply andb_true_iff in Hchars as [_ ?].
Qed.

Lemma domain_name_characters_witness :
  exists c t,
    ("k8s.lab-1" +:+ LF = String c t \/ "k8s.lab-1" +:+ LF = String c t +:+ LF)
    /\ is_alnum c = true
    /\ all_chars domain_char t = true.
Proof. exact (domain_name_characters ("k8s.lab-1" +:+ LF) eq_refl). Defined.

(** ** Further properties: preparing comes before starting *)

Section Phases.
Context {St : Type} (hv : Hypervisor St).

Lemma phases_bind {A B} (m : M St A) (f : A -> M St B) :
  only preparing m -> (forall a h, in_two_phases (f a h)) ->
  forall h, in_two_phases (bind m f h).
Proof.
  intros Hm Hf h. unfold bind. specialize (Hm h).
  destruct (outcome (m h)) as [a| |].
  - destruct (Hf a (final (m h))) as (before & after & Hev & Hb & Ha).
    exists (events (m h) ++ before)%list, after. cbn [events].
    split; [by rewrite Hev, app_assoc|]. split; [by apply Forall_app|done].
  - exists (events (m h)), []. cbn [events].
    split; [by rewrite app_nil_r|]. by split.
  - exists (events (m h)), []. cbn [events].
    split; [by rewrite app_nil_r|]. by split.
Qed.

Lemma phases_starting {A} (m : M St A) :
  only starting m -> forall h, in_two_phases (m h).
Proof. intros Hm h. exists [], (events (m h)). by split; [|split]. Qed.

Lemma phases_raise {A} e (h : St) : in_two_phases (raise e h : Run St A).
Proof. exists [], []. by split; [|split]. Qed.

Ltac within :=
  let k := fresh "k" in
  let Hk := fresh "Hk" in
  intros k Hk;
  repeat (apply elem_of_cons in Hk as [->|Hk]; [by repeat constructor|]);
  by apply elem_of_nil in Hk.

Lemma phases_provision fuel inp k8s_cluster_name k8s_common_config
    k8s_master_config k8s_worker_config (h : St) :
  in_two_phases
    (prepare_env_provision hv fuel inp k8s_cluster_name k8s_common_config
       k8s_master_config k8s_worker_config h).
Proof.
  revert h. unfold prepare_env_provision.
  apply phases_bind; [apply only_getitem|]. intros name.
  apply phases_bind;
    [eapply only_mono; [|apply only_get_network]; within|]. intros network.
  apply phases_bind; [apply only_getitem|]. intros os_image_name.
  apply phases_bind; [apply only_getitem|]. intros storage.
  apply phases_bind;
    [eapply only_mono; [|apply only_get_or_create_os_image]; within|].
  intros os_image.
  apply phases_bind; [apply only_getitem|]. intros base_vm_name.
  apply phases_bind; [apply only_getitem|]. intros ssh_dir.
  apply phases_bind; [apply only_lift|]. intros ssh_keys_directory.
  apply phases_bind; [apply only_lift|]. intros cloud_config.
  apply phases_bind;
    [eapply only_mono; [|apply only_get_or_create_vm]; within|].
  intros base_vm.
  apply phases_bind; [eapply only_mono; [|apply only_clone_vm]; within|].
  intros _.
  apply phases_bind; [eapply only_mono; [|apply only_get_vms]; within|].
  intros _.
  apply phases_bind;
    [eapply only_mono; [|apply only_get_vms_property]; within|].
  intros uuids.
  apply phases_starting.
  apply only_bind;
    [eapply only_mono; [|apply only_for_each; intros; apply only_set_vm_power];
     within|].
  intros _.
  apply only_bind;
    [eapply only_mono; [|apply only_get_vms_property]; within|].
  intros first_look.
  apply only_bind; [eapply only_mono; [|apply only_wait_for_ips]; within|].
  intros vms_with_ips.
  apply only_bind; [apply only_lift|]. intros inventory_lines.
  unfold write_file. destruct (inventory_writable inp); [|apply only_raise].
  intros h. by repeat constructor.
Qed.

Lemma phases_prepare_env fuel inp (h : St) :
  in_two_phases (prepare_env hv fuel inp h).
Proof.
  revert h. unfold prepare_env.
  apply phases_bind; [apply only_getitem|]. intros k8s_cluster_name.
  destruct (DOMAIN_NAME_match k8s_cluster_name); cbn [negb];
    [|apply phases_raise].
  apply phases_bind; [apply only_getitem|]. intros nutanix_cluster_name.
  apply phases_bind; [apply only_lift|]. intros [[common master] worker].
  apply phases_bind; [eapply only_mono; [|apply only_Nutanix_init]; within|].
  intros _.
  apply phases_bind; [eapply only_mono; [|apply only_get_vms]; within|].
  intros _. apply phases_provision.
Qed.

End Phases.

(** X20.  A run of [prepare_env] has two parts.  In the first it logs
    in, looks things up, creates the image and the base VM, clones and
    waits for tasks; it changes no power state and writes nothing.  In
    the second it only searches VMs, changes power states, pauses and
    writes; no request of that part creates or clones anything. *)
Theorem prepare_env_two_phases {St} (hv : Hypervisor St) (fuel : nat)
    (inp : Inputs) (h : St) :
  exists before after,
    events (prepare_env hv fuel inp h) = (before ++ after)%list
    /\ Forall (fun ev =>
                 kind ev <> KPostSetPowerState /\ kind ev <> KWriteFile)
         before
    /\ Forall (fun ev =>
                 kind ev = KGetVms \/ kind ev = KPostSetPowerState
                 \/ kind ev = KSleep \/ kind ev = KWriteFile)
         after.
Proof.
  destruct (phases_prepare_env hv fuel inp h)
    as (before & after & Hev & Hbefore & Hafter).
  exists before, after. split; [done|]. split.
  - eapply Forall_impl; [exact Hbefore|]. intros ev Hin. cbv beta.
    unfold preparing in Hin.
    repeat (apply elem_of_cons in Hin as [->|Hin]; [done|]).
    by apply elem_of_nil in Hin.
  - eapply Forall_impl; [exact Hafter|]. intros ev Hin. cbv beta.
    unfold starting in Hin.
    repeat (apply elem_of_cons in Hin as [->|Hin]; [by eauto|]).
    by apply elem_of_nil in Hin.
Qed.
